(** * financial_assist: the candlestick engine of [main.py]

    A shallow embedding of the two Flask handlers [get_stock] and
    [get_stock_graph] of [src/main.py], together with the parts of the
    Python standard library and of pandas that they rely on (string
    normalisation, calendar dates, business-day offsets, time-zone
    conversion, [between_time], [resample('5T').agg]).

    Conventions.
    - A calendar date is its proleptic Gregorian ordinal, as in
      [datetime.date.toordinal]; [timedelta(days=n)] is addition of [n].
    - An index timestamp is a number of seconds: seconds since the Unix
      epoch for a tz-aware index, wall-clock seconds for a naive one
      (pandas keeps exactly this integer, at a finer unit).
    - A price is an IEEE double in the source.  The engine only selects and
      compares prices (first, last, max, min), so any totally ordered
      carrier models them; we take [Z], with [None] for NaN.
    - A string is the UTF-8 encoding of a Python [str].
    - The provider (yfinance) is external: it is a function from queries to
      either a raised exception or a data frame, and every handler returns
      the list of queries it made together with its HTTP response. *)

From Stdlib Require Import ZArith List String Ascii Bool Lia.
From Stdlib Require Import Sorting.Sorted Sorting.Permutation.
Import ListNotations.
Local Open Scope Z_scope.

(** ** Python [str] methods used on the query parameters *)

Module PyStr.

(** A [str] is modelled by its UTF-8 encoding (an ASCII text is itself);
    a character is the string of the bytes of one code point. *)
Definition utf8 (bytes : list N) : string :=
  string_of_list_ascii (map ascii_of_N bytes).

(** The bytes 10xxxxxx, which continue a character. *)
Definition is_continuation (c : ascii) : bool :=
  let n := N_of_ascii c in (N.leb 128 n && N.ltb n 192)%bool.

(** The characters of a string, from left to right: a byte begins a
    character unless it is a continuation byte. *)
Fixpoint chars (s : string) : list string :=
  match s with
  | EmptyString => []
  | String c r =>
      match chars r with
      | String c' ch :: l =>
          if is_continuation c' then String c (String c' ch) :: l
          else String c EmptyString :: String c' ch :: l
      | l => String c EmptyString :: l
      end
  end.

(** The string made of a list of characters. *)
Definition cat (l : list string) : string := fold_right append EmptyString l.

(** The white space of [str.isspace] and [str.strip]: U+0009 to U+000D,
    U+001C to U+0020, U+0085, U+00A0, U+1680, U+2000 to U+200A, U+2028,
    U+2029, U+202F, U+205F and U+3000. *)
Definition whitespace : list string :=
  Eval vm_compute in
  map utf8
    [[9]; [10]; [11]; [12]; [13]; [28]; [29]; [30]; [31]; [32]; [194;133];
     [194;160]; [225;154;128]; [226;128;128]; [226;128;129]; [226;128;130];
     [226;128;131]; [226;128;132]; [226;128;133]; [226;128;134];
     [226;128;135]; [226;128;136]; [226;128;137]; [226;128;138];
     [226;128;168]; [226;128;169]; [226;128;175]; [226;129;159];
     [227;128;128]]%N.

(** [ch.isspace()] for one character. *)
Definition isspace (ch : string) : bool := existsb (String.eqb ch) whitespace.

(** [str.upper] on an ASCII character. *)
Definition upper_ascii (c : ascii) : ascii :=
  let n := N_of_ascii c in
  if (N.leb 97 n && N.leb n 122)%bool then ascii_of_N (n - 32) else c.

(** The upper-case mappings of the characters beyond ASCII (Unicode 14.0,
    UnicodeData.txt and SpecialCasing.txt, as in CPython 3.11): the bytes
    of a character and the characters it becomes. *)
Definition uppercase_table : list (string * list string) :=
  Eval vm_compute in
  map (fun e => (utf8 (fst e), map utf8 (snd e)))
  ([
   ([194;181],[[206;156]]); ([195;159],[[83];[83]]); ([195;160],[[195;128]]);
   ([195;161],[[195;129]]); ([195;162],[[195;130]]); ([195;163],[[195;131]]);
   ([195;164],[[195;132]]); ([195;165],[[195;133]]); ([195;166],[[195;134]]);
   ([195;167],[[195;135]]); ([195;168],[[195;136]]); ([195;169],[[195;137]]);
   ([195;170],[[195;138]]); ([195;171],[[195;139]]); ([195;172],[[195;140]]);
   ([195;173],[[195;141]]); ([195;174],[[195;142]]); ([195;175],[[195;143]]);
   ([195;176],[[195;144]]); ([195;177],[[195;145]]); ([195;178],[[195;146]]);
   ([195;179],[[195;147]]); ([195;180],[[195;148]]); ([195;181],[[195;149]]);
   ([195;182],[[195;150]]); ([195;184],[[195;152]]); ([195;185],[[195;153]]);
   ([195;186],[[195;154]]); ([195;187],[[195;155]]); ([195;188],[[195;156]]);
   ([195;189],[[195;157]]); ([195;190],[[195;158]]); ([195;191],[[197;184]]);
   ([196;129],[[196;128]]); ([196;131],[[196;130]]); ([196;133],[[196;132]]);
   ([196;135],[[196;134]]); ([196;137],[[196;136]]); ([196;139],[[196;138]]);
   ([196;141],[[196;140]]); ([196;143],[[196;142]]); ([196;145],[[196;144]]);
   ([196;147],[[196;146]]); ([196;149],[[196;148]]); ([196;151],[[196;150]]);
   ([196;153],[[196;152]]); ([196;155],[[196;154]]); ([196;157],[[196;156]]);
   ([196;159],[[196;158]]); ([196;161],[[196;160]]); ([196;163],[[196;162]]);
   ([196;165],[[196;164]]); ([196;167],[[196;166]]); ([196;169],[[196;168]]);
   ([196;171],[[196;170]]); ([196;173],[[196;172]]); ([196;175],[[196;174]]);
   ([196;177],[[73]]); ([196;179],[[196;178]]); ([196;181],[[196;180]]);
   ([196;183],[[196;182]]); ([196;186],[[196;185]]); ([196;188],[[196;187]]);
   ([196;190],[[196;189]]); ([197;128],[[196;191]]); ([197;130],[[197;129]]);
   ([197;132],[[197;131]]); ([197;134],[[197;133]]); ([197;136],[[197;135]]);
   ([197;137],[[202;188];[78]]); ([197;139],[[197;138]]);
   ([197;141],[[197;140]]); ([197;143],[[197;142]]); ([197;145],[[197;144]]);
   ([197;147],[[197;146]]); ([197;149],[[197;148]]); ([197;151],[[197;150]]);
   ([197;153],[[197;152]]); ([197;155],[[197;154]]); ([197;157],[[197;156]]);
   ([197;159],[[197;158]]); ([197;161],[[197;160]]); ([197;163],[[197;162]]);
   ([197;165],[[197;164]]); ([197;167],[[197;166]]); ([197;169],[[197;168]]);
   ([197;171],[[197;170]]); ([197;173],[[197;172]]); ([197;175],[[197;174]]);
   ([197;177],[[197;176]]); ([197;179],[[197;178]]); ([197;181],[[197;180]]);
   ([197;183],[[197;182]]); ([197;186],[[197;185]]); ([197;188],[[197;187]]);
   ([197;190],[[197;189]]); ([197;191],[[83]]); ([198;128],[[201;131]]);
   ([198;131],[[198;130]]); ([198;133],[[198;132]]); ([198;136],[[198;135]]);
   ([198;140],[[198;139]]); ([198;146],[[198;145]]); ([198;149],[[199;182]]);
   ([198;153],[[198;152]]); ([198;154],[[200;189]]); ([198;158],[[200;160]]);
   ([198;161],[[198;160]]); ([198;163],[[198;162]]); ([198;165],[[198;164]]);
   ([198;168],[[198;167]]); ([198;173],[[198;172]]); ([198;176],[[198;175]]);
   ([198;180],[[198;179]]); ([198;182],[[198;181]]); ([198;185],[[198;184]]);
   ([198;189],[[198;188]]); ([198;191],[[199;183]]); ([199;133],[[199;132]]);
   ([199;134],[[199;132]]); ([199;136],[[199;135]]); ([199;137],[[199;135]]);
   ([199;139],[[199;138]]); ([199;140],[[199;138]]); ([199;142],[[199;141]]);
   ([199;144],[[199;143]]); ([199;146],[[199;145]]); ([199;148],[[199;147]]);
   ([199;150],[[199;149]]); ([199;152],[[199;151]]); ([199;154],[[199;153]]);
   ([199;156],[[199;155]]); ([199;157],[[198;142]]); ([199;159],[[199;158]]);
   ([199;161],[[199;160]]); ([199;163],[[199;162]]); ([199;165],[[199;164]]);
   ([199;167],[[199;166]]); ([199;169],[[199;168]]); ([199;171],[[199;170]]);
   ([199;173],[[199;172]]); ([199;175],[[199;174]]);
   ([199;176],[[74];[204;140]]); ([199;178],[[199;177]]);
   ([199;179],[[199;177]]); ([199;181],[[199;180]]); ([199;185],[[199;184]]);
   ([199;187],[[199;186]]); ([199;189],[[199;188]]); ([199;191],[[199;190]]);
   ([200;129],[[200;128]]); ([200;131],[[200;130]]); ([200;133],[[200;132]]);
   ([200;135],[[200;134]]); ([200;137],[[200;136]]); ([200;139],[[200;138]]);
   ([200;141],[[200;140]]); ([200;143],[[200;142]]); ([200;145],[[200;144]]);
   ([200;147],[[200;146]]); ([200;149],[[200;148]]); ([200;151],[[200;150]]);
   ([200;153],[[200;152]]); ([200;155],[[200;154]]); ([200;157],[[200;156]]);
   ([200;159],[[200;158]]); ([200;163],[[200;162]]); ([200;165],[[200;164]]);
   ([200;167],[[200;166]]); ([200;169],[[200;168]]); ([200;171],[[200;170]]);
   ([200;173],[[200;172]]); ([200;175],[[200;174]]); ([200;177],[[200;176]]);
   ([200;179],[[200;178]]); ([200;188],[[200;187]]); ([200;191],[[226;177;190]]);
   ([201;128],[[226;177;191]]); ([201;130],[[201;129]]); ([201;135],[[201;134]]);
   ([201;137],[[201;136]]); ([201;139],[[201;138]]); ([201;141],[[201;140]]);
   ([201;143],[[201;142]]); ([201;144],[[226;177;175]]);
   ([201;145],[[226;177;173]]); ([201;146],[[226;177;176]]);
   ([201;147],[[198;129]]); ([201;148],[[198;134]]); ([201;150],[[198;137]]);
   ([201;151],[[198;138]]); ([201;153],[[198;143]]); ([201;155],[[198;144]]);
   ([201;156],[[234;158;171]]); ([201;160],[[198;147]]);
   ([201;161],[[234;158;172]]); ([201;163],[[198;148]]);
   ([201;165],[[234;158;141]]); ([201;166],[[234;158;170]]);
   ([201;168],[[198;151]]); ([201;169],[[198;150]]); ([201;170],[[234;158;174]]);
   ([201;171],[[226;177;162]]); ([201;172],[[234;158;173]]);
   ([201;175],[[198;156]]); ([201;177],[[226;177;174]]); ([201;178],[[198;157]]);
   ([201;181],[[198;159]]); ([201;189],[[226;177;164]]); ([202;128],[[198;166]]);
   ([202;130],[[234;159;133]]); ([202;131],[[198;169]]);
   ([202;135],[[234;158;177]]); ([202;136],[[198;174]]); ([202;137],[[201;132]]);
   ([202;138],[[198;177]]); ([202;139],[[198;178]]); ([202;140],[[201;133]]);
   ([202;146],[[198;183]]); ([202;157],[[234;158;178]]);
   ([202;158],[[234;158;176]]); ([205;133],[[206;153]]); ([205;177],[[205;176]]);
   ([205;179],[[205;178]]); ([205;183],[[205;182]]); ([205;187],[[207;189]]);
   ([205;188],[[207;190]]); ([205;189],[[207;191]]);
   ([206;144],[[206;153];[204;136];[204;129]]); ([206;172],[[206;134]]);
   ([206;173],[[206;136]]); ([206;174],[[206;137]]); ([206;175],[[206;138]]);
   ([206;176],[[206;165];[204;136];[204;129]]); ([206;177],[[206;145]]);
   ([206;178],[[206;146]]); ([206;179],[[206;147]]); ([206;180],[[206;148]]);
   ([206;181],[[206;149]]); ([206;182],[[206;150]]); ([206;183],[[206;151]]);
   ([206;184],[[206;152]]); ([206;185],[[206;153]]); ([206;186],[[206;154]]);
   ([206;187],[[206;155]]); ([206;188],[[206;156]]); ([206;189],[[206;157]]);
   ([206;190],[[206;158]]); ([206;191],[[206;159]]); ([207;128],[[206;160]]);
   ([207;129],[[206;161]]); ([207;130],[[206;163]]); ([207;131],[[206;163]]);
   ([207;132],[[206;164]]); ([207;133],[[206;165]]); ([207;134],[[206;166]]);
   ([207;135],[[206;167]]); ([207;136],[[206;168]]); ([207;137],[[206;169]]);
   ([207;138],[[206;170]]); ([207;139],[[206;171]]); ([207;140],[[206;140]]);
   ([207;141],[[206;142]]); ([207;142],[[206;143]]); ([207;144],[[206;146]]);
   ([207;145],[[206;152]]); ([207;149],[[206;166]]); ([207;150],[[206;160]]);
   ([207;151],[[207;143]]); ([207;153],[[207;152]]); ([207;155],[[207;154]]);
   ([207;157],[[207;156]]); ([207;159],[[207;158]]); ([207;161],[[207;160]]);
   ([207;163],[[207;162]]); ([207;165],[[207;164]]); ([207;167],[[207;166]]);
   ([207;169],[[207;168]]); ([207;171],[[207;170]]); ([207;173],[[207;172]]);
   ([207;175],[[207;174]]); ([207;176],[[206;154]]); ([207;177],[[206;161]]);
   ([207;178],[[207;185]]); ([207;179],[[205;191]]); ([207;181],[[206;149]]);
   ([207;184],[[207;183]]); ([207;187],[[207;186]]); ([208;176],[[208;144]]);
   ([208;177],[[208;145]]); ([208;178],[[208;146]]); ([208;179],[[208;147]]);
   ([208;180],[[208;148]]); ([208;181],[[208;149]]); ([208;182],[[208;150]]);
   ([208;183],[[208;151]]); ([208;184],[[208;152]]); ([208;185],[[208;153]]);
   ([208;186],[[208;154]]); ([208;187],[[208;155]]); ([208;188],[[208;156]]);
   ([208;189],[[208;157]]); ([208;190],[[208;158]]); ([208;191],[[208;159]]);
   ([209;128],[[208;160]]); ([209;129],[[208;161]]); ([209;130],[[208;162]]);
   ([209;131],[[208;163]]); ([209;132],[[208;164]]); ([209;133],[[208;165]]);
   ([209;134],[[208;166]]); ([209;135],[[208;167]]); ([209;136],[[208;168]]);
   ([209;137],[[208;169]]); ([209;138],[[208;170]]); ([209;139],[[208;171]]);
   ([209;140],[[208;172]]); ([209;141],[[208;173]]); ([209;142],[[208;174]]);
   ([209;143],[[208;175]]); ([209;144],[[208;128]]); ([209;145],[[208;129]]);
   ([209;146],[[208;130]]); ([209;147],[[208;131]]); ([209;148],[[208;132]]);
   ([209;149],[[208;133]]); ([209;150],[[208;134]]); ([209;151],[[208;135]]);
   ([209;152],[[208;136]]); ([209;153],[[208;137]]); ([209;154],[[208;138]]);
   ([209;155],[[208;139]]); ([209;156],[[208;140]]); ([209;157],[[208;141]]);
   ([209;158],[[208;142]]); ([209;159],[[208;143]]); ([209;161],[[209;160]]);
   ([209;163],[[209;162]]); ([209;165],[[209;164]]); ([209;167],[[209;166]]);
   ([209;169],[[209;168]]); ([209;171],[[209;170]]); ([209;173],[[209;172]]);
   ([209;175],[[209;174]]); ([209;177],[[209;176]]); ([209;179],[[209;178]]);
   ([209;181],[[209;180]]); ([209;183],[[209;182]]); ([209;185],[[209;184]]);
   ([209;187],[[209;186]]); ([209;189],[[209;188]]); ([209;191],[[209;190]]);
   ([210;129],[[210;128]]); ([210;139],[[210;138]]); ([210;141],[[210;140]]);
   ([210;143],[[210;142]]); ([210;145],[[210;144]]); ([210;147],[[210;146]]);
   ([210;149],[[210;148]]); ([210;151],[[210;150]]); ([210;153],[[210;152]]);
   ([210;155],[[210;154]]); ([210;157],[[210;156]]); ([210;159],[[210;158]]);
   ([210;161],[[210;160]]); ([210;163],[[210;162]]); ([210;165],[[210;164]]);
   ([210;167],[[210;166]]); ([210;169],[[210;168]]); ([210;171],[[210;170]]);
   ([210;173],[[210;172]]); ([210;175],[[210;174]]); ([210;177],[[210;176]]);
   ([210;179],[[210;178]]); ([210;181],[[210;180]]); ([210;183],[[210;182]]);
   ([210;185],[[210;184]]); ([210;187],[[210;186]]); ([210;189],[[210;188]]);
   ([210;191],[[210;190]]); ([211;130],[[211;129]]); ([211;132],[[211;131]]);
   ([211;134],[[211;133]]); ([211;136],[[211;135]]); ([211;138],[[211;137]]);
   ([211;140],[[211;139]]); ([211;142],[[211;141]]); ([211;143],[[211;128]]);
   ([211;145],[[211;144]]); ([211;147],[[211;146]]); ([211;149],[[211;148]]);
   ([211;151],[[211;150]]); ([211;153],[[211;152]]); ([211;155],[[211;154]]);
   ([211;157],[[211;156]]); ([211;159],[[211;158]]); ([211;161],[[211;160]]);
   ([211;163],[[211;162]]); ([211;165],[[211;164]]); ([211;167],[[211;166]]);
   ([211;169],[[211;168]]); ([211;171],[[211;170]]); ([211;173],[[211;172]]);
   ([211;175],[[211;174]]); ([211;177],[[211;176]]); ([211;179],[[211;178]]);
   ([211;181],[[211;180]]); ([211;183],[[211;182]]); ([211;185],[[211;184]]);
   ([211;187],[[211;186]]); ([211;189],[[211;188]]); ([211;191],[[211;190]]);
   ([212;129],[[212;128]]); ([212;131],[[212;130]]); ([212;133],[[212;132]]);
   ([212;135],[[212;134]]); ([212;137],[[212;136]]); ([212;139],[[212;138]]);
   ([212;141],[[212;140]]); ([212;143],[[212;142]]); ([212;145],[[212;144]]);
   ([212;147],[[212;146]]); ([212;149],[[212;148]]); ([212;151],[[212;150]]);
   ([212;153],[[212;152]]); ([212;155],[[212;154]]); ([212;157],[[212;156]]);
   ([212;159],[[212;158]]); ([212;161],[[212;160]]); ([212;163],[[212;162]]);
   ([212;165],[[212;164]]); ([212;167],[[212;166]]); ([212;169],[[212;168]]);
   ([212;171],[[212;170]]); ([212;173],[[212;172]]); ([212;175],[[212;174]]);
   ([213;161],[[212;177]]); ([213;162],[[212;178]]); ([213;163],[[212;179]]);
   ([213;164],[[212;180]]); ([213;165],[[212;181]]); ([213;166],[[212;182]]);
   ([213;167],[[212;183]]); ([213;168],[[212;184]]); ([213;169],[[212;185]]);
   ([213;170],[[212;186]]); ([213;171],[[212;187]]); ([213;172],[[212;188]]);
   ([213;173],[[212;189]]); ([213;174],[[212;190]]); ([213;175],[[212;191]]);
   ([213;176],[[213;128]]); ([213;177],[[213;129]]); ([213;178],[[213;130]]);
   ([213;179],[[213;131]]); ([213;180],[[213;132]]); ([213;181],[[213;133]]);
   ([213;182],[[213;134]]); ([213;183],[[213;135]]); ([213;184],[[213;136]]);
   ([213;185],[[213;137]]); ([213;186],[[213;138]]); ([213;187],[[213;139]]);
   ([213;188],[[213;140]]); ([213;189],[[213;141]]); ([213;190],[[213;142]]);
   ([213;191],[[213;143]]); ([214;128],[[213;144]]); ([214;129],[[213;145]]);
   ([214;130],[[213;146]]); ([214;131],[[213;147]]); ([214;132],[[213;148]]);
   ([214;133],[[213;149]]); ([214;134],[[213;150]]);
   ([214;135],[[212;181];[213;146]]); ([225;131;144],[[225;178;144]]);
   ([225;131;145],[[225;178;145]]); ([225;131;146],[[225;178;146]]);
   ([225;131;147],[[225;178;147]]); ([225;131;148],[[225;178;148]]);
   ([225;131;149],[[225;178;149]]); ([225;131;150],[[225;178;150]]);
   ([225;131;151],[[225;178;151]]); ([225;131;152],[[225;178;152]]);
   ([225;131;153],[[225;178;153]]); ([225;131;154],[[225;178;154]]);
   ([225;131;155],[[225;178;155]]); ([225;131;156],[[225;178;156]]);
   ([225;131;157],[[225;178;157]]); ([225;131;158],[[225;178;158]]);
   ([225;131;159],[[225;178;159]]); ([225;131;160],[[225;178;160]]);
   ([225;131;161],[[225;178;161]]); ([225;131;162],[[225;178;162]]);
   ([225;131;163],[[225;178;163]]); ([225;131;164],[[225;178;164]]);
   ([225;131;165],[[225;178;165]]); ([225;131;166],[[225;178;166]]);
   ([225;131;167],[[225;178;167]]); ([225;131;168],[[225;178;168]]);
   ([225;131;169],[[225;178;169]]); ([225;131;170],[[225;178;170]]);
   ([225;131;171],[[225;178;171]]); ([225;131;172],[[225;178;172]]);
   ([225;131;173],[[225;178;173]]); ([225;131;174],[[225;178;174]]);
   ([225;131;175],[[225;178;175]]); ([225;131;176],[[225;178;176]]);
   ([225;131;177],[[225;178;177]]); ([225;131;178],[[225;178;178]]);
   ([225;131;179],[[225;178;179]]); ([225;131;180],[[225;178;180]]);
   ([225;131;181],[[225;178;181]]); ([225;131;182],[[225;178;182]]);
   ([225;131;183],[[225;178;183]]); ([225;131;184],[[225;178;184]]);
   ([225;131;185],[[225;178;185]]); ([225;131;186],[[225;178;186]]);
   ([225;131;189],[[225;178;189]]); ([225;131;190],[[225;178;190]]);
   ([225;131;191],[[225;178;191]]); ([225;143;184],[[225;143;176]]);
   ([225;143;185],[[225;143;177]]); ([225;143;186],[[225;143;178]]);
   ([225;143;187],[[225;143;179]]); ([225;143;188],[[225;143;180]]);
   ([225;143;189],[[225;143;181]]); ([225;178;128],[[208;146]]);
   ([225;178;129],[[208;148]]); ([225;178;130],[[208;158]]);
   ([225;178;131],[[208;161]]); ([225;178;132],[[208;162]]);
   ([225;178;133],[[208;162]]); ([225;178;134],[[208;170]]);
   ([225;178;135],[[209;162]]); ([225;178;136],[[234;153;138]]);
   ([225;181;185],[[234;157;189]]); ([225;181;189],[[226;177;163]]);
   ([225;182;142],[[234;159;134]]); ([225;184;129],[[225;184;128]]);
   ([225;184;131],[[225;184;130]]); ([225;184;133],[[225;184;132]]);
   ([225;184;135],[[225;184;134]]); ([225;184;137],[[225;184;136]]);
   ([225;184;139],[[225;184;138]]); ([225;184;141],[[225;184;140]]);
   ([225;184;143],[[225;184;142]]); ([225;184;145],[[225;184;144]]);
   ([225;184;147],[[225;184;146]]); ([225;184;149],[[225;184;148]]);
   ([225;184;151],[[225;184;150]]); ([225;184;153],[[225;184;152]]);
   ([225;184;155],[[225;184;154]]); ([225;184;157],[[225;184;156]]);
   ([225;184;159],[[225;184;158]]); ([225;184;161],[[225;184;160]]);
   ([225;184;163],[[225;184;162]]); ([225;184;165],[[225;184;164]]);
   ([225;184;167],[[225;184;166]]); ([225;184;169],[[225;184;168]]);
   ([225;184;171],[[225;184;170]]); ([225;184;173],[[225;184;172]]);
   ([225;184;175],[[225;184;174]]); ([225;184;177],[[225;184;176]]);
   ([225;184;179],[[225;184;178]]); ([225;184;181],[[225;184;180]]);
   ([225;184;183],[[225;184;182]]); ([225;184;185],[[225;184;184]]);
   ([225;184;187],[[225;184;186]]); ([225;184;189],[[225;184;188]]);
   ([225;184;191],[[225;184;190]]); ([225;185;129],[[225;185;128]]);
   ([225;185;131],[[225;185;130]]); ([225;185;133],[[225;185;132]]);
   ([225;185;135],[[225;185;134]]); ([225;185;137],[[225;185;136]]);
   ([225;185;139],[[225;185;138]]); ([225;185;141],[[225;185;140]]);
   ([225;185;143],[[225;185;142]]); ([225;185;145],[[225;185;144]]);
   ([225;185;147],[[225;185;146]]); ([225;185;149],[[225;185;148]]);
   ([225;185;151],[[225;185;150]]); ([225;185;153],[[225;185;152]]);
   ([225;185;155],[[225;185;154]]); ([225;185;157],[[225;185;156]]);
   ([225;185;159],[[225;185;158]]); ([225;185;161],[[225;185;160]]);
   ([225;185;163],[[225;185;162]]); ([225;185;165],[[225;185;164]]);
   ([225;185;167],[[225;185;166]]); ([225;185;169],[[225;185;168]]);
   ([225;185;171],[[225;185;170]]); ([225;185;173],[[225;185;172]]);
   ([225;185;175],[[225;185;174]]); ([225;185;177],[[225;185;176]]);
   ([225;185;179],[[225;185;178]]); ([225;185;181],[[225;185;180]]);
   ([225;185;183],[[225;185;182]]); ([225;185;185],[[225;185;184]]);
   ([225;185;187],[[225;185;186]]); ([225;185;189],[[225;185;188]]);
   ([225;185;191],[[225;185;190]]); ([225;186;129],[[225;186;128]]);
   ([225;186;131],[[225;186;130]]); ([225;186;133],[[225;186;132]]);
   ([225;186;135],[[225;186;134]]); ([225;186;137],[[225;186;136]]);
   ([225;186;139],[[225;186;138]]); ([225;186;141],[[225;186;140]]);
   ([225;186;143],[[225;186;142]]); ([225;186;145],[[225;186;144]]);
   ([225;186;147],[[225;186;146]]); ([225;186;149],[[225;186;148]]);
   ([225;186;150],[[72];[204;177]]); ([225;186;151],[[84];[204;136]]);
   ([225;186;152],[[87];[204;138]]); ([225;186;153],[[89];[204;138]]);
   ([225;186;154],[[65];[202;190]]); ([225;186;155],[[225;185;160]]);
   ([225;186;161],[[225;186;160]]); ([225;186;163],[[225;186;162]]);
   ([225;186;165],[[225;186;164]]); ([225;186;167],[[225;186;166]]);
   ([225;186;169],[[225;186;168]]); ([225;186;171],[[225;186;170]]);
   ([225;186;173],[[225;186;172]]); ([225;186;175],[[225;186;174]]);
   ([225;186;177],[[225;186;176]]); ([225;186;179],[[225;186;178]]);
   ([225;186;181],[[225;186;180]]); ([225;186;183],[[225;186;182]]);
   ([225;186;185],[[225;186;184]]); ([225;186;187],[[225;186;186]]);
   ([225;186;189],[[225;186;188]]); ([225;186;191],[[225;186;190]]);
   ([225;187;129],[[225;187;128]]); ([225;187;131],[[225;187;130]]);
   ([225;187;133],[[225;187;132]]); ([225;187;135],[[225;187;134]]);
   ([225;187;137],[[225;187;136]]); ([225;187;139],[[225;187;138]]);
   ([225;187;141],[[225;187;140]]); ([225;187;143],[[225;187;142]]);
   ([225;187;145],[[225;187;144]]); ([225;187;147],[[225;187;146]]);
   ([225;187;149],[[225;187;148]]); ([225;187;151],[[225;187;150]]);
   ([225;187;153],[[225;187;152]]); ([225;187;155],[[225;187;154]]);
   ([225;187;157],[[225;187;156]]); ([225;187;159],[[225;187;158]]);
   ([225;187;161],[[225;187;160]]); ([225;187;163],[[225;187;162]]);
   ([225;187;165],[[225;187;164]]); ([225;187;167],[[225;187;166]]);
   ([225;187;169],[[225;187;168]]); ([225;187;171],[[225;187;170]]);
   ([225;187;173],[[225;187;172]]); ([225;187;175],[[225;187;174]]);
   ([225;187;177],[[225;187;176]]); ([225;187;179],[[225;187;178]]);
   ([225;187;181],[[225;187;180]]); ([225;187;183],[[225;187;182]]);
   ([225;187;185],[[225;187;184]]); ([225;187;187],[[225;187;186]]);
   ([225;187;189],[[225;187;188]]); ([225;187;191],[[225;187;190]]);
   ([225;188;128],[[225;188;136]]); ([225;188;129],[[225;188;137]]);
   ([225;188;130],[[225;188;138]]); ([225;188;131],[[225;188;139]]);
   ([225;188;132],[[225;188;140]]); ([225;188;133],[[225;188;141]]);
   ([225;188;134],[[225;188;142]]); ([225;188;135],[[225;188;143]]);
   ([225;188;144],[[225;188;152]]); ([225;188;145],[[225;188;153]]);
   ([225;188;146],[[225;188;154]]); ([225;188;147],[[225;188;155]]);
   ([225;188;148],[[225;188;156]]); ([225;188;149],[[225;188;157]]);
   ([225;188;160],[[225;188;168]]); ([225;188;161],[[225;188;169]]);
   ([225;188;162],[[225;188;170]]); ([225;188;163],[[225;188;171]]);
   ([225;188;164],[[225;188;172]]); ([225;188;165],[[225;188;173]]);
   ([225;188;166],[[225;188;174]]); ([225;188;167],[[225;188;175]]);
   ([225;188;176],[[225;188;184]]); ([225;188;177],[[225;188;185]]);
   ([225;188;178],[[225;188;186]]); ([225;188;179],[[225;188;187]]);
   ([225;188;180],[[225;188;188]]); ([225;188;181],[[225;188;189]]);
   ([225;188;182],[[225;188;190]]); ([225;188;183],[[225;188;191]]);
   ([225;189;128],[[225;189;136]]); ([225;189;129],[[225;189;137]]);
   ([225;189;130],[[225;189;138]]); ([225;189;131],[[225;189;139]]);
   ([225;189;132],[[225;189;140]]); ([225;189;133],[[225;189;141]]);
   ([225;189;144],[[206;165];[204;147]]); ([225;189;145],[[225;189;153]]);
   ([225;189;146],[[206;165];[204;147];[204;128]]);
   ([225;189;147],[[225;189;155]]);
   ([225;189;148],[[206;165];[204;147];[204;129]]);
   ([225;189;149],[[225;189;157]]);
   ([225;189;150],[[206;165];[204;147];[205;130]]);
   ([225;189;151],[[225;189;159]]); ([225;189;160],[[225;189;168]]);
   ([225;189;161],[[225;189;169]]); ([225;189;162],[[225;189;170]]);
   ([225;189;163],[[225;189;171]]); ([225;189;164],[[225;189;172]]);
   ([225;189;165],[[225;189;173]]); ([225;189;166],[[225;189;174]]);
   ([225;189;167],[[225;189;175]]); ([225;189;176],[[225;190;186]]);
   ([225;189;177],[[225;190;187]]); ([225;189;178],[[225;191;136]]);
   ([225;189;179],[[225;191;137]]); ([225;189;180],[[225;191;138]]);
   ([225;189;181],[[225;191;139]]); ([225;189;182],[[225;191;154]]);
   ([225;189;183],[[225;191;155]]); ([225;189;184],[[225;191;184]]);
   ([225;189;185],[[225;191;185]]); ([225;189;186],[[225;191;170]]);
   ([225;189;187],[[225;191;171]]); ([225;189;188],[[225;191;186]]);
   ([225;189;189],[[225;191;187]]); ([225;190;128],[[225;188;136];[206;153]]);
   ([225;190;129],[[225;188;137];[206;153]]);
   ([225;190;130],[[225;188;138];[206;153]]);
   ([225;190;131],[[225;188;139];[206;153]]);
   ([225;190;132],[[225;188;140];[206;153]]);
   ([225;190;133],[[225;188;141];[206;153]]);
   ([225;190;134],[[225;188;142];[206;153]]);
   ([225;190;135],[[225;188;143];[206;153]]);
   ([225;190;136],[[225;188;136];[206;153]]);
   ([225;190;137],[[225;188;137];[206;153]]);
   ([225;190;138],[[225;188;138];[206;153]]);
   ([225;190;139],[[225;188;139];[206;153]]);
   ([225;190;140],[[225;188;140];[206;153]]);
   ([225;190;141],[[225;188;141];[206;153]]);
   ([225;190;142],[[225;188;142];[206;153]]);
   ([225;190;143],[[225;188;143];[206;153]]);
   ([225;190;144],[[225;188;168];[206;153]]);
   ([225;190;145],[[225;188;169];[206;153]]);
   ([225;190;146],[[225;188;170];[206;153]]);
   ([225;190;147],[[225;188;171];[206;153]]);
   ([225;190;148],[[225;188;172];[206;153]]);
   ([225;190;149],[[225;188;173];[206;153]]);
   ([225;190;150],[[225;188;174];[206;153]]);
   ([225;190;151],[[225;188;175];[206;153]]);
   ([225;190;152],[[225;188;168];[206;153]]);
   ([225;190;153],[[225;188;169];[206;153]]);
   ([225;190;154],[[225;188;170];[206;153]]);
   ([225;190;155],[[225;188;171];[206;153]]);
   ([225;190;156],[[225;188;172];[206;153]]);
   ([225;190;157],[[225;188;173];[206;153]]);
   ([225;190;158],[[225;188;174];[206;153]]);
   ([225;190;159],[[225;188;175];[206;153]]);
   ([225;190;160],[[225;189;168];[206;153]]);
   ([225;190;161],[[225;189;169];[206;153]]);
   ([225;190;162],[[225;189;170];[206;153]]);
   ([225;190;163],[[225;189;171];[206;153]]);
   ([225;190;164],[[225;189;172];[206;153]]);
   ([225;190;165],[[225;189;173];[206;153]]);
   ([225;190;166],[[225;189;174];[206;153]]);
   ([225;190;167],[[225;189;175];[206;153]]);
   ([225;190;168],[[225;189;168];[206;153]]);
   ([225;190;169],[[225;189;169];[206;153]]);
   ([225;190;170],[[225;189;170];[206;153]]);
   ([225;190;171],[[225;189;171];[206;153]]);
   ([225;190;172],[[225;189;172];[206;153]]);
   ([225;190;173],[[225;189;173];[206;153]]);
   ([225;190;174],[[225;189;174];[206;153]]);
   ([225;190;175],[[225;189;175];[206;153]]); ([225;190;176],[[225;190;184]]);
   ([225;190;177],[[225;190;185]]); ([225;190;178],[[225;190;186];[206;153]]);
   ([225;190;179],[[206;145];[206;153]]); ([225;190;180],[[206;134];[206;153]]);
   ([225;190;182],[[206;145];[205;130]]);
   ([225;190;183],[[206;145];[205;130];[206;153]]);
   ([225;190;188],[[206;145];[206;153]]); ([225;190;190],[[206;153]]);
   ([225;191;130],[[225;191;138];[206;153]]);
   ([225;191;131],[[206;151];[206;153]]); ([225;191;132],[[206;137];[206;153]]);
   ([225;191;134],[[206;151];[205;130]]);
   ([225;191;135],[[206;151];[205;130];[206;153]]);
   ([225;191;140],[[206;151];[206;153]]); ([225;191;144],[[225;191;152]]);
   ([225;191;145],[[225;191;153]]);
   ([225;191;146],[[206;153];[204;136];[204;128]]);
   ([225;191;147],[[206;153];[204;136];[204;129]]);
   ([225;191;150],[[206;153];[205;130]]);
   ([225;191;151],[[206;153];[204;136];[205;130]]);
   ([225;191;160],[[225;191;168]]); ([225;191;161],[[225;191;169]]);
   ([225;191;162],[[206;165];[204;136];[204;128]]);
   ([225;191;163],[[206;165];[204;136];[204;129]]);
   ([225;191;164],[[206;161];[204;147]]); ([225;191;165],[[225;191;172]]);
   ([225;191;166],[[206;165];[205;130]]);
   ([225;191;167],[[206;165];[204;136];[205;130]]);
   ([225;191;178],[[225;191;186];[206;153]]);
   ([225;191;179],[[206;169];[206;153]]); ([225;191;180],[[206;143];[206;153]]);
   ([225;191;182],[[206;169];[205;130]]);
   ([225;191;183],[[206;169];[205;130];[206;153]]);
   ([225;191;188],[[206;169];[206;153]]); ([226;133;142],[[226;132;178]]);
   ([226;133;176],[[226;133;160]]); ([226;133;177],[[226;133;161]]);
   ([226;133;178],[[226;133;162]]); ([226;133;179],[[226;133;163]]);
   ([226;133;180],[[226;133;164]]); ([226;133;181],[[226;133;165]]);
   ([226;133;182],[[226;133;166]]); ([226;133;183],[[226;133;167]]);
   ([226;133;184],[[226;133;168]]); ([226;133;185],[[226;133;169]]);
   ([226;133;186],[[226;133;170]]); ([226;133;187],[[226;133;171]]);
   ([226;133;188],[[226;133;172]]); ([226;133;189],[[226;133;173]]);
   ([226;133;190],[[226;133;174]]); ([226;133;191],[[226;133;175]]);
   ([226;134;132],[[226;134;131]]); ([226;147;144],[[226;146;182]]);
   ([226;147;145],[[226;146;183]]); ([226;147;146],[[226;146;184]]);
   ([226;147;147],[[226;146;185]]); ([226;147;148],[[226;146;186]]);
   ([226;147;149],[[226;146;187]]); ([226;147;150],[[226;146;188]]);
   ([226;147;151],[[226;146;189]]); ([226;147;152],[[226;146;190]]);
   ([226;147;153],[[226;146;191]]); ([226;147;154],[[226;147;128]]);
   ([226;147;155],[[226;147;129]]); ([226;147;156],[[226;147;130]]);
   ([226;147;157],[[226;147;131]]); ([226;147;158],[[226;147;132]]);
   ([226;147;159],[[226;147;133]]); ([226;147;160],[[226;147;134]]);
   ([226;147;161],[[226;147;135]]); ([226;147;162],[[226;147;136]]);
   ([226;147;163],[[226;147;137]]); ([226;147;164],[[226;147;138]]);
   ([226;147;165],[[226;147;139]]); ([226;147;166],[[226;147;140]]);
   ([226;147;167],[[226;147;141]]); ([226;147;168],[[226;147;142]]);
   ([226;147;169],[[226;147;143]]); ([226;176;176],[[226;176;128]]);
   ([226;176;177],[[226;176;129]]); ([226;176;178],[[226;176;130]]);
   ([226;176;179],[[226;176;131]]); ([226;176;180],[[226;176;132]]);
   ([226;176;181],[[226;176;133]]); ([226;176;182],[[226;176;134]]);
   ([226;176;183],[[226;176;135]]); ([226;176;184],[[226;176;136]]);
   ([226;176;185],[[226;176;137]]); ([226;176;186],[[226;176;138]]);
   ([226;176;187],[[226;176;139]]); ([226;176;188],[[226;176;140]]);
   ([226;176;189],[[226;176;141]]); ([226;176;190],[[226;176;142]]);
   ([226;176;191],[[226;176;143]]); ([226;177;128],[[226;176;144]]);
   ([226;177;129],[[226;176;145]]); ([226;177;130],[[226;176;146]]);
   ([226;177;131],[[226;176;147]]); ([226;177;132],[[226;176;148]]);
   ([226;177;133],[[226;176;149]]); ([226;177;134],[[226;176;150]]);
   ([226;177;135],[[226;176;151]]); ([226;177;136],[[226;176;152]]);
   ([226;177;137],[[226;176;153]]); ([226;177;138],[[226;176;154]]);
   ([226;177;139],[[226;176;155]]); ([226;177;140],[[226;176;156]]);
   ([226;177;141],[[226;176;157]]); ([226;177;142],[[226;176;158]]);
   ([226;177;143],[[226;176;159]]); ([226;177;144],[[226;176;160]]);
   ([226;177;145],[[226;176;161]]); ([226;177;146],[[226;176;162]]);
   ([226;177;147],[[226;176;163]]); ([226;177;148],[[226;176;164]]);
   ([226;177;149],[[226;176;165]]); ([226;177;150],[[226;176;166]]);
   ([226;177;151],[[226;176;167]]); ([226;177;152],[[226;176;168]]);
   ([226;177;153],[[226;176;169]]); ([226;177;154],[[226;176;170]]);
   ([226;177;155],[[226;176;171]]); ([226;177;156],[[226;176;172]]);
   ([226;177;157],[[226;176;173]]); ([226;177;158],[[226;176;174]]);
   ([226;177;159],[[226;176;175]]); ([226;177;161],[[226;177;160]]);
   ([226;177;165],[[200;186]]); ([226;177;166],[[200;190]]);
   ([226;177;168],[[226;177;167]]); ([226;177;170],[[226;177;169]]);
   ([226;177;172],[[226;177;171]]); ([226;177;179],[[226;177;178]]);
   ([226;177;182],[[226;177;181]]); ([226;178;129],[[226;178;128]]);
   ([226;178;131],[[226;178;130]]); ([226;178;133],[[226;178;132]]);
   ([226;178;135],[[226;178;134]]); ([226;178;137],[[226;178;136]]);
   ([226;178;139],[[226;178;138]]); ([226;178;141],[[226;178;140]]);
   ([226;178;143],[[226;178;142]]); ([226;178;145],[[226;178;144]]);
   ([226;178;147],[[226;178;146]]); ([226;178;149],[[226;178;148]]);
   ([226;178;151],[[226;178;150]]); ([226;178;153],[[226;178;152]]);
   ([226;178;155],[[226;178;154]]); ([226;178;157],[[226;178;156]]);
   ([226;178;159],[[226;178;158]]); ([226;178;161],[[226;178;160]]);
   ([226;178;163],[[226;178;162]]); ([226;178;165],[[226;178;164]]);
   ([226;178;167],[[226;178;166]]); ([226;178;169],[[226;178;168]]);
   ([226;178;171],[[226;178;170]]); ([226;178;173],[[226;178;172]]);
   ([226;178;175],[[226;178;174]]); ([226;178;177],[[226;178;176]]);
   ([226;178;179],[[226;178;178]]); ([226;178;181],[[226;178;180]]);
   ([226;178;183],[[226;178;182]]); ([226;178;185],[[226;178;184]]);
   ([226;178;187],[[226;178;186]]); ([226;178;189],[[226;178;188]]);
   ([226;178;191],[[226;178;190]]); ([226;179;129],[[226;179;128]]);
   ([226;179;131],[[226;179;130]]); ([226;179;133],[[226;179;132]]);
   ([226;179;135],[[226;179;134]]); ([226;179;137],[[226;179;136]]);
   ([226;179;139],[[226;179;138]]); ([226;179;141],[[226;179;140]]);
   ([226;179;143],[[226;179;142]]); ([226;179;145],[[226;179;144]]);
   ([226;179;147],[[226;179;146]]); ([226;179;149],[[226;179;148]]);
   ([226;179;151],[[226;179;150]]); ([226;179;153],[[226;179;152]]);
   ([226;179;155],[[226;179;154]]); ([226;179;157],[[226;179;156]]);
   ([226;179;159],[[226;179;158]]); ([226;179;161],[[226;179;160]]);
   ([226;179;163],[[226;179;162]]); ([226;179;172],[[226;179;171]]);
   ([226;179;174],[[226;179;173]]); ([226;179;179],[[226;179;178]]);
   ([226;180;128],[[225;130;160]]); ([226;180;129],[[225;130;161]]);
   ([226;180;130],[[225;130;162]]); ([226;180;131],[[225;130;163]]);
   ([226;180;132],[[225;130;164]]); ([226;180;133],[[225;130;165]]);
   ([226;180;134],[[225;130;166]]); ([226;180;135],[[225;130;167]]);
   ([226;180;136],[[225;130;168]]); ([226;180;137],[[225;130;169]]);
   ([226;180;138],[[225;130;170]]); ([226;180;139],[[225;130;171]]);
   ([226;180;140],[[225;130;172]]); ([226;180;141],[[225;130;173]]);
   ([226;180;142],[[225;130;174]]); ([226;180;143],[[225;130;175]]);
   ([226;180;144],[[225;130;176]]); ([226;180;145],[[225;130;177]]);
   ([226;180;146],[[225;130;178]]); ([226;180;147],[[225;130;179]]);
   ([226;180;148],[[225;130;180]]); ([226;180;149],[[225;130;181]]);
   ([226;180;150],[[225;130;182]]); ([226;180;151],[[225;130;183]]);
   ([226;180;152],[[225;130;184]]); ([226;180;153],[[225;130;185]]);
   ([226;180;154],[[225;130;186]]); ([226;180;155],[[225;130;187]]);
   ([226;180;156],[[225;130;188]]); ([226;180;157],[[225;130;189]]);
   ([226;180;158],[[225;130;190]]); ([226;180;159],[[225;130;191]]);
   ([226;180;160],[[225;131;128]]); ([226;180;161],[[225;131;129]]);
   ([226;180;162],[[225;131;130]]); ([226;180;163],[[225;131;131]]);
   ([226;180;164],[[225;131;132]]); ([226;180;165],[[225;131;133]]);
   ([226;180;167],[[225;131;135]]); ([226;180;173],[[225;131;141]]);
   ([234;153;129],[[234;153;128]]); ([234;153;131],[[234;153;130]]);
   ([234;153;133],[[234;153;132]]); ([234;153;135],[[234;153;134]]);
   ([234;153;137],[[234;153;136]]); ([234;153;139],[[234;153;138]]);
   ([234;153;141],[[234;153;140]]); ([234;153;143],[[234;153;142]]);
   ([234;153;145],[[234;153;144]]); ([234;153;147],[[234;153;146]]);
   ([234;153;149],[[234;153;148]]); ([234;153;151],[[234;153;150]]);
   ([234;153;153],[[234;153;152]]); ([234;153;155],[[234;153;154]]);
   ([234;153;157],[[234;153;156]]); ([234;153;159],[[234;153;158]]);
   ([234;153;161],[[234;153;160]]); ([234;153;163],[[234;153;162]]);
   ([234;153;165],[[234;153;164]]); ([234;153;167],[[234;153;166]]);
   ([234;153;169],[[234;153;168]]); ([234;153;171],[[234;153;170]]);
   ([234;153;173],[[234;153;172]]); ([234;154;129],[[234;154;128]]);
   ([234;154;131],[[234;154;130]]); ([234;154;133],[[234;154;132]]);
   ([234;154;135],[[234;154;134]]); ([234;154;137],[[234;154;136]]);
   ([234;154;139],[[234;154;138]]); ([234;154;141],[[234;154;140]]);
   ([234;154;143],[[234;154;142]]); ([234;154;145],[[234;154;144]]);
   ([234;154;147],[[234;154;146]]); ([234;154;149],[[234;154;148]]);
   ([234;154;151],[[234;154;150]]); ([234;154;153],[[234;154;152]]);
   ([234;154;155],[[234;154;154]]); ([234;156;163],[[234;156;162]]);
   ([234;156;165],[[234;156;164]]); ([234;156;167],[[234;156;166]]);
   ([234;156;169],[[234;156;168]]); ([234;156;171],[[234;156;170]]);
   ([234;156;173],[[234;156;172]]); ([234;156;175],[[234;156;174]]);
   ([234;156;179],[[234;156;178]]); ([234;156;181],[[234;156;180]]);
   ([234;156;183],[[234;156;182]]); ([234;156;185],[[234;156;184]]);
   ([234;156;187],[[234;156;186]]); ([234;156;189],[[234;156;188]]);
   ([234;156;191],[[234;156;190]]); ([234;157;129],[[234;157;128]]);
   ([234;157;131],[[234;157;130]]); ([234;157;133],[[234;157;132]]);
   ([234;157;135],[[234;157;134]]); ([234;157;137],[[234;157;136]]);
   ([234;157;139],[[234;157;138]]); ([234;157;141],[[234;157;140]]);
   ([234;157;143],[[234;157;142]]); ([234;157;145],[[234;157;144]]);
   ([234;157;147],[[234;157;146]]); ([234;157;149],[[234;157;148]]);
   ([234;157;151],[[234;157;150]]); ([234;157;153],[[234;157;152]]);
   ([234;157;155],[[234;157;154]]); ([234;157;157],[[234;157;156]]);
   ([234;157;159],[[234;157;158]]); ([234;157;161],[[234;157;160]]);
   ([234;157;163],[[234;157;162]]); ([234;157;165],[[234;157;164]]);
   ([234;157;167],[[234;157;166]]); ([234;157;169],[[234;157;168]]);
   ([234;157;171],[[234;157;170]]); ([234;157;173],[[234;157;172]]);
   ([234;157;175],[[234;157;174]]); ([234;157;186],[[234;157;185]]);
   ([234;157;188],[[234;157;187]]); ([234;157;191],[[234;157;190]]);
   ([234;158;129],[[234;158;128]]); ([234;158;131],[[234;158;130]]);
   ([234;158;133],[[234;158;132]]); ([234;158;135],[[234;158;134]]);
   ([234;158;140],[[234;158;139]]); ([234;158;145],[[234;158;144]]);
   ([234;158;147],[[234;158;146]]); ([234;158;148],[[234;159;132]]);
   ([234;158;151],[[234;158;150]]); ([234;158;153],[[234;158;152]]);
   ([234;158;155],[[234;158;154]]); ([234;158;157],[[234;158;156]]);
   ([234;158;159],[[234;158;158]]); ([234;158;161],[[234;158;160]]);
   ([234;158;163],[[234;158;162]]); ([234;158;165],[[234;158;164]]);
   ([234;158;167],[[234;158;166]]); ([234;158;169],[[234;158;168]]);
   ([234;158;181],[[234;158;180]]); ([234;158;183],[[234;158;182]]);
   ([234;158;185],[[234;158;184]]); ([234;158;187],[[234;158;186]]);
   ([234;158;189],[[234;158;188]]); ([234;158;191],[[234;158;190]]);
   ([234;159;129],[[234;159;128]]); ([234;159;131],[[234;159;130]]);
   ([234;159;136],[[234;159;135]]); ([234;159;138],[[234;159;137]]);
   ([234;159;145],[[234;159;144]]); ([234;159;151],[[234;159;150]]);
   ([234;159;153],[[234;159;152]]); ([234;159;182],[[234;159;181]]);
   ([234;173;147],[[234;158;179]]); ([234;173;176],[[225;142;160]]);
   ([234;173;177],[[225;142;161]]); ([234;173;178],[[225;142;162]]);
   ([234;173;179],[[225;142;163]]); ([234;173;180],[[225;142;164]]);
   ([234;173;181],[[225;142;165]]); ([234;173;182],[[225;142;166]]);
   ([234;173;183],[[225;142;167]]); ([234;173;184],[[225;142;168]]);
   ([234;173;185],[[225;142;169]]); ([234;173;186],[[225;142;170]]);
   ([234;173;187],[[225;142;171]]); ([234;173;188],[[225;142;172]]);
   ([234;173;189],[[225;142;173]]); ([234;173;190],[[225;142;174]]);
   ([234;173;191],[[225;142;175]]); ([234;174;128],[[225;142;176]]);
   ([234;174;129],[[225;142;177]]); ([234;174;130],[[225;142;178]]);
   ([234;174;131],[[225;142;179]]); ([234;174;132],[[225;142;180]]);
   ([234;174;133],[[225;142;181]]); ([234;174;134],[[225;142;182]]);
   ([234;174;135],[[225;142;183]]); ([234;174;136],[[225;142;184]]);
   ([234;174;137],[[225;142;185]]); ([234;174;138],[[225;142;186]]);
   ([234;174;139],[[225;142;187]]); ([234;174;140],[[225;142;188]]);
   ([234;174;141],[[225;142;189]]); ([234;174;142],[[225;142;190]]);
   ([234;174;143],[[225;142;191]]); ([234;174;144],[[225;143;128]]);
   ([234;174;145],[[225;143;129]]); ([234;174;146],[[225;143;130]]);
   ([234;174;147],[[225;143;131]]); ([234;174;148],[[225;143;132]]);
   ([234;174;149],[[225;143;133]]); ([234;174;150],[[225;143;134]]);
   ([234;174;151],[[225;143;135]]); ([234;174;152],[[225;143;136]]);
   ([234;174;153],[[225;143;137]]); ([234;174;154],[[225;143;138]]);
   ([234;174;155],[[225;143;139]]); ([234;174;156],[[225;143;140]]);
   ([234;174;157],[[225;143;141]]); ([234;174;158],[[225;143;142]]);
   ([234;174;159],[[225;143;143]]); ([234;174;160],[[225;143;144]]);
   ([234;174;161],[[225;143;145]]); ([234;174;162],[[225;143;146]]);
   ([234;174;163],[[225;143;147]]); ([234;174;164],[[225;143;148]]);
   ([234;174;165],[[225;143;149]]); ([234;174;166],[[225;143;150]]);
   ([234;174;167],[[225;143;151]]); ([234;174;168],[[225;143;152]]);
   ([234;174;169],[[225;143;153]]); ([234;174;170],[[225;143;154]]);
   ([234;174;171],[[225;143;155]]); ([234;174;172],[[225;143;156]]);
   ([234;174;173],[[225;143;157]]); ([234;174;174],[[225;143;158]]);
   ([234;174;175],[[225;143;159]]); ([234;174;176],[[225;143;160]]);
   ([234;174;177],[[225;143;161]]); ([234;174;178],[[225;143;162]]);
   ([234;174;179],[[225;143;163]]); ([234;174;180],[[225;143;164]]);
   ([234;174;181],[[225;143;165]]); ([234;174;182],[[225;143;166]]);
   ([234;174;183],[[225;143;167]]); ([234;174;184],[[225;143;168]]);
   ([234;174;185],[[225;143;169]]); ([234;174;186],[[225;143;170]]);
   ([234;174;187],[[225;143;171]]); ([234;174;188],[[225;143;172]]);
   ([234;174;189],[[225;143;173]]); ([234;174;190],[[225;143;174]]);
   ([234;174;191],[[225;143;175]]); ([239;172;128],[[70];[70]]);
   ([239;172;129],[[70];[73]]); ([239;172;130],[[70];[76]]);
   ([239;172;131],[[70];[70];[73]]); ([239;172;132],[[70];[70];[76]]);
   ([239;172;133],[[83];[84]]); ([239;172;134],[[83];[84]]);
   ([239;172;147],[[213;132];[213;134]]); ([239;172;148],[[213;132];[212;181]]);
   ([239;172;149],[[213;132];[212;187]]); ([239;172;150],[[213;142];[213;134]]);
   ([239;172;151],[[213;132];[212;189]]); ([239;189;129],[[239;188;161]]);
   ([239;189;130],[[239;188;162]]); ([239;189;131],[[239;188;163]]);
   ([239;189;132],[[239;188;164]]); ([239;189;133],[[239;188;165]]);
   ([239;189;134],[[239;188;166]]); ([239;189;135],[[239;188;167]]);
   ([239;189;136],[[239;188;168]]); ([239;189;137],[[239;188;169]]);
   ([239;189;138],[[239;188;170]]); ([239;189;139],[[239;188;171]]);
   ([239;189;140],[[239;188;172]]); ([239;189;141],[[239;188;173]]);
   ([239;189;142],[[239;188;174]]); ([239;189;143],[[239;188;175]]);
   ([239;189;144],[[239;188;176]]); ([239;189;145],[[239;188;177]]);
   ([239;189;146],[[239;188;178]]); ([239;189;147],[[239;188;179]]);
   ([239;189;148],[[239;188;180]]); ([239;189;149],[[239;188;181]]);
   ([239;189;150],[[239;188;182]]); ([239;189;151],[[239;188;183]]);
   ([239;189;152],[[239;188;184]]); ([239;189;153],[[239;188;185]]);
   ([239;189;154],[[239;188;186]]); ([240;144;144;168],[[240;144;144;128]]);
   ([240;144;144;169],[[240;144;144;129]]);
   ([240;144;144;170],[[240;144;144;130]]);
   ([240;144;144;171],[[240;144;144;131]]);
   ([240;144;144;172],[[240;144;144;132]]);
   ([240;144;144;173],[[240;144;144;133]]);
   ([240;144;144;174],[[240;144;144;134]]);
   ([240;144;144;175],[[240;144;144;135]]);
   ([240;144;144;176],[[240;144;144;136]]);
   ([240;144;144;177],[[240;144;144;137]]);
   ([240;144;144;178],[[240;144;144;138]]);
   ([240;144;144;179],[[240;144;144;139]]);
   ([240;144;144;180],[[240;144;144;140]]);
   ([240;144;144;181],[[240;144;144;141]]);
   ([240;144;144;182],[[240;144;144;142]]);
   ([240;144;144;183],[[240;144;144;143]]);
   ([240;144;144;184],[[240;144;144;144]]);
   ([240;144;144;185],[[240;144;144;145]]);
   ([240;144;144;186],[[240;144;144;146]]);
   ([240;144;144;187],[[240;144;144;147]]);
   ([240;144;144;188],[[240;144;144;148]]);
   ([240;144;144;189],[[240;144;144;149]]);
   ([240;144;144;190],[[240;144;144;150]]);
   ([240;144;144;191],[[240;144;144;151]]);
   ([240;144;145;128],[[240;144;144;152]]);
   ([240;144;145;129],[[240;144;144;153]]);
   ([240;144;145;130],[[240;144;144;154]]);
   ([240;144;145;131],[[240;144;144;155]]);
   ([240;144;145;132],[[240;144;144;156]]);
   ([240;144;145;133],[[240;144;144;157]]);
   ([240;144;145;134],[[240;144;144;158]]);
   ([240;144;145;135],[[240;144;144;159]]);
   ([240;144;145;136],[[240;144;144;160]]);
   ([240;144;145;137],[[240;144;144;161]]);
   ([240;144;145;138],[[240;144;144;162]]);
   ([240;144;145;139],[[240;144;144;163]]);
   ([240;144;145;140],[[240;144;144;164]]);
   ([240;144;145;141],[[240;144;144;165]]);
   ([240;144;145;142],[[240;144;144;166]]);
   ([240;144;145;143],[[240;144;144;167]]);
   ([240;144;147;152],[[240;144;146;176]]);
   ([240;144;147;153],[[240;144;146;177]]);
   ([240;144;147;154],[[240;144;146;178]]);
   ([240;144;147;155],[[240;144;146;179]]);
   ([240;144;147;156],[[240;144;146;180]]);
   ([240;144;147;157],[[240;144;146;181]]);
   ([240;144;147;158],[[240;144;146;182]]);
   ([240;144;147;159],[[240;144;146;183]]);
   ([240;144;147;160],[[240;144;146;184]]);
   ([240;144;147;161],[[240;144;146;185]]);
   ([240;144;147;162],[[240;144;146;186]]);
   ([240;144;147;163],[[240;144;146;187]]);
   ([240;144;147;164],[[240;144;146;188]]);
   ([240;144;147;165],[[240;144;146;189]]);
   ([240;144;147;166],[[240;144;146;190]]);
   ([240;144;147;167],[[240;144;146;191]]);
   ([240;144;147;168],[[240;144;147;128]]);
   ([240;144;147;169],[[240;144;147;129]]);
   ([240;144;147;170],[[240;144;147;130]]);
   ([240;144;147;171],[[240;144;147;131]]);
   ([240;144;147;172],[[240;144;147;132]]);
   ([240;144;147;173],[[240;144;147;133]]);
   ([240;144;147;174],[[240;144;147;134]]);
   ([240;144;147;175],[[240;144;147;135]]);
   ([240;144;147;176],[[240;144;147;136]]);
   ([240;144;147;177],[[240;144;147;137]]);
   ([240;144;147;178],[[240;144;147;138]]);
   ([240;144;147;179],[[240;144;147;139]]);
   ([240;144;147;180],[[240;144;147;140]]);
   ([240;144;147;181],[[240;144;147;141]]);
   ([240;144;147;182],[[240;144;147;142]]);
   ([240;144;147;183],[[240;144;147;143]]);
   ([240;144;147;184],[[240;144;147;144]]);
   ([240;144;147;185],[[240;144;147;145]]);
   ([240;144;147;186],[[240;144;147;146]]);
   ([240;144;147;187],[[240;144;147;147]]);
   ([240;144;150;151],[[240;144;149;176]]);
   ([240;144;150;152],[[240;144;149;177]]);
   ([240;144;150;153],[[240;144;149;178]]);
   ([240;144;150;154],[[240;144;149;179]]);
   ([240;144;150;155],[[240;144;149;180]]);
   ([240;144;150;156],[[240;144;149;181]]);
   ([240;144;150;157],[[240;144;149;182]]);
   ([240;144;150;158],[[240;144;149;183]]);
   ([240;144;150;159],[[240;144;149;184]]);
   ([240;144;150;160],[[240;144;149;185]]);
   ([240;144;150;161],[[240;144;149;186]]);
   ([240;144;150;163],[[240;144;149;188]]);
   ([240;144;150;164],[[240;144;149;189]]);
   ([240;144;150;165],[[240;144;149;190]]);
   ([240;144;150;166],[[240;144;149;191]]);
   ([240;144;150;167],[[240;144;150;128]]);
   ([240;144;150;168],[[240;144;150;129]]);
   ([240;144;150;169],[[240;144;150;130]]);
   ([240;144;150;170],[[240;144;150;131]]);
   ([240;144;150;171],[[240;144;150;132]]);
   ([240;144;150;172],[[240;144;150;133]]);
   ([240;144;150;173],[[240;144;150;134]]);
   ([240;144;150;174],[[240;144;150;135]]);
   ([240;144;150;175],[[240;144;150;136]]);
   ([240;144;150;176],[[240;144;150;137]]);
   ([240;144;150;177],[[240;144;150;138]]);
   ([240;144;150;179],[[240;144;150;140]]);
   ([240;144;150;180],[[240;144;150;141]]);
   ([240;144;150;181],[[240;144;150;142]]);
   ([240;144;150;182],[[240;144;150;143]]);
   ([240;144;150;183],[[240;144;150;144]]);
   ([240;144;150;184],[[240;144;150;145]]);
   ([240;144;150;185],[[240;144;150;146]]);
   ([240;144;150;187],[[240;144;150;148]]);
   ([240;144;150;188],[[240;144;150;149]]);
   ([240;144;179;128],[[240;144;178;128]]);
   ([240;144;179;129],[[240;144;178;129]]);
   ([240;144;179;130],[[240;144;178;130]]);
   ([240;144;179;131],[[240;144;178;131]]);
   ([240;144;179;132],[[240;144;178;132]]);
   ([240;144;179;133],[[240;144;178;133]]);
   ([240;144;179;134],[[240;144;178;134]]);
   ([240;144;179;135],[[240;144;178;135]]);
   ([240;144;179;136],[[240;144;178;136]]);
   ([240;144;179;137],[[240;144;178;137]]);
   ([240;144;179;138],[[240;144;178;138]]);
   ([240;144;179;139],[[240;144;178;139]]);
   ([240;144;179;140],[[240;144;178;140]]);
   ([240;144;179;141],[[240;144;178;141]]);
   ([240;144;179;142],[[240;144;178;142]]);
   ([240;144;179;143],[[240;144;178;143]]);
   ([240;144;179;144],[[240;144;178;144]]);
   ([240;144;179;145],[[240;144;178;145]]);
   ([240;144;179;146],[[240;144;178;146]]);
   ([240;144;179;147],[[240;144;178;147]]);
   ([240;144;179;148],[[240;144;178;148]]);
   ([240;144;179;149],[[240;144;178;149]]);
   ([240;144;179;150],[[240;144;178;150]]);
   ([240;144;179;151],[[240;144;178;151]]);
   ([240;144;179;152],[[240;144;178;152]]);
   ([240;144;179;153],[[240;144;178;153]]);
   ([240;144;179;154],[[240;144;178;154]]);
   ([240;144;179;155],[[240;144;178;155]]);
   ([240;144;179;156],[[240;144;178;156]]);
   ([240;144;179;157],[[240;144;178;157]]);
   ([240;144;179;158],[[240;144;178;158]]);
   ([240;144;179;159],[[240;144;178;159]]);
   ([240;144;179;160],[[240;144;178;160]]);
   ([240;144;179;161],[[240;144;178;161]]);
   ([240;144;179;162],[[240;144;178;162]]);
   ([240;144;179;163],[[240;144;178;163]]);
   ([240;144;179;164],[[240;144;178;164]]);
   ([240;144;179;165],[[240;144;178;165]]);
   ([240;144;179;166],[[240;144;178;166]]);
   ([240;144;179;167],[[240;144;178;167]]);
   ([240;144;179;168],[[240;144;178;168]]);
   ([240;144;179;169],[[240;144;178;169]]);
   ([240;144;179;170],[[240;144;178;170]]);
   ([240;144;179;171],[[240;144;178;171]]);
   ([240;144;179;172],[[240;144;178;172]]);
   ([240;144;179;173],[[240;144;178;173]]);
   ([240;144;179;174],[[240;144;178;174]]);
   ([240;144;179;175],[[240;144;178;175]]);
   ([240;144;179;176],[[240;144;178;176]]);
   ([240;144;179;177],[[240;144;178;177]]);
   ([240;144;179;178],[[240;144;178;178]]);
   ([240;145;163;128],[[240;145;162;160]]);
   ([240;145;163;129],[[240;145;162;161]]);
   ([240;145;163;130],[[240;145;162;162]]);
   ([240;145;163;131],[[240;145;162;163]]);
   ([240;145;163;132],[[240;145;162;164]]);
   ([240;145;163;133],[[240;145;162;165]]);
   ([240;145;163;134],[[240;145;162;166]]);
   ([240;145;163;135],[[240;145;162;167]]);
   ([240;145;163;136],[[240;145;162;168]]);
   ([240;145;163;137],[[240;145;162;169]]);
   ([240;145;163;138],[[240;145;162;170]]);
   ([240;145;163;139],[[240;145;162;171]]);
   ([240;145;163;140],[[240;145;162;172]]);
   ([240;145;163;141],[[240;145;162;173]]);
   ([240;145;163;142],[[240;145;162;174]]);
   ([240;145;163;143],[[240;145;162;175]]);
   ([240;145;163;144],[[240;145;162;176]]);
   ([240;145;163;145],[[240;145;162;177]]);
   ([240;145;163;146],[[240;145;162;178]]);
   ([240;145;163;147],[[240;145;162;179]]);
   ([240;145;163;148],[[240;145;162;180]]);
   ([240;145;163;149],[[240;145;162;181]]);
   ([240;145;163;150],[[240;145;162;182]]);
   ([240;145;163;151],[[240;145;162;183]]);
   ([240;145;163;152],[[240;145;162;184]]);
   ([240;145;163;153],[[240;145;162;185]]);
   ([240;145;163;154],[[240;145;162;186]]);
   ([240;145;163;155],[[240;145;162;187]]);
   ([240;145;163;156],[[240;145;162;188]]);
   ([240;145;163;157],[[240;145;162;189]]);
   ([240;145;163;158],[[240;145;162;190]]);
   ([240;145;163;159],[[240;145;162;191]]);
   ([240;150;185;160],[[240;150;185;128]]);
   ([240;150;185;161],[[240;150;185;129]]);
   ([240;150;185;162],[[240;150;185;130]]);
   ([240;150;185;163],[[240;150;185;131]]);
   ([240;150;185;164],[[240;150;185;132]]);
   ([240;150;185;165],[[240;150;185;133]]);
   ([240;150;185;166],[[240;150;185;134]]);
   ([240;150;185;167],[[240;150;185;135]]);
   ([240;150;185;168],[[240;150;185;136]]);
   ([240;150;185;169],[[240;150;185;137]]);
   ([240;150;185;170],[[240;150;185;138]]);
   ([240;150;185;171],[[240;150;185;139]]);
   ([240;150;185;172],[[240;150;185;140]]);
   ([240;150;185;173],[[240;150;185;141]]);
   ([240;150;185;174],[[240;150;185;142]]);
   ([240;150;185;175],[[240;150;185;143]]);
   ([240;150;185;176],[[240;150;185;144]]);
   ([240;150;185;177],[[240;150;185;145]]);
   ([240;150;185;178],[[240;150;185;146]]);
   ([240;150;185;179],[[240;150;185;147]]);
   ([240;150;185;180],[[240;150;185;148]]);
   ([240;150;185;181],[[240;150;185;149]]);
   ([240;150;185;182],[[240;150;185;150]]);
   ([240;150;185;183],[[240;150;185;151]]);
   ([240;150;185;184],[[240;150;185;152]]);
   ([240;150;185;185],[[240;150;185;153]]);
   ([240;150;185;186],[[240;150;185;154]]);
   ([240;150;185;187],[[240;150;185;155]]);
   ([240;150;185;188],[[240;150;185;156]]);
   ([240;150;185;189],[[240;150;185;157]]);
   ([240;150;185;190],[[240;150;185;158]]);
   ([240;150;185;191],[[240;150;185;159]]);
   ([240;158;164;162],[[240;158;164;128]]);
   ([240;158;164;163],[[240;158;164;129]]);
   ([240;158;164;164],[[240;158;164;130]]);
   ([240;158;164;165],[[240;158;164;131]]);
   ([240;158;164;166],[[240;158;164;132]]);
   ([240;158;164;167],[[240;158;164;133]]);
   ([240;158;164;168],[[240;158;164;134]]);
   ([240;158;164;169],[[240;158;164;135]]);
   ([240;158;164;170],[[240;158;164;136]]);
   ([240;158;164;171],[[240;158;164;137]]);
   ([240;158;164;172],[[240;158;164;138]]);
   ([240;158;164;173],[[240;158;164;139]]);
   ([240;158;164;174],[[240;158;164;140]]);
   ([240;158;164;175],[[240;158;164;141]]);
   ([240;158;164;176],[[240;158;164;142]]);
   ([240;158;164;177],[[240;158;164;143]]);
   ([240;158;164;178],[[240;158;164;144]]);
   ([240;158;164;179],[[240;158;164;145]]);
   ([240;158;164;180],[[240;158;164;146]]);
   ([240;158;164;181],[[240;158;164;147]]);
   ([240;158;164;182],[[240;158;164;148]]);
   ([240;158;164;183],[[240;158;164;149]]);
   ([240;158;164;184],[[240;158;164;150]]);
   ([240;158;164;185],[[240;158;164;151]]);
   ([240;158;164;186],[[240;158;164;152]]);
   ([240;158;164;187],[[240;158;164;153]]);
   ([240;158;164;188],[[240;158;164;154]]);
   ([240;158;164;189],[[240;158;164;155]]);
   ([240;158;164;190],[[240;158;164;156]]);
   ([240;158;164;191],[[240;158;164;157]]);
   ([240;158;165;128],[[240;158;164;158]]);
   ([240;158;165;129],[[240;158;164;159]]);
   ([240;158;165;130],[[240;158;164;160]]);
   ([240;158;165;131],[[240;158;164;161]])
   ]%N : list (list N * list (list N))).

(** [ch.upper()] for one character: the characters it becomes. *)
Definition upper_char (ch : string) : list string :=
  match ch with
  | EmptyString => []
  | String c t =>
      if N.ltb (N_of_ascii c) 128 then [String (upper_ascii c) t]
      else
        match find (fun e => String.eqb ch (fst e)) uppercase_table with
        | Some e => snd e
        | None => [ch]
        end
  end.

(** [s.upper()] *)
Definition upper (s : string) : string := cat (flat_map upper_char (chars s)).

Fixpoint lstrip_chars (l : list string) : list string :=
  match l with
  | [] => []
  | ch :: r => if isspace ch then lstrip_chars r else l
  end.

Fixpoint rstrip_chars (l : list string) : list string :=
  match l with
  | [] => []
  | ch :: r =>
      match rstrip_chars r with
      | [] => if isspace ch then [] else [ch]
      | r' => ch :: r'
      end
  end.

(** [s.lstrip()], [s.rstrip()] and [s.strip()] *)
Definition lstrip (s : string) : string := cat (lstrip_chars (chars s)).
Definition rstrip (s : string) : string := cat (rstrip_chars (chars s)).
Definition strip (s : string) : string := rstrip (lstrip s).

(** Every character of the string is white space. *)
Definition all_space (s : string) : bool := forallb isspace (chars s).

(** The shape of what [chars] returns: every character is a byte followed
    by continuation bytes, and only the first one may begin with a
    continuation byte. *)
Fixpoint all_continuation (s : string) : bool :=
  match s with
  | EmptyString => true
  | String c r => is_continuation c && all_continuation r
  end.

Definition tailed (ch : string) : bool :=
  match ch with
  | EmptyString => false
  | String _ t => all_continuation t
  end.

Definition headed (ch : string) : bool :=
  match ch with
  | EmptyString => false
  | String c t => negb (is_continuation c) && all_continuation t
  end.

Definition shaped (l : list string) : bool :=
  match l with
  | [] => true
  | ch :: r => tailed ch && forallb headed r
  end.

(** Truthiness of a string: [not s] holds exactly for the empty one. *)
Definition is_empty (s : string) : bool :=
  match s with EmptyString => true | _ => false end.

End PyStr.

(** ** Calendar dates and wall-clock datetimes *)

(** [date.weekday()]: Monday is 0 and Sunday is 6; ordinal 1 is a Monday. *)
Definition weekday (d : Z) : Z := (d + 6) mod 7.

(** An aware [datetime] in the exchange's zone, by its wall-clock fields. *)
Record datetime := mk_datetime {
  dt_date : Z;
  hour : Z;
  minute : Z;
  second : Z;
  microsecond : Z
}.

(** [now.replace(hour=h, minute=m, second=s, microsecond=us)] *)
Definition replace (now : datetime) (h m s us : Z) : datetime :=
  {| dt_date := dt_date now; hour := h; minute := m; second := s;
     microsecond := us |}.

Fixpoint lex_leb (a b : list Z) : bool :=
  match a, b with
  | [], _ => true
  | _ :: _, [] => false
  | x :: a', y :: b' => (x <? y) || ((x =? y) && lex_leb a' b')
  end.

Definition fields (d : datetime) : list Z :=
  [dt_date d; hour d; minute d; second d; microsecond d].

(** [a <= b] on two datetimes that share their [tzinfo] (as [now] and
    [now.replace(...)] do): the wall-clock fields are compared in order. *)
Definition datetime_leb (a b : datetime) : bool := lex_leb (fields a) (fields b).

(** The fields of a real datetime are in range. *)
Definition valid_time (d : datetime) : Prop :=
  0 <= hour d < 24 /\ 0 <= minute d < 60 /\ 0 <= second d < 60 /\
  0 <= microsecond d < 1000000.

(** Microseconds elapsed since local midnight. *)
Definition time_of_day_us (d : datetime) : Z :=
  ((hour d * 60 + minute d) * 60 + second d) * 1000000 + microsecond d.

Definition open_us : Z := ((9 * 60 + 30) * 60) * 1000000.
Definition close_us : Z := (16 * 60 * 60) * 1000000.

(** Lines 241-252 of [get_stock_graph]: the session to query for "1d". *)
Definition target_date (now : datetime) : Z :=
  let today_ny := dt_date now in
  if weekday today_ny >=? 5 then
    let last_friday := today_ny - (weekday today_ny - 4) mod 7 in
    last_friday
  else
    let market_open := replace now 9 30 0 0 in
    let market_close := replace now 16 0 0 0 in
    if datetime_leb market_open now && datetime_leb now market_close
    then today_ny
    else today_ny - 1.

(** [other + pd.offsets.BDay(n)] on a date, after pandas' [BusinessDay]:
    whole weeks first, then the remaining days, jumping over the week-end. *)
Definition BDay_add (n : Z) (other : Z) : Z :=
  let wday := weekday other in
  let weeks := n / 5 in
  let n1 := if (n <=? 0) && (4 <? wday) then n + 1 else n in
  let n2 := n1 - 5 * weeks in
  let days :=
    if (n2 =? 0) && (4 <? wday) then 4 - wday
    else if 4 <? wday then (7 - wday) + (n2 - 1)
    else if wday + n2 <=? 4 then n2
    else n2 + 2 in
  other + (7 * weeks + days).

(** [pd.Timestamp(target_date) - pd.offsets.BDay(1)] (line 275). *)
Definition prev_trading_day (target : Z) : Z := BDay_add (-1) target.

(** ** Exceptions, and the provider's trace *)

(** An exception, by its message [str(e)]. *)
Definition exn := string.

Inductive result (A : Type) : Type :=
| Ok (a : A)
| Raise (e : exn).
Arguments Ok {A} a.
Arguments Raise {A} e%_string.

Definition bindR {A B} (c : result A) (k : A -> result B) : result B :=
  match c with
  | Ok a => k a
  | Raise e => Raise e
  end.

(** A list comprehension whose element expression may raise: elements are
    evaluated from left to right and the first exception ends it. *)
Fixpoint mapR {A B} (f : A -> result B) (l : list A) : result (list B) :=
  match l with
  | [] => Ok []
  | x :: l' => bindR (f x) (fun y => bindR (mapR f l') (fun ys => Ok (y :: ys)))
  end.

(** The calls a handler can make on a [yf.Ticker]. *)
Inductive Query :=
| HistoryRange (ticker : string) (start stop : Z) (interval : string)
    (prepost : bool)
| HistoryPeriod (ticker : string) (period interval : string) (prepost : bool)
| Info (ticker : string).

(** A computation that may call the provider and may raise: it extends the
    list of the calls made so far. *)
Definition M (A : Type) : Type := list Query -> list Query * result A.

Definition ret {A} (a : A) : M A := fun tr => (tr, Ok a).

Definition bind {A B} (c : M A) (k : A -> M B) : M B :=
  fun tr =>
    match c tr with
    | (tr', Ok a) => k a tr'
    | (tr', Raise e) => (tr', Raise e)
    end.

Definition lift {A} (c : result A) : M A := fun tr => (tr, c).

Notation "x <- c ;; k" := (bind c (fun x => k))
  (at level 61, c at next level, right associativity).

(** ** Data frames *)

(** One row of prices; [None] is NaN. *)
Record Row := mk_row {
  Open : option Z;
  High : option Z;
  Low : option Z;
  Close : option Z;
  Volume : option Z
}.

Inductive zone := UTC | America_New_York.

(** A frame with a [DatetimeIndex]: the zone of the index ([None] when it is
    naive) and the rows in the frame's order, each with its timestamp. *)
Record DataFrame := mk_frame {
  index_tz : option zone;
  rows : list (Z * Row)
}.

(** [pd.DataFrame()] *)
Definition empty_frame : DataFrame := {| index_tz := None; rows := [] |}.

(** [df.empty] *)
Definition empty (df : DataFrame) : bool :=
  match rows df with [] => true | _ => false end.

(** [len(df)] *)
Definition len (df : DataFrame) : Z := Z.of_nat (List.length (rows df)).

(** [pd.isna] *)
Definition isna (x : option Z) : bool :=
  match x with None => true | Some _ => false end.

(** *** Column reductions, all of which skip NaN *)

Fixpoint first_valid (l : list (option Z)) : option Z :=
  match l with
  | [] => None
  | Some x :: _ => Some x
  | None :: l' => first_valid l'
  end.

Definition last_valid (l : list (option Z)) : option Z := first_valid (rev l).

Definition opt_merge (f : Z -> Z -> Z) (a b : option Z) : option Z :=
  match a, b with
  | Some x, Some y => Some (f x y)
  | Some x, None => Some x
  | None, b => b
  end.

Definition max_valid (l : list (option Z)) : option Z :=
  fold_right (opt_merge Z.max) None l.

Definition min_valid (l : list (option Z)) : option Z :=
  fold_right (opt_merge Z.min) None l.

(** The sum of the values that are present.  The numbers are exact
    integers: the sum of a column of 64-bit integers, or of floating-point
    numbers that hold integers, is this one as long as the partial sums
    stay below 2^53 in absolute value. *)
Definition sum_valid (l : list (option Z)) : Z :=
  fold_right (fun a acc => match a with Some x => x + acc | None => acc end) 0 l.

(** [.agg({'Open': 'first', 'High': 'max', 'Low': 'min', 'Close': 'last',
    'Volume': 'sum'})] on the rows of one group. *)
Definition agg (g : list Row) : Row :=
  {| Open := first_valid (map Open g);
     High := max_valid (map High g);
     Low := min_valid (map Low g);
     Close := last_valid (map Close g);
     Volume := Some (sum_valid (map Volume g)) |}.

(** *** Sorting the index: a stable sort by timestamp *)

Fixpoint insert_row (x : Z * Row) (l : list (Z * Row)) : list (Z * Row) :=
  match l with
  | [] => [x]
  | y :: l' => if fst x <=? fst y then x :: l else y :: insert_row x l'
  end.

Definition sort_index (l : list (Z * Row)) : list (Z * Row) :=
  fold_right insert_row [] l.

(** '09:30' and '16:00' as seconds since midnight, and the bucket width. *)
Definition t0930 : Z := 9 * 3600 + 30 * 60.
Definition t1600 : Z := 16 * 3600.
Definition five_minutes : Z := 300.

(** ** JSON values and HTTP responses *)

#[local] Set Warnings "-register-all".

(** What [jsonify] is given.  [JTime t] is the instant [t] rendered by
    [strftime('%Y-%m-%dT%H:%M:%S%z')] in New York time, and [JStamp now] is
    [now] rendered the same way; [JFloat None] is NaN. *)
Inductive json :=
| JStr (s : string)
| JInt (z : Z)
| JFloat (x : option Z)
| JTime (t : Z)
| JStamp (d : datetime)
| JList (l : list json)
| JDict (kv : list (string * json)).
Arguments JStr s%_string.

(** The status code and the body. *)
Definition Response : Type := Z * json.

(** [d.get(k)] on a JSON object; [None] on a missing key or a non-object. *)
Fixpoint assoc (k : string) (kv : list (string * json)) : option json :=
  match kv with
  | [] => None
  | (k', v) :: kv' => if String.eqb k k' then Some v else assoc k kv'
  end.

Definition field (k : string) (body : json) : option json :=
  match body with
  | JDict kv => assoc k kv
  | _ => None
  end.

(** [request.args]: the two query parameters, when present. *)
Record Args := mk_args {
  arg_ticker : option string;
  arg_period : option string
}.

(** [request.args.get(key, default)] *)
Definition get (a : option string) (default : string) : string :=
  match a with
  | Some s => s
  | None => default
  end.

Section Engine.

(** The tz database entry of America/New_York: the UTC offset, in
    seconds, in force at a given instant. *)
Variable ny_utcoffset : Z -> Z.

Definition utcoffset (z : zone) (t : Z) : Z :=
  match z with
  | UTC => 0
  | America_New_York => ny_utcoffset t
  end.

(** Wall-clock seconds of an index value. *)
Definition local_seconds (tz : option zone) (t : Z) : Z :=
  match tz with
  | None => t
  | Some z => t + utcoffset z t
  end.

(** [df.tz_localize('UTC')]: a naive index is read as UTC. *)
Definition tz_localize_UTC (df : DataFrame) : result DataFrame :=
  match index_tz df with
  | None => Ok {| index_tz := Some UTC; rows := rows df |}
  | Some _ => Raise "Already tz-aware, use tz_convert to convert."
  end.

(** [df.tz_convert(z)]: the instants stay, the zone changes. *)
Definition tz_convert (z : zone) (df : DataFrame) : result DataFrame :=
  match index_tz df with
  | None =>
      Raise "Cannot convert tz-naive timestamps, use tz_localize to localize"
  | Some _ => Ok {| index_tz := Some z; rows := rows df |}
  end.

Definition time_of_day (tz : option zone) (t : Z) : Z :=
  local_seconds tz t mod 86400.

Definition in_time (tz : option zone) (lo hi : Z) (s : Z * Row) : bool :=
  (lo <=? time_of_day tz (fst s)) && (time_of_day tz (fst s) <=? hi).

(** [df.between_time(lo, hi)], both ends included. *)
Definition between_time (lo hi : Z) (df : DataFrame) : DataFrame :=
  {| index_tz := index_tz df;
     rows := filter (in_time (index_tz df) lo hi) (rows df) |}.

Definition in_bin (lo : Z) (s : Z * Row) : bool :=
  (lo <=? fst s) && (fst s <? lo + five_minutes).

(** [df.resample('5T').agg({...})].  The grouper sorts a frame whose index
    is not increasing with a stable sort.  The bins are five minutes long,
    left-closed and labelled by their start; they are anchored at the
    midnight of the first day (origin 'start_day'), so the first bin starts
    at the first timestamp rounded down to five minutes of wall-clock time
    (the offsets of a zone are multiples of five minutes, so the rounding
    is the same at any instant of the day).  There is one output row per bin
    up to the bin of the last timestamp, empty bins included: 'first',
    'max', 'min' and 'last' give NaN on them and 'sum' gives 0. *)
Definition resample_5T_agg (df : DataFrame) : DataFrame :=
  let sorted := sort_index (rows df) in
  match sorted with
  | [] => {| index_tz := index_tz df; rows := [] |}
  | first :: _ =>
      let first_edge :=
        fst first - local_seconds (index_tz df) (fst first) mod five_minutes in
      let last_t := fst (last sorted first) in
      let nbins := (last_t - first_edge) / five_minutes + 1 in
      {| index_tz := index_tz df;
         rows :=
           map (fun k =>
                  let lo := first_edge + five_minutes * Z.of_nat k in
                  (lo, agg (map snd (filter (in_bin lo) sorted))))
               (seq 0 (Z.to_nat nbins)) |}
  end.

(** Lines 260-272 (and 279-289): market hours in New York time, then
    five-minute bars. *)
Definition market_hours (data : DataFrame) : result DataFrame :=
  if match index_tz data with None => true | Some _ => false end
  then bindR (tz_localize_UTC data) (fun d =>
       bindR (tz_convert America_New_York d) (fun d' =>
       Ok (between_time t0930 t1600 d')))
  else bindR (tz_convert America_New_York data) (fun d' =>
       Ok (between_time t0930 t1600 d')).

(** The provider: [stock.history(...)], and the entry
    'regularMarketPreviousClose' of [stock.info] when it has one. *)
Variable history : Query -> result DataFrame.
Variable info : string -> result (option Z).

Definition fetch (q : Query) : M DataFrame :=
  fun tr => (tr ++ [q], history q).

Definition fetch_info (ticker : string) : M (option Z) :=
  fun tr => (tr ++ [Info ticker], info ticker).

(** [.resample('5T').agg({...})] after [market_hours]. *)
Definition aggregate (data : DataFrame) : result DataFrame :=
  bindR (market_hours data) (fun market_data =>
  Ok (resample_5T_agg market_data)).

(** The element of the two list comprehensions (lines 294-300 and
    317-323), for the row [s] of a frame whose index has zone [tz]:
    [idx.tz_convert] raises on a naive timestamp and [int] raises on NaN.
    [iterrows] hands the volume over as a floating-point number, which
    [int] turns back into the same integer when it is below 2^53 in
    absolute value. *)
Definition to_point (tz : option zone) (s : Z * Row) : result json :=
  bindR (match tz with
         | None =>
             Raise "Cannot convert tz-naive Timestamp, use tz_localize to localize"
         | Some _ => Ok (JTime (fst s))
         end) (fun time =>
  bindR (match Volume (snd s) with
         | None => Raise "cannot convert float NaN to integer"
         | Some v => Ok (JInt v)
         end) (fun volume =>
  Ok (JDict [("time", time);
             ("price", JFloat (Close (snd s)));
             ("open", JFloat (Open (snd s)));
             ("high", JFloat (High (snd s)));
             ("low", JFloat (Low (snd s)));
             ("volume", volume)]%string))).

Definition has_close (s : Z * Row) : bool := negb (isna (Close (snd s))).

(** [[{...} for idx, row in df.iterrows() if not pd.isna(row['Close'])]] *)
Definition graph_points (df : DataFrame) : result (list json) :=
  mapR (to_point (index_tz df)) (filter has_close (rows df)).

(** Lines 240-303: the "1d" branch. *)
Definition one_day (ticker : string) (now : datetime) : M (list json) :=
  let target := target_date now in
  data <- fetch (HistoryRange ticker target (target + 1) "1m" true) ;;
  if negb (empty data) then
    market_data <- lift (aggregate data) ;;
    market_data <-
      (if len market_data <? 2 then
         let prev := prev_trading_day target in
         data <- fetch (HistoryRange ticker prev (prev + 1) "1m" true) ;;
         if negb (empty data) then lift (aggregate data)
         else ret empty_frame
       else ret market_data) ;;
    lift (graph_points market_data)
  else ret [].

(** Lines 306-315: the range and the granularity asked for. *)
Definition period_query (ticker period : string) : Query :=
  if String.eqb period "7d" then HistoryPeriod ticker "7d" "1h" false
  else if String.eqb period "30d" then HistoryPeriod ticker "1mo" "1d" false
  else if String.eqb period "3mo" then HistoryPeriod ticker "3mo" "1d" false
  else if String.eqb period "1y" then HistoryPeriod ticker "1y" "1wk" false
  else HistoryPeriod ticker "1mo" "1d" false.

(** Lines 305-324: every other period. *)
Definition other_period (ticker period : string) : M (list json) :=
  data <- fetch (period_query ticker period) ;;
  lift (graph_points data).

Definition no_ticker : Response :=
  (400, JDict [("error", JStr "No ticker provided")]%string).

(** [request.args.get('ticker', '').upper().strip()] *)
Definition ticker_of (args : Args) : string :=
  PyStr.strip (PyStr.upper (get (arg_ticker args) EmptyString)).

(** Lines 240-324: the list [graph_data]. *)
Definition graph_data (ticker period : string) (now : datetime)
  : M (list json) :=
  if String.eqb period "1d" then one_day ticker now
  else other_period ticker period.

(** The body of the [try] of [get_stock_graph]. *)
Definition graph_body (ticker period : string) (now : datetime) : M Response :=
  graph_data <- graph_data ticker period now ;;
  match graph_data with
  | [] =>
      ret (404, JDict [("error", JStr "No valid data points after processing")]%string)
  | _ =>
      ret (200, JDict [("status", JStr "success");
                       ("ticker", JStr ticker);
                       ("period", JStr period);
                       ("data", JList graph_data);
                       ("last_updated", JStamp now)]%string)
  end.

(** The route [/stock_graph]: the provider calls made, and the response.
    [now] is [datetime.now] in New York. *)
Definition get_stock_graph (now : datetime) (args : Args)
  : list Query * Response :=
  let ticker := ticker_of args in
  let period := get (arg_period args) "1d" in
  if PyStr.is_empty ticker then ([], no_ticker)
  else
    match graph_body ticker period now [] with
    | (tr, Ok resp) => (tr, resp)
    | (tr, Raise e) =>
        (tr, (500, JDict [("status", JStr "error");
                          ("error", JStr e);
                          ("message",
                           JStr ("Failed to fetch " ++ period ++
                                 " data for " ++ ticker))]%string))
    end.

(** Lines 205-220 of [get_stock] format floating-point numbers; they are
    kept abstract: the body built from the ticker, the last row and the
    previous close, or the exception raised on the way. *)
Variable quote : string -> Row -> option Z -> result json.

Definition stock_body (ticker : string) : M Response :=
  hist <- fetch (HistoryPeriod ticker "1d" "1m" true) ;;
  match rev (rows hist) with
  | [] => ret (404, JDict [("error", JStr "No data found for this ticker")]%string)
  | current :: _ =>
      prev_close <- fetch_info ticker ;;
      body <- lift (quote ticker (snd current) prev_close) ;;
      ret (200, body)
  end.

(** The route [/stock]. *)
Definition get_stock (args : Args) : list Query * Response :=
  let ticker := ticker_of args in
  if PyStr.is_empty ticker then ([], no_ticker)
  else
    match stock_body ticker [] with
    | (tr, Ok resp) => (tr, resp)
    | (tr, Raise e) =>
        (tr, (500, JDict [("error", JStr "Failed to process stock data")]%string))
    end.

End Engine.

(** ** The New York zone, concretely *)

Module Civil.

(** Days from 1970-01-01 to the civil date [y-m-d]. *)
Definition days_from_civil (y m d : Z) : Z :=
  let y' := if m <=? 2 then y - 1 else y in
  let era := y' / 400 in
  let yoe := y' - era * 400 in
  let doy := (153 * (m + (if 2 <? m then -3 else 9)) + 2) / 5 + d - 1 in
  let doe := yoe * 365 + yoe / 4 - yoe / 100 + doy in
  era * 146097 + doe - 719468.

(** The civil year of a day counted from 1970-01-01. *)
Definition year_of_days (z : Z) : Z :=
  let z' := z + 719468 in
  let era := z' / 146097 in
  let doe := z' - era * 146097 in
  let yoe := (doe - doe / 1460 + doe / 36524 - doe / 146096) / 365 in
  let doy := doe - (365 * yoe + yoe / 4 - yoe / 100) in
  let mp := (5 * doy + 2) / 153 in
  let m := if mp <? 10 then mp + 3 else mp - 9 in
  yoe + era * 400 + (if m <=? 2 then 1 else 0).

(** [date.toordinal()] of a day counted from 1970-01-01. *)
Definition ordinal_of_days (z : Z) : Z := z + 719163.

(** The first Sunday on or after the day [z]. *)
Definition sunday_from (z : Z) : Z :=
  z + (6 - weekday (ordinal_of_days z)) mod 7.

End Civil.

(** The rule of the United States in force since 2007: daylight time from
    the second Sunday of March, 02:00 EST, to the first Sunday of November,
    02:00 EDT. *)
Definition ny_utcoffset_us (t : Z) : Z :=
  let y := Civil.year_of_days (t / 86400) in
  let dst_start :=
    Civil.sunday_from (Civil.days_from_civil y 3 8) * 86400 + 7 * 3600 in
  let dst_end :=
    Civil.sunday_from (Civil.days_from_civil y 11 1) * 86400 + 6 * 3600 in
  if (dst_start <=? t) && (t <? dst_end) then -4 * 3600 else -5 * 3600.

(** The instant at which a New York wall clock shows [hh:mm] on [y-m-d],
    in winter (EST, five hours behind UTC). *)
Definition est (y m d hh mm : Z) : Z :=
  Civil.days_from_civil y m d * 86400 + hh * 3600 + mm * 60 + 5 * 3600.

(** A sample whose four prices are all [p]. *)
Definition tick (t p v : Z) : Z * Row :=
  (t, {| Open := Some p; High := Some p; Low := Some p; Close := Some p;
         Volume := Some v |}).

(** The scenario of the specification, on Wednesday 2024-01-10. *)
Definition scenario : DataFrame :=
  {| index_tz := Some UTC;
     rows := [tick (est 2024 1 10 9 29) 100 0;
              tick (est 2024 1 10 9 31) 101 10;
              tick (est 2024 1 10 9 33) 102 5;
              tick (est 2024 1 10 16 5) 103 0] |}.

(** ** Derived notions used in the statements *)

Section Derived.

Variable ny_utcoffset : Z -> Z.

(** The frame of line 261 or 263, whatever the zone of the input. *)
Definition in_new_york (data : DataFrame) : DataFrame :=
  {| index_tz := Some America_New_York; rows := rows data |}.

(** The resampled frame of lines 266-272. *)
Definition bars (data : DataFrame) : DataFrame :=
  resample_5T_agg ny_utcoffset
    (between_time ny_utcoffset t0930 t1600 (in_new_york data)).

(** The JSON object of one bar, when nothing raises. *)
Definition point (s : Z * Row) : json :=
  JDict [("time", JTime (fst s));
         ("price", JFloat (Close (snd s)));
         ("open", JFloat (Open (snd s)));
         ("high", JFloat (High (snd s)));
         ("low", JFloat (Low (snd s)));
         ("volume", JInt (match Volume (snd s) with Some v => v | None => 0 end))
        ]%string.

(** The bars a session's frame is turned into (steps 1 to 5). *)
Definition session_points (data : DataFrame) : list json :=
  map point (filter has_close (rows (bars data))).

(** The two queries of the "1d" branch. *)
Definition primary (ticker : string) (now : datetime) : Query :=
  HistoryRange ticker (target_date now) (target_date now + 1) "1m" true.

Definition fallback (ticker : string) (now : datetime) : Query :=
  HistoryRange ticker (prev_trading_day (target_date now))
    (prev_trading_day (target_date now) + 1) "1m" true.

End Derived.

(** ** Concrete requests and providers *)

Definition at_time (date h m : Z) : datetime :=
  {| dt_date := date; hour := h; minute := m; second := 0; microsecond := 0 |}.

(** Friday 2024-01-05, Monday 2024-01-08 and Tuesday 2024-01-09. *)
Definition friday : Z := Civil.ordinal_of_days (Civil.days_from_civil 2024 1 5).
Definition monday : Z := Civil.ordinal_of_days (Civil.days_from_civil 2024 1 8).
Definition tuesday : Z := Civil.ordinal_of_days (Civil.days_from_civil 2024 1 9).

Definition aapl : Args :=
  {| arg_ticker := Some "aapl"%string; arg_period := None |}.

Definition frame (l : list (Z * Row)) : DataFrame :=
  {| index_tz := Some America_New_York; rows := l |}.

(** A provider that has [data] for the session that starts on [date] and
    [others] for every other request. *)
Definition provider (date : Z) (data others : DataFrame) (q : Query)
  : result DataFrame :=
  match q with
  | HistoryRange _ start _ _ _ => if start =? date then Ok data else Ok others
  | _ => Ok others
  end.

(** One minute of Monday's session, and three bars of Friday's. *)
Definition monday_one_minute : DataFrame :=
  frame [tick (est 2024 1 8 9 31) 101 10].

Definition three_bars (y m d : Z) : DataFrame :=
  frame [tick (est y m d 9 31) 90 1; tick (est y m d 9 36) 91 2;
         tick (est y m d 9 41) 92 3].

Definition friday_three_bars : DataFrame := three_bars 2024 1 5.
Definition monday_three_bars : DataFrame := three_bars 2024 1 8.

(** A sample all of whose values are missing. *)
Definition blank (t : Z) : Z * Row :=
  (t, {| Open := None; High := None; Low := None; Close := None;
         Volume := None |}).

(** Tuesday's session with a price at 09:31 and a blank row at 09:41. *)
Definition tuesday_sparse : DataFrame :=
  frame [tick (est 2024 1 9 9 31) 101 10; blank (est 2024 1 9 9 41)].

(** A provider that has nothing, and one that is out of reach. *)
Definition no_data (q : Query) : result DataFrame := Ok (frame []).
Definition unreachable (q : Query) : result DataFrame :=
  Raise "connection reset".

(** The ticker a query is about. *)
Definition query_ticker (q : Query) : string :=
  match q with
  | HistoryRange t _ _ _ _ => t
  | HistoryPeriod t _ _ _ => t
  | Info t => t
  end.

(** The error shape of the specification:
    [{status: "error", error: string, message: string}]. *)
Definition error_shape (body : json) : Prop :=
  field "status" body = Some (JStr "error") /\
  (exists e, field "error" body = Some (JStr e)) /\
  (exists m, field "message" body = Some (JStr m)).

(** The response of the [except] clause of [get_stock_graph]. *)
Definition fetch_failed (period ticker : string) (e : exn) : Response :=
  (500, JDict [("status", JStr "error"); ("error", JStr e);
               ("message",
                JStr ("Failed to fetch " ++ period ++ " data for " ++ ticker))
              ]%string).

(** ** Claims of the specification that the code does not satisfy as they
    are worded *)

(** The fallback query is for the calendar day before the primary one. *)
Definition fallback_is_calendar_yesterday : Prop :=
  forall (ny : Z -> Z) (history : Query -> result DataFrame) (ticker : string)
         (now : datetime) (q : Query) (r : result (list json)),
    one_day ny history ticker now [] = ([primary ticker now; q], r) ->
    q = HistoryRange ticker (target_date now - 1) (target_date now) "1m" true.

(** Whenever the primary session is left with fewer than two bars once the
    bars without a close are dropped (an empty primary fetch included), the
    result is the fallback session's. *)
Definition fallback_on_fewer_than_two_bars : Prop :=
  forall (ny : Z -> Z) (history : Query -> result DataFrame) (ticker : string)
         (now : datetime) (data data' : DataFrame),
    history (primary ticker now) = Ok data ->
    history (fallback ticker now) = Ok data' ->
    (List.length (session_points ny data) < 2)%nat ->
    snd (one_day ny history ticker now []) = Ok (session_points ny data').

(** An empty [graph_data] is answered with the error shape. *)
Definition empty_data_has_error_shape : Prop :=
  forall (ny : Z -> Z) (history : Query -> result DataFrame) (now : datetime)
         (args : Args) (tr : list Query),
    ticker_of args <> EmptyString ->
    graph_data ny history (ticker_of args) (get (arg_period args) "1d") now []
      = (tr, Ok []) ->
    error_shape (snd (snd (get_stock_graph ny history now args))).

(** A primary fetch that raises is still followed by the fallback fetch. *)
Definition failed_primary_still_falls_back : Prop :=
  forall (ny : Z -> Z) (history : Query -> result DataFrame) (now : datetime)
         (args : Args) (e : exn),
    ticker_of args <> EmptyString ->
    get (arg_period args) "1d" = "1d"%string ->
    history (primary (ticker_of args) now) = Raise e ->
    In (fallback (ticker_of args) now)
       (fst (get_stock_graph ny history now args)).

(** Saturday 2024-01-06. *)
Definition saturday : Z := Civil.ordinal_of_days (Civil.days_from_civil 2024 1 6).

(** The bucket-start timestamps of a sequence of bars, in order. *)
Definition times (l : list json) : list Z :=
  flat_map (fun j => match field "time" j with
                     | Some (JTime t) => [t]
                     | _ => []
                     end) l.

(** Timestamps that increase strictly; no two of them are equal. *)
Definition strictly_increasing (l : list Z) : Prop := StronglySorted Z.lt l.

(** Two hourly samples that the provider returns latest first. *)
Definition latest_first : DataFrame :=
  frame [tick (est 2024 1 9 11 30) 102 5; tick (est 2024 1 9 10 30) 101 10].

(** The order of two rows by their timestamps. *)
Definition before (a b : Z * Row) : Prop := fst a < fst b.

(** The bars of every request are in strictly increasing order of time. *)
Definition bars_always_increase : Prop :=
  forall (ny : Z -> Z) (history : Query -> result DataFrame) (now : datetime)
         (args : Args) (tr : list Query) (l : list json),
    ticker_of args <> EmptyString ->
    graph_data ny history (ticker_of args) (get (arg_period args) "1d") now []
      = (tr, Ok l) ->
    strictly_increasing (times l).

(** ** Buckets *)

(** The order of the sorted index. *)
Definition le_time (a b : Z * Row) : Prop := fst a <= fst b.

(** The rows with the timestamp [t]. *)
Definition at_time_t (t : Z) (s : Z * Row) : bool := fst s =? t.

Section Buckets.

Variable ny_utcoffset : Z -> Z.

(** The New York time of day of a sample is within the session. *)
Definition in_window (s : Z * Row) : bool :=
  (t0930 <=? (fst s + ny_utcoffset (fst s)) mod 86400) &&
  ((fst s + ny_utcoffset (fst s)) mod 86400 <=? t1600).

(** The samples of a frame that contribute to the bucket that starts at
    [lo], in the order of the input. *)
Definition contributing (data : DataFrame) (lo : Z) : list (Z * Row) :=
  filter (in_bin lo) (filter in_window (rows data)).

(** The same samples in the order of their timestamps, samples with one
    timestamp staying in the order of the input. *)
Definition bucket (data : DataFrame) (lo : Z) : list (Z * Row) :=
  sort_index (contributing data lo).

End Buckets.

(** The open of a bar is the open of the first sample of its bucket, and
    its close the close of the last one. *)
Definition open_and_close_of_first_and_last : Prop :=
  forall (ny : Z -> Z) (data : DataFrame) (lo : Z) (r : Row)
         (first last : Z * Row),
    In (lo, r) (rows (bars ny data)) ->
    hd_error (bucket ny data lo) = Some first ->
    hd_error (rev (bucket ny data lo)) = Some last ->
    Open r = Open (snd first) /\ Close r = Close (snd last).

(** A blank row at 09:31 followed by a price at 09:33, and a price at 09:31
    followed by a blank row at 09:33. *)
Definition blank_then_price : DataFrame :=
  frame [blank (est 2024 1 10 9 31); tick (est 2024 1 10 9 33) 102 5].

(** ** Notions used in the further properties *)

(** The volume of an element of the data list. *)
Definition point_volume (j : json) : Z :=
  match field "volume" j with
  | Some (JInt v) => v
  | _ => 0
  end.

(** The sum of a list of numbers. *)
Definition total (l : list Z) : Z := fold_right Z.add 0 l.

(** The volume of a list of samples, a missing volume counting for none. *)
Definition volume_of (l : list (Z * Row)) : Z :=
  sum_valid (map Volume (map snd l)).

(** A row whose four prices are present and in order: the low is at most
    the open and the close, which are at most the high. *)
Definition ordered_prices (r : Row) : Prop :=
  exists o h l c,
    Open r = Some o /\ High r = Some h /\ Low r = Some l /\ Close r = Some c /\
    l <= o <= h /\ l <= c <= h.

(** The same for an element of the data list. *)
Definition ordered_point (j : json) : Prop :=
  exists o h l c,
    field "open" j = Some (JFloat (Some o)) /\
    field "high" j = Some (JFloat (Some h)) /\
    field "low" j = Some (JFloat (Some l)) /\
    field "price" j = Some (JFloat (Some c)) /\
    l <= o <= h /\ l <= c <= h.

(** ** The handler [assess_risk] *)

(** [get_risk_description(risk_level, ticker)]: a dictionary of three
    descriptions and its default. *)
Definition get_risk_description (risk_level ticker : string) : string :=
  if String.eqb risk_level "low" then
    (ticker ++ " shows low volatility, indicating stable price movements. Suitable for conservative investors.")%string
  else if String.eqb risk_level "medium" then
    (ticker ++ " has moderate volatility. Expect some fluctuations but generally stable.")%string
  else if String.eqb risk_level "high" then
    (ticker ++ " exhibits high volatility with significant price swings. Higher risk/reward potential.")%string
  else "Risk assessment unavailable."%string.

Section Risk.

(** numpy's floating-point numbers are kept abstract: the standard
    deviation and the mean of the closing prices, the product and the
    comparison of two numbers, the constants 0.02 and 0.05, and the JSON
    value of [round(x, 2)]. *)
Variable float64 : Type.
Variable np_std np_mean : list (option Z) -> float64.
Variable mul : float64 -> float64 -> float64.
Variable lt : float64 -> float64 -> bool.
Variable c_0_02 c_0_05 : float64.
Variable round2 : float64 -> json.

Variable history : Query -> result DataFrame.

(** Lines 361-367: the level of risk of a list of closing prices. *)
Definition risk_level (closing_prices : list (option Z)) : string :=
  let volatility := np_std closing_prices in
  let avg_price := np_mean closing_prices in
  if lt volatility (mul c_0_02 avg_price) then "low"%string
  else if lt volatility (mul c_0_05 avg_price) then "medium"%string
  else "high"%string.

(** The body of the [try] of [assess_risk]; [stock.history(period="1mo")]
    has yfinance's default interval of one day, without pre- and post-market
    samples. *)
Definition risk_body (ticker : string) : M Response :=
  hist <- fetch history (HistoryPeriod ticker "1mo" "1d" false) ;;
  if empty hist then
    ret (404, JDict [("error", JStr "No data available for this ticker")]%string)
  else
    let closing_prices := map (fun s => Close (snd s)) (rows hist) in
    if len hist <? 10 then
      ret (400, JDict [("error", JStr "Not enough data to assess risk")]%string)
    else
      ret (200, JDict [("status", JStr "success");
                       ("ticker", JStr ticker);
                       ("volatility", round2 (np_std closing_prices));
                       ("risk_level", JStr (risk_level closing_prices));
                       ("description",
                        JStr (get_risk_description (risk_level closing_prices)
                                ticker))]%string).

(** The route [/risk]. *)
Definition assess_risk (args : Args) : list Query * Response :=
  let ticker := ticker_of args in
  if PyStr.is_empty ticker then ([], no_ticker)
  else
    match risk_body ticker [] with
    | (tr, Ok resp) => (tr, resp)
    | (tr, Raise e) =>
        (tr, (500, JDict [("error", JStr ("Failed to assess risk: " ++ e))]%string))
    end.

End Risk.

(** ** The handler [chatbot] *)

From Stdlib Require Import DecimalString.

Module PyText.

(** [str.lower] on the ASCII letters. *)
Definition lower_char (c : ascii) : ascii :=
  let n := N_of_ascii c in
  if (N.leb 65 n && N.leb n 90)%bool then ascii_of_N (n + 32) else c.

Fixpoint lower_bytes (s : string) : string :=
  match s with
  | EmptyString => EmptyString
  | String c r => String (lower_char c) (lower_bytes r)
  end.

(** [ch.lower()] for one character, as far as the ASCII letters of the
    result go.  Beyond ASCII only two characters have an ASCII letter in
    their lower case: the Kelvin sign (U+212A) becomes k, and the capital I
    with a dot (U+0130) becomes i followed by the combining dot (U+0307).
    The other characters beyond ASCII become characters beyond ASCII and
    are kept as they are here: the result is only searched for phrases
    written in ASCII, which occur in it exactly when they occur in the
    lower case that Python computes. *)
Definition lower_chr (ch : string) : string :=
  if String.eqb ch (PyStr.utf8 [226; 132; 170]%N) then "k"%string
  else if String.eqb ch (PyStr.utf8 [196; 176]%N)
       then PyStr.utf8 [105; 204; 135]%N
       else lower_bytes ch.

Definition lower (s : string) : string :=
  PyStr.cat (map lower_chr (PyStr.chars s)).

(** [s.startswith(p)] *)
Fixpoint starts_with (p s : string) : bool :=
  match p, s with
  | EmptyString, _ => true
  | String _ _, EmptyString => false
  | String a p', String b s' => Ascii.eqb a b && starts_with p' s'
  end.

(** [p in s]: [p] occurs in [s]. *)
Fixpoint contains (p s : string) : bool :=
  starts_with p s ||
  match s with
  | EmptyString => false
  | String _ s' => contains p s'
  end.

(** The code point of a character, from its UTF-8 encoding: the bits of the
    first byte below its length mark, then six bits of every following
    byte. *)
Definition payload (c : ascii) : N :=
  let n := N_of_ascii c in
  if N.ltb n 128 then n
  else if N.ltb n 192 then n - 128
  else if N.ltb n 224 then n - 192
  else if N.ltb n 240 then n - 224
  else n - 240.

Fixpoint continue (acc : N) (t : string) : N :=
  match t with
  | EmptyString => acc
  | String c r => continue (acc * 64 + N_of_ascii c mod 64) r
  end.

Definition code_point (ch : string) : N :=
  match ch with
  | EmptyString => 0
  | String c t => continue (payload c) t
  end.

(** The ranges of the code points from 128 on that are word characters for
    the [re] module on a [str] pattern: the alphanumeric characters
    ([str.isalnum], Unicode 14.0). *)
Definition word_ranges : list (N * N) :=
  [
    (170, 170); (178, 179); (181, 181); (185, 186); (188, 190); (192, 214);
    (216, 246); (248, 705); (710, 721); (736, 740); (748, 748); (750, 750);
    (880, 884); (886, 887); (890, 893); (895, 895); (902, 902); (904, 906);
    (908, 908); (910, 929); (931, 1013); (1015, 1153); (1162, 1327);
    (1329, 1366); (1369, 1369); (1376, 1416); (1488, 1514); (1519, 1522);
    (1568, 1610); (1632, 1641); (1646, 1647); (1649, 1747); (1749, 1749);
    (1765, 1766); (1774, 1788); (1791, 1791); (1808, 1808); (1810, 1839);
    (1869, 1957); (1969, 1969); (1984, 2026); (2036, 2037); (2042, 2042);
    (2048, 2069); (2074, 2074); (2084, 2084); (2088, 2088); (2112, 2136);
    (2144, 2154); (2160, 2183); (2185, 2190); (2208, 2249); (2308, 2361);
    (2365, 2365); (2384, 2384); (2392, 2401); (2406, 2415); (2417, 2432);
    (2437, 2444); (2447, 2448); (2451, 2472); (2474, 2480); (2482, 2482);
    (2486, 2489); (2493, 2493); (2510, 2510); (2524, 2525); (2527, 2529);
    (2534, 2545); (2548, 2553); (2556, 2556); (2565, 2570); (2575, 2576);
    (2579, 2600); (2602, 2608); (2610, 2611); (2613, 2614); (2616, 2617);
    (2649, 2652); (2654, 2654); (2662, 2671); (2674, 2676); (2693, 2701);
    (2703, 2705); (2707, 2728); (2730, 2736); (2738, 2739); (2741, 2745);
    (2749, 2749); (2768, 2768); (2784, 2785); (2790, 2799); (2809, 2809);
    (2821, 2828); (2831, 2832); (2835, 2856); (2858, 2864); (2866, 2867);
    (2869, 2873); (2877, 2877); (2908, 2909); (2911, 2913); (2918, 2927);
    (2929, 2935); (2947, 2947); (2949, 2954); (2958, 2960); (2962, 2965);
    (2969, 2970); (2972, 2972); (2974, 2975); (2979, 2980); (2984, 2986);
    (2990, 3001); (3024, 3024); (3046, 3058); (3077, 3084); (3086, 3088);
    (3090, 3112); (3114, 3129); (3133, 3133); (3160, 3162); (3165, 3165);
    (3168, 3169); (3174, 3183); (3192, 3198); (3200, 3200); (3205, 3212);
    (3214, 3216); (3218, 3240); (3242, 3251); (3253, 3257); (3261, 3261);
    (3293, 3294); (3296, 3297); (3302, 3311); (3313, 3314); (3332, 3340);
    (3342, 3344); (3346, 3386); (3389, 3389); (3406, 3406); (3412, 3414);
    (3416, 3425); (3430, 3448); (3450, 3455); (3461, 3478); (3482, 3505);
    (3507, 3515); (3517, 3517); (3520, 3526); (3558, 3567); (3585, 3632);
    (3634, 3635); (3648, 3654); (3664, 3673); (3713, 3714); (3716, 3716);
    (3718, 3722); (3724, 3747); (3749, 3749); (3751, 3760); (3762, 3763);
    (3773, 3773); (3776, 3780); (3782, 3782); (3792, 3801); (3804, 3807);
    (3840, 3840); (3872, 3891); (3904, 3911); (3913, 3948); (3976, 3980);
    (4096, 4138); (4159, 4169); (4176, 4181); (4186, 4189); (4193, 4193);
    (4197, 4198); (4206, 4208); (4213, 4225); (4238, 4238); (4240, 4249);
    (4256, 4293); (4295, 4295); (4301, 4301); (4304, 4346); (4348, 4680);
    (4682, 4685); (4688, 4694); (4696, 4696); (4698, 4701); (4704, 4744);
    (4746, 4749); (4752, 4784); (4786, 4789); (4792, 4798); (4800, 4800);
    (4802, 4805); (4808, 4822); (4824, 4880); (4882, 4885); (4888, 4954);
    (4969, 4988); (4992, 5007); (5024, 5109); (5112, 5117); (5121, 5740);
    (5743, 5759); (5761, 5786); (5792, 5866); (5870, 5880); (5888, 5905);
    (5919, 5937); (5952, 5969); (5984, 5996); (5998, 6000); (6016, 6067);
    (6103, 6103); (6108, 6108); (6112, 6121); (6128, 6137); (6160, 6169);
    (6176, 6264); (6272, 6276); (6279, 6312); (6314, 6314); (6320, 6389);
    (6400, 6430); (6470, 6509); (6512, 6516); (6528, 6571); (6576, 6601);
    (6608, 6618); (6656, 6678); (6688, 6740); (6784, 6793); (6800, 6809);
    (6823, 6823); (6917, 6963); (6981, 6988); (6992, 7001); (7043, 7072);
    (7086, 7141); (7168, 7203); (7232, 7241); (7245, 7293); (7296, 7304);
    (7312, 7354); (7357, 7359); (7401, 7404); (7406, 7411); (7413, 7414);
    (7418, 7418); (7424, 7615); (7680, 7957); (7960, 7965); (7968, 8005);
    (8008, 8013); (8016, 8023); (8025, 8025); (8027, 8027); (8029, 8029);
    (8031, 8061); (8064, 8116); (8118, 8124); (8126, 8126); (8130, 8132);
    (8134, 8140); (8144, 8147); (8150, 8155); (8160, 8172); (8178, 8180);
    (8182, 8188); (8304, 8305); (8308, 8313); (8319, 8329); (8336, 8348);
    (8450, 8450); (8455, 8455); (8458, 8467); (8469, 8469); (8473, 8477);
    (8484, 8484); (8486, 8486); (8488, 8488); (8490, 8493); (8495, 8505);
    (8508, 8511); (8517, 8521); (8526, 8526); (8528, 8585); (9312, 9371);
    (9450, 9471); (10102, 10131); (11264, 11492); (11499, 11502);
    (11506, 11507); (11517, 11517); (11520, 11557); (11559, 11559);
    (11565, 11565); (11568, 11623); (11631, 11631); (11648, 11670);
    (11680, 11686); (11688, 11694); (11696, 11702); (11704, 11710);
    (11712, 11718); (11720, 11726); (11728, 11734); (11736, 11742);
    (11823, 11823); (12293, 12295); (12321, 12329); (12337, 12341);
    (12344, 12348); (12353, 12438); (12445, 12447); (12449, 12538);
    (12540, 12543); (12549, 12591); (12593, 12686); (12690, 12693);
    (12704, 12735); (12784, 12799); (12832, 12841); (12872, 12879);
    (12881, 12895); (12928, 12937); (12977, 12991); (13312, 19903);
    (19968, 42124); (42192, 42237); (42240, 42508); (42512, 42539);
    (42560, 42606); (42623, 42653); (42656, 42735); (42775, 42783);
    (42786, 42888); (42891, 42954); (42960, 42961); (42963, 42963);
    (42965, 42969); (42994, 43009); (43011, 43013); (43015, 43018);
    (43020, 43042); (43056, 43061); (43072, 43123); (43138, 43187);
    (43216, 43225); (43250, 43255); (43259, 43259); (43261, 43262);
    (43264, 43301); (43312, 43334); (43360, 43388); (43396, 43442);
    (43471, 43481); (43488, 43492); (43494, 43518); (43520, 43560);
    (43584, 43586); (43588, 43595); (43600, 43609); (43616, 43638);
    (43642, 43642); (43646, 43695); (43697, 43697); (43701, 43702);
    (43705, 43709); (43712, 43712); (43714, 43714); (43739, 43741);
    (43744, 43754); (43762, 43764); (43777, 43782); (43785, 43790);
    (43793, 43798); (43808, 43814); (43816, 43822); (43824, 43866);
    (43868, 43881); (43888, 44002); (44016, 44025); (44032, 55203);
    (55216, 55238); (55243, 55291); (63744, 64109); (64112, 64217);
    (64256, 64262); (64275, 64279); (64285, 64285); (64287, 64296);
    (64298, 64310); (64312, 64316); (64318, 64318); (64320, 64321);
    (64323, 64324); (64326, 64433); (64467, 64829); (64848, 64911);
    (64914, 64967); (65008, 65019); (65136, 65140); (65142, 65276);
    (65296, 65305); (65313, 65338); (65345, 65370); (65382, 65470);
    (65474, 65479); (65482, 65487); (65490, 65495); (65498, 65500);
    (65536, 65547); (65549, 65574); (65576, 65594); (65596, 65597);
    (65599, 65613); (65616, 65629); (65664, 65786); (65799, 65843);
    (65856, 65912); (65930, 65931); (66176, 66204); (66208, 66256);
    (66273, 66299); (66304, 66339); (66349, 66378); (66384, 66421);
    (66432, 66461); (66464, 66499); (66504, 66511); (66513, 66517);
    (66560, 66717); (66720, 66729); (66736, 66771); (66776, 66811);
    (66816, 66855); (66864, 66915); (66928, 66938); (66940, 66954);
    (66956, 66962); (66964, 66965); (66967, 66977); (66979, 66993);
    (66995, 67001); (67003, 67004); (67072, 67382); (67392, 67413);
    (67424, 67431); (67456, 67461); (67463, 67504); (67506, 67514);
    (67584, 67589); (67592, 67592); (67594, 67637); (67639, 67640);
    (67644, 67644); (67647, 67669); (67672, 67702); (67705, 67742);
    (67751, 67759); (67808, 67826); (67828, 67829); (67835, 67867);
    (67872, 67897); (67968, 68023); (68028, 68047); (68050, 68096);
    (68112, 68115); (68117, 68119); (68121, 68149); (68160, 68168);
    (68192, 68222); (68224, 68255); (68288, 68295); (68297, 68324);
    (68331, 68335); (68352, 68405); (68416, 68437); (68440, 68466);
    (68472, 68497); (68521, 68527); (68608, 68680); (68736, 68786);
    (68800, 68850); (68858, 68899); (68912, 68921); (69216, 69246);
    (69248, 69289); (69296, 69297); (69376, 69415); (69424, 69445);
    (69457, 69460); (69488, 69505); (69552, 69579); (69600, 69622);
    (69635, 69687); (69714, 69743); (69745, 69746); (69749, 69749);
    (69763, 69807); (69840, 69864); (69872, 69881); (69891, 69926);
    (69942, 69951); (69956, 69956); (69959, 69959); (69968, 70002);
    (70006, 70006); (70019, 70066); (70081, 70084); (70096, 70106);
    (70108, 70108); (70113, 70132); (70144, 70161); (70163, 70187);
    (70272, 70278); (70280, 70280); (70282, 70285); (70287, 70301);
    (70303, 70312); (70320, 70366); (70384, 70393); (70405, 70412);
    (70415, 70416); (70419, 70440); (70442, 70448); (70450, 70451);
    (70453, 70457); (70461, 70461); (70480, 70480); (70493, 70497);
    (70656, 70708); (70727, 70730); (70736, 70745); (70751, 70753);
    (70784, 70831); (70852, 70853); (70855, 70855); (70864, 70873);
    (71040, 71086); (71128, 71131); (71168, 71215); (71236, 71236);
    (71248, 71257); (71296, 71338); (71352, 71352); (71360, 71369);
    (71424, 71450); (71472, 71483); (71488, 71494); (71680, 71723);
    (71840, 71922); (71935, 71942); (71945, 71945); (71948, 71955);
    (71957, 71958); (71960, 71983); (71999, 71999); (72001, 72001);
    (72016, 72025); (72096, 72103); (72106, 72144); (72161, 72161);
    (72163, 72163); (72192, 72192); (72203, 72242); (72250, 72250);
    (72272, 72272); (72284, 72329); (72349, 72349); (72368, 72440);
    (72704, 72712); (72714, 72750); (72768, 72768); (72784, 72812);
    (72818, 72847); (72960, 72966); (72968, 72969); (72971, 73008);
    (73030, 73030); (73040, 73049); (73056, 73061); (73063, 73064);
    (73066, 73097); (73112, 73112); (73120, 73129); (73440, 73458);
    (73648, 73648); (73664, 73684); (73728, 74649); (74752, 74862);
    (74880, 75075); (77712, 77808); (77824, 78894); (82944, 83526);
    (92160, 92728); (92736, 92766); (92768, 92777); (92784, 92862);
    (92864, 92873); (92880, 92909); (92928, 92975); (92992, 92995);
    (93008, 93017); (93019, 93025); (93027, 93047); (93053, 93071);
    (93760, 93846); (93952, 94026); (94032, 94032); (94099, 94111);
    (94176, 94177); (94179, 94179); (94208, 100343); (100352, 101589);
    (101632, 101640); (110576, 110579); (110581, 110587); (110589, 110590);
    (110592, 110882); (110928, 110930); (110948, 110951); (110960, 111355);
    (113664, 113770); (113776, 113788); (113792, 113800); (113808, 113817);
    (119520, 119539); (119648, 119672); (119808, 119892); (119894, 119964);
    (119966, 119967); (119970, 119970); (119973, 119974); (119977, 119980);
    (119982, 119993); (119995, 119995); (119997, 120003); (120005, 120069);
    (120071, 120074); (120077, 120084); (120086, 120092); (120094, 120121);
    (120123, 120126); (120128, 120132); (120134, 120134); (120138, 120144);
    (120146, 120485); (120488, 120512); (120514, 120538); (120540, 120570);
    (120572, 120596); (120598, 120628); (120630, 120654); (120656, 120686);
    (120688, 120712); (120714, 120744); (120746, 120770); (120772, 120779);
    (120782, 120831); (122624, 122654); (123136, 123180); (123191, 123197);
    (123200, 123209); (123214, 123214); (123536, 123565); (123584, 123627);
    (123632, 123641); (124896, 124902); (124904, 124907); (124909, 124910);
    (124912, 124926); (124928, 125124); (125127, 125135); (125184, 125251);
    (125259, 125259); (125264, 125273); (126065, 126123); (126125, 126127);
    (126129, 126132); (126209, 126253); (126255, 126269); (126464, 126467);
    (126469, 126495); (126497, 126498); (126500, 126500); (126503, 126503);
    (126505, 126514); (126516, 126519); (126521, 126521); (126523, 126523);
    (126530, 126530); (126535, 126535); (126537, 126537); (126539, 126539);
    (126541, 126543); (126545, 126546); (126548, 126548); (126551, 126551);
    (126553, 126553); (126555, 126555); (126557, 126557); (126559, 126559);
    (126561, 126562); (126564, 126564); (126567, 126570); (126572, 126578);
    (126580, 126583); (126585, 126588); (126590, 126590); (126592, 126601);
    (126603, 126619); (126625, 126627); (126629, 126633); (126635, 126651);
    (127232, 127244); (130032, 130041); (131072, 173791); (173824, 177976);
    (177984, 178205); (178208, 183969); (183984, 191456); (194560, 195101);
    (196608, 201546)
  ]%N.

(** The characters of a word for [\b] and [\w]: letters, digits and the
    underscore, in the whole of Unicode. *)
Definition is_word (ch : string) : bool :=
  let n := code_point ch in
  if N.ltb n 128 then
    (N.leb 48 n && N.leb n 57) || (N.leb 65 n && N.leb n 90) ||
    N.eqb n 95 || (N.leb 97 n && N.leb n 122)
  else existsb (fun r => N.leb (fst r) n && N.leb n (snd r)) word_ranges.

(** [[A-Z]]: without a flag these are the 26 capital letters of ASCII. *)
Definition is_capital (ch : string) : bool :=
  match ch with
  | String c EmptyString =>
      let n := N_of_ascii c in N.leb 65 n && N.leb n 90
  | _ => false
  end.

(** The maximal runs of word characters of a list of characters, from left
    to right; [cur] is the run being read. *)
Fixpoint words (l cur : list string) : list (list string) :=
  match l with
  | [] => match cur with [] => [] | _ => [cur] end
  | ch :: r =>
      if is_word ch then words r (cur ++ [ch])
      else match cur with [] => [] | _ => [cur] end ++ words r []
  end.

(** A run that [[A-Z]{2,5}] matches as a whole. *)
Definition is_ticker_run (w : list string) : bool :=
  forallb is_capital w && (2 <=? List.length w)%nat &&
  (List.length w <=? 5)%nat.

(** [re.findall(r'\b([A-Z]{2,5})\b', s)]: the capital letters are word
    characters, so that the word boundary in front of a match is at the
    beginning of a run of word characters and the one behind it at the end
    of the same run: the matches are the runs that are made of two to five
    capital letters. *)
Definition findall_tickers (s : string) : list string :=
  map PyStr.cat (filter is_ticker_run (words (PyStr.chars s) [])).

(** [sep.join(l)] *)
Fixpoint join (sep : string) (l : list string) : string :=
  match l with
  | [] => EmptyString
  | [x] => x
  | x :: l' => x ++ sep ++ join sep l'
  end.

(** [str(n)] for a natural number. *)
Definition str_of_nat (n : nat) : string :=
  NilZero.string_of_uint (Nat.to_uint n).

(** The line feed. *)
Definition nl : string := String (ascii_of_nat 10) EmptyString.

End PyText.

Definition SUPPORTED_TICKERS : list string :=
  ["AAPL"; "MSFT"; "TSLA"; "AMZN"; "GOOG"; "META"; "NVDA"; "NFLX"]%string.

(** [t in SUPPORTED_TICKERS] *)
Definition supported (t : string) : bool :=
  existsb (String.eqb t) SUPPORTED_TICKERS.

Definition insight_phrases : list string :=
  ["tell me about"; "insights"; "information about"; "analysis of";
   "overview of"; "details on"; "company profile"]%string.

Definition risk_phrases : list string :=
  ["risk"; "volatility"; "safety"; "stability"; "risk assessment"]%string.

(** [any(phrase in text for phrase in phrases)] *)
Definition any_phrase (phrases : list string) (text : string) : bool :=
  existsb (fun phrase => PyText.contains phrase text) phrases.

(** The two fields of the JSON object of a [/chatbot] request that the
    handler can work with: each is absent or a string. *)
Record ChatArgs := mk_chat_args {
  chat_query : option string;
  chat_ticker : option string
}.

(** A field of a JSON object as [data.get(key, "")] finds it: absent, a
    string, or another value ([null], a number, a boolean, a list or an
    object), which has no method [strip]. *)
Inductive jfield :=
| Absent
| Text (s : string)
| Other.

(** What [request.json] is for a request: nothing that can be read as JSON
    (Flask raises, or gives [None]), a JSON value that is not an object
    (it has no method [get]), or an object with its fields "query" and
    "ticker". *)
Inductive ChatBody :=
| NoJson
| NotObject
| Object (query ticker : jfield).

(** What the chatbot calls: [yf.Ticker(t).info] and
    [gemini.generate_content(prompt)]. *)
Inductive Call :=
| AskInfo (ticker : string)
| AskGemini (prompt : string).

(** The JSON values of the chatbot's answers. *)
Inductive jvalue :=
| VStr (s : string)
| VBool (b : bool)
| VList (l : list string)
| VDict (kv : list (string * jvalue)).
Arguments VStr s%_string.

Fixpoint vassoc (k : string) (kv : list (string * jvalue)) : option jvalue :=
  match kv with
  | [] => None
  | (k', v) :: kv' => if String.eqb k k' then Some v else vassoc k kv'
  end.

Definition vfield (k : string) (body : jvalue) : option jvalue :=
  match body with
  | VDict kv => vassoc k kv
  | _ => None
  end.

(** [[f"{i+1}. {insight}" for i, insight in enumerate(insights)]], counting
    from [i]. *)
Fixpoint numbered (i : nat) (insights : list string) : list string :=
  match insights with
  | [] => []
  | insight :: l =>
      (PyText.str_of_nat (i + 1) ++ ". " ++ insight)%string :: numbered (S i) l
  end.

Definition please_enter : jvalue :=
  VDict [("response", VStr "Please enter a valid finance-related question.")]%string.

Definition sorry : jvalue :=
  VDict [("status", VStr "error");
         ("response", VStr "Sorry, I encountered an error processing your request. Please try again with a different query.")]%string.

(** The prompt sent to Gemini for a query. *)
Definition gemini_prompt (user_query : string) : string :=
  ("Provide a concise answer to this finance-related question: " ++ user_query
   ++ PyText.nl
   ++ "Keep the response professional and to the point (2-3 paragraphs maximum).")%string.

(** What becomes of a request: the view returns an answer after some
    calls, or an exception leaves it. *)
Inductive Outcome :=
| Unhandled
| Answered (calls : list Call) (answer : jvalue).

Section Chatbot.

(** The dictionary [stock_info] of yfinance is kept abstract, with its entry
    'longName' (a string when present); so is [generate_stock_insights]
    (lines 124-189), which formats floating-point numbers, and Gemini. *)
Variable InfoDict : Type.
Variable longName : InfoDict -> option string.
Variable yf_info : string -> result InfoDict.
Variable generate_stock_insights : string -> InfoDict -> result (list string).
Variable gemini : string -> result string.

(** Lines 67-69: the ticker of the request, or the first supported symbol
    in the query, or [None]. *)
Definition chat_ticker_of (ticker user_query : string) : option string :=
  if PyStr.is_empty ticker then
    find supported (PyText.findall_tickers (PyStr.upper user_query))
  else Some ticker.

(** [ticker] as a condition: neither [None] nor empty. *)
Definition truthy (ticker : option string) : bool :=
  match ticker with
  | Some t => negb (PyStr.is_empty t)
  | None => false
  end.

(** Lines 73-87: the insights of a supported ticker. *)
Definition insights_reply (ticker : string) : list Call * result jvalue :=
  ([AskInfo ticker],
   bindR (yf_info ticker) (fun stock_info =>
   let company_name := get (longName stock_info) ticker in
   bindR (generate_stock_insights ticker stock_info) (fun insights =>
   Ok (VDict [("status", VStr "success");
              ("response",
               VStr ("Here are key insights for " ++ company_name ++ " ("
                     ++ ticker ++ "):" ++ PyText.nl ++ PyText.nl
                     ++ PyText.join PyText.nl (numbered 0 insights)));
              ("ticker", VStr ticker);
              ("insights", VList insights);
              ("company_name", VStr company_name);
              ("is_stock_response", VBool true)]%string)))).

(** Line 94: [assess_risk] is a view without parameters, so that the call
    [assess_risk(ticker)] raises a [TypeError] before anything else is
    done. *)
Definition risk_reply (ticker : string) : list Call * result jvalue :=
  ([], Raise "assess_risk() takes 0 positional arguments but 1 was given").

(** Lines 109-117, reached when no answer has been returned: the answer of
    Gemini, or that of the [except] clause of the whole handler; [calls]
    are the calls made before. *)
Definition gemini_reply (calls : list Call) (user_query : string)
  : list Call * jvalue :=
  (calls ++ [AskGemini (gemini_prompt user_query)],
   match gemini (gemini_prompt user_query) with
   | Ok text => VDict [("status", VStr "success"); ("response", VStr text);
                       ("is_stock_response", VBool false)]%string
   | Raise _ => sorry
   end).

(** An inner [try]: its answer is returned, and an exception is logged and
    followed by the question to Gemini. *)
Definition or_gemini (attempt : list Call * result jvalue) (user_query : string)
  : list Call * jvalue :=
  match attempt with
  | (calls, Ok answer) => (calls, answer)
  | (calls, Raise _) => gemini_reply calls user_query
  end.

(** Lines 48-122 for a body whose two fields are absent or strings: the
    calls made, and the body of the answer. *)
Definition chatbot (args : ChatArgs) : list Call * jvalue :=
  let user_query := PyStr.strip (get (chat_query args) EmptyString) in
  let ticker := PyStr.upper (PyStr.strip (get (chat_ticker args) EmptyString)) in
  if PyStr.is_empty user_query then ([], please_enter)
  else
    let is_stock_insight_request :=
      any_phrase insight_phrases (PyText.lower user_query) in
    let is_risk_request := any_phrase risk_phrases (PyText.lower user_query) in
    let ticker := chat_ticker_of ticker user_query in
    if is_stock_insight_request && truthy ticker
       && supported (get ticker EmptyString)
    then or_gemini (insights_reply (get ticker EmptyString)) user_query
    else if is_risk_request && truthy ticker
    then or_gemini (risk_reply (get ticker EmptyString)) user_query
    else gemini_reply [] user_query.

(** Lines 47-49 are outside the [try]: the texts of the two fields, when
    [request.json] is an object and neither field holds something else
    than a string. *)
Definition text_of (f : jfield) : option (option string) :=
  match f with
  | Absent => Some None
  | Text s => Some (Some s)
  | Other => None
  end.

Definition chat_args (body : ChatBody) : option ChatArgs :=
  match body with
  | Object query ticker =>
      match text_of query, text_of ticker with
      | Some q, Some t => Some {| chat_query := q; chat_ticker := t |}
      | _, _ => None
      end
  | _ => None
  end.

(** The view as Flask calls it: an exception raised by lines 47-49 leaves
    the view and Flask answers by itself; otherwise the view answers. *)
Definition chatbot_view (body : ChatBody) : Outcome :=
  match chat_args body with
  | Some args => Answered (fst (chatbot args)) (snd (chatbot args))
  | None => Unhandled
  end.

End Chatbot.

(** An answer that comes from Gemini for a query: its text, or the apology
    when the call raises. *)
Definition from_gemini (gemini : string -> result string) (user_query : string)
  (answer : jvalue) : Prop :=
  (exists text, gemini (gemini_prompt user_query) = Ok text /\
                answer = VDict [("status", VStr "success");
                                ("response", VStr text);
                                ("is_stock_response", VBool false)]%string) \/
  ((exists e, gemini (gemini_prompt user_query) = Raise e) /\ answer = sorry).

(** A word boundary on either side of a piece of a text: the character
    just before it and the character just after it, if any, are not word
    characters. *)
Definition bounded (pre post : list string) : Prop :=
  (forall c, hd_error (rev pre) = Some c -> PyText.is_word c = false) /\
  (forall c, hd_error post = Some c -> PyText.is_word c = false).

(** The characters [w] stand in [l] between [pre] and [post], with a word
    boundary on either side. *)
Definition run_at (l pre w post : list string) : Prop :=
  l = pre ++ w ++ post /\ bounded pre post.

(** The same for a text [t]. *)
Definition stands_at (l pre : list string) (t : string) (post : list string)
  : Prop :=
  run_at l pre (PyStr.chars t) post.

(** A chatbot that has nothing to say, for the examples. *)
Definition mute (prompt : string) : result string := Ok EmptyString.

(** ** Shapes of strings *)

(** A small ASCII letter. *)
Definition is_small (c : ascii) : bool :=
  let n := Z.of_N (N_of_ascii c) in (97 <=? n) && (n <=? 122).

Fixpoint no_small (s : string) : bool :=
  match s with
  | EmptyString => true
  | String c r => negb (is_small c) && no_small r
  end.

(** The first and the last character of a string. *)
Definition first_char (s : string) : option string := hd_error (PyStr.chars s).

Definition last_char (s : string) : option string :=
  hd_error (rev (PyStr.chars s)).

(** White space neither in front nor at the end. *)
Definition trimmed (s : string) : Prop :=
  (forall c, first_char s = Some c -> PyStr.isspace c = false) /\
  (forall c, last_char s = Some c -> PyStr.isspace c = false).

(** ** What is checked on the table of upper-case mappings *)

(** The list [l] is the single character [v]. *)
Definition single (v : string) (l : list string) : bool :=
  match l with
  | [v'] => String.eqb v v'
  | _ => false
  end.

(** An entry of the table is a character beyond ASCII that is not white
    space; it becomes at least one character, each of them well formed,
    not white space, without a small ASCII letter, and its own upper
    case. *)
Definition entry_ok (e : string * list string) : bool :=
  PyStr.headed (fst e) && negb (PyStr.isspace (fst e)) &&
  match snd e with [] => false | _ => true end &&
  forallb (fun v => PyStr.headed v && negb (PyStr.isspace v) &&
                    no_small v && single v (PyStr.upper_char v)) (snd e).
(** * Properties *)

Ltac bool_to_prop :=
  repeat (rewrite ?Bool.orb_true_iff, ?Bool.andb_true_iff, ?Bool.orb_false_iff,
            ?Bool.andb_false_iff, ?Bool.negb_true_iff, ?Bool.negb_false_iff,
            ?Z.ltb_lt, ?Z.leb_le, ?Z.eqb_eq, ?Z.geb_le, ?Z.ltb_ge, ?Z.leb_gt,
            ?Z.eqb_neq in *).

Lemma weekday_range (d : Z) : 0 <= weekday d < 7.
Proof. unfold weekday. apply Z.mod_pos_bound. lia. Qed.

Lemma weekday_shift (d k : Z) : weekday (d - k) = (weekday d - k) mod 7.
Proof.
  unfold weekday. rewrite Zminus_mod_idemp_l. f_equal. lia.
Qed.

(** During the session: the lexicographic comparison with 09:30:00.000000
    and 16:00:00.000000 is the comparison of the times of day. *)
Lemma market_open_iff (now : datetime) :
  valid_time now ->
  datetime_leb (replace now 9 30 0 0) now && datetime_leb now (replace now 16 0 0 0)
    = true
  <-> open_us <= time_of_day_us now <= close_us.
Proof.
  unfold valid_time, datetime_leb, fields, replace, time_of_day_us, open_us,
    close_us.
  cbn [lex_leb dt_date hour minute second microsecond].
  intros Hv. bool_to_prop. lia.
Qed.

(** ** The aggregation never raises *)

Section Aggregation.

Variable ny_utcoffset : Z -> Z.

Lemma market_hours_ok (data : DataFrame) :
  market_hours ny_utcoffset data
  = Ok (between_time ny_utcoffset t0930 t1600 (in_new_york data)).
Proof.
  unfold market_hours, tz_localize_UTC, tz_convert, in_new_york.
  destruct (index_tz data); reflexivity.
Qed.

Lemma aggregate_ok (data : DataFrame) :
  aggregate ny_utcoffset data = Ok (bars ny_utcoffset data).
Proof. unfold aggregate. rewrite market_hours_ok. reflexivity. Qed.

Lemma resample_tz (df : DataFrame) :
  index_tz (resample_5T_agg ny_utcoffset df) = index_tz df.
Proof.
  unfold resample_5T_agg. destruct (sort_index (rows df)); reflexivity.
Qed.

Lemma resample_volume (df : DataFrame) (s : Z * Row) :
  In s (rows (resample_5T_agg ny_utcoffset df)) -> Volume (snd s) <> None.
Proof.
  unfold resample_5T_agg. destruct (sort_index (rows df)); cbn [rows].
  - intros [].
  - intros H. apply in_map_iff in H. destruct H as (k & <- & _).
    cbn. discriminate.
Qed.

Lemma mapR_to_point (z : zone) (l : list (Z * Row)) :
  (forall s, In s l -> Volume (snd s) <> None) ->
  mapR (to_point (Some z)) l = Ok (map point l).
Proof.
  induction l as [| s l IH]; intros Hv; [reflexivity |].
  cbn [mapR map]. unfold to_point at 1. cbn [bindR].
  destruct (Volume (snd s)) eqn:E.
  - cbn [bindR]. rewrite IH by (intros; apply Hv; now right).
    cbn [bindR]. unfold point at 2. rewrite E. reflexivity.
  - exfalso. apply (Hv s); [now left | exact E].
Qed.

Lemma graph_points_bars (data : DataFrame) :
  graph_points (bars ny_utcoffset data) = Ok (session_points ny_utcoffset data).
Proof.
  unfold graph_points, session_points, bars. rewrite resample_tz.
  cbn [between_time index_tz in_new_york].
  apply mapR_to_point. intros s Hs. apply filter_In in Hs.
  destruct Hs as [Hs _]. now apply resample_volume in Hs.
Qed.

Variable history : Query -> result DataFrame.

(** The "1d" branch, case by case. *)
Lemma one_day_cases (ticker : string) (now : datetime) :
  one_day ny_utcoffset history ticker now [] =
  match history (primary ticker now) with
  | Raise e => ([primary ticker now], Raise e)
  | Ok data =>
      if empty data then ([primary ticker now], Ok [])
      else if len (bars ny_utcoffset data) <? 2 then
        match history (fallback ticker now) with
        | Raise e => ([primary ticker now; fallback ticker now], Raise e)
        | Ok data' =>
            ([primary ticker now; fallback ticker now],
             Ok (if empty data' then []
                 else session_points ny_utcoffset data'))
        end
      else ([primary ticker now], Ok (session_points ny_utcoffset data))
  end.
Proof.
  unfold one_day, bind, fetch, lift, ret, primary, fallback. cbn [app].
  destruct (history (HistoryRange ticker (target_date now) _ _ _)) as [data | e];
    [| reflexivity].
  destruct (empty data); cbn [negb]; [reflexivity |].
  rewrite aggregate_ok.
  destruct (len (bars ny_utcoffset data) <? 2).
  - cbn [app].
    destruct (history (HistoryRange ticker (prev_trading_day _) _ _ _))
      as [data' | e]; [| reflexivity].
    destruct (empty data'); cbn [negb].
    + reflexivity.
    + rewrite aggregate_ok, graph_points_bars. reflexivity.
  - rewrite graph_points_bars. reflexivity.
Qed.

End Aggregation.

(** ** The fallback session *)

Lemma prev_trading_day_cases (target : Z) :
  (weekday target = 0 -> prev_trading_day target = target - 3) /\
  (1 <= weekday target <= 5 -> prev_trading_day target = target - 1) /\
  (weekday target = 6 -> prev_trading_day target = target - 2).
Proof.
  unfold prev_trading_day, BDay_add. change (-1 / 5) with (-1).
  pose proof (weekday_range target) as Hr.
  assert (weekday target = 0 \/ weekday target = 1 \/ weekday target = 2 \/
          weekday target = 3 \/ weekday target = 4 \/ weekday target = 5 \/
          weekday target = 6) as Hw by lia.
  repeat split; intros H;
    decompose [or] Hw; clear Hw;
    match goal with E : weekday target = _ |- _ => rewrite E in * end;
    cbn; lia.
Qed.

Lemma session_points_empty (ny : Z -> Z) (data : DataFrame) :
  empty data = true -> session_points ny data = [].
Proof.
  unfold empty, session_points, bars, resample_5T_agg, between_time, in_new_york.
  cbn [rows index_tz]. destruct (rows data); [reflexivity | discriminate].
Qed.

(** ** The handler [get_stock_graph] *)

Lemma is_empty_false (s : string) : s <> EmptyString -> PyStr.is_empty s = false.
Proof. destruct s; [congruence | reflexivity]. Qed.

Lemma is_empty_true (s : string) : s = EmptyString <-> PyStr.is_empty s = true.
Proof. destruct s; split; (reflexivity || discriminate). Qed.

(** The handler in terms of [graph_data]. *)
Lemma get_stock_graph_cases
  (ny : Z -> Z) (history : Query -> result DataFrame) (now : datetime)
  (args : Args) :
  ticker_of args <> EmptyString ->
  get_stock_graph ny history now args =
  let ticker := ticker_of args in
  let period := get (arg_period args) "1d" in
  match graph_data ny history ticker period now [] with
  | (tr, Ok []) =>
      (tr, (404, JDict [("error", JStr "No valid data points after processing")]%string))
  | (tr, Ok (p :: l)) =>
      (tr, (200, JDict [("status", JStr "success"); ("ticker", JStr ticker);
                        ("period", JStr period); ("data", JList (p :: l));
                        ("last_updated", JStamp now)]%string))
  | (tr, Raise e) =>
      (tr, (500, JDict [("status", JStr "error"); ("error", JStr e);
                        ("message",
                         JStr ("Failed to fetch " ++ period ++ " data for "
                               ++ ticker))]%string))
  end.
Proof.
  intros Ht. unfold get_stock_graph. rewrite (is_empty_false _ Ht).
  unfold graph_body, bind, ret. cbv zeta.
  destruct (graph_data ny history _ _ now []) as [tr [[| p l] | e]]; reflexivity.
Qed.

Lemma other_period_cases
  (history : Query -> result DataFrame) (ticker period : string) :
  other_period history ticker period [] =
  match history (period_query ticker period) with
  | Raise e => ([period_query ticker period], Raise e)
  | Ok data => ([period_query ticker period], graph_points data)
  end.
Proof.
  unfold other_period, bind, fetch, lift. cbn [app].
  destruct (history (period_query ticker period)); reflexivity.
Qed.

Lemma graph_data_1d
  (ny : Z -> Z) (history : Query -> result DataFrame) (ticker : string)
  (now : datetime) :
  graph_data ny history ticker "1d" now = one_day ny history ticker now.
Proof. reflexivity. Qed.

Lemma graph_data_other
  (ny : Z -> Z) (history : Query -> result DataFrame) (ticker period : string)
  (now : datetime) :
  period <> "1d"%string ->
  graph_data ny history ticker period now = other_period history ticker period.
Proof.
  intros Hp. unfold graph_data.
  destruct (String.eqb_spec period "1d"); [contradiction | reflexivity].
Qed.

Lemma trace_other_period
  (ny : Z -> Z) (history : Query -> result DataFrame) (now : datetime)
  (args : Args) :
  ticker_of args <> EmptyString ->
  get (arg_period args) "1d" <> "1d"%string ->
  fst (get_stock_graph ny history now args)
  = [period_query (ticker_of args) (get (arg_period args) "1d")].
Proof.
  intros Ht Hp. rewrite (get_stock_graph_cases ny history now args Ht).
  cbv zeta. rewrite (graph_data_other ny history _ _ now Hp), other_period_cases.
  destruct (history _) as [data | e]; [| reflexivity].
  destruct (graph_points data) as [[| p l] | e]; reflexivity.
Qed.

(** ** Normalisation of the ticker *)

(** ** Strings as sequences of characters *)

Lemma cat_chars (s : string) : PyStr.cat (PyStr.chars s) = s.
Proof.
  induction s as [| c r IH]; [reflexivity |].
  cbn [PyStr.chars]. destruct (PyStr.chars r) as [| [| c' ch] l] eqn:E.
  - cbn in *. now rewrite <- IH.
  - cbn in *. now rewrite <- IH.
  - destruct (PyStr.is_continuation c'); cbn in *; now rewrite <- IH.
Qed.

Lemma str_app_assoc (a b c : string) : ((a ++ b) ++ c = a ++ b ++ c)%string.
Proof. induction a as [| x a IH]; cbn; [reflexivity | now rewrite IH]. Qed.

Lemma cat_app (l1 l2 : list string) :
  PyStr.cat (l1 ++ l2) = (PyStr.cat l1 ++ PyStr.cat l2)%string.
Proof.
  unfold PyStr.cat. induction l1 as [| ch l1 IH]; [reflexivity |].
  cbn [app fold_right]. now rewrite IH, str_app_assoc.
Qed.

Lemma headed_tailed (ch : string) : PyStr.headed ch = true -> PyStr.tailed ch = true.
Proof.
  destruct ch as [| c t]; cbn; [trivial |].
  intros H. apply Bool.andb_true_iff in H. tauto.
Qed.

(** A character in front of a text that does not begin with a continuation
    byte is the first character of the whole. *)
Lemma chars_cons (c : ascii) (t s : string) :
  PyStr.all_continuation t = true ->
  match PyStr.chars s with
  | String c' _ :: _ => PyStr.is_continuation c' = false
  | _ => True
  end ->
  PyStr.chars (String c (t ++ s)) = String c t :: PyStr.chars s.
Proof.
  revert c. induction t as [| c1 t IH]; intros c Ht Hs.
  - cbn [append PyStr.chars].
    destruct (PyStr.chars s) as [| [| c' ch] l]; try reflexivity.
    now rewrite Hs.
  - cbn [PyStr.all_continuation] in Ht. apply Bool.andb_true_iff in Ht.
    destruct Ht as [Hc Ht].
    change (String c (String c1 t ++ s)) with (String c (String c1 (t ++ s))).
    cbn [PyStr.chars]. fold (PyStr.chars (String c1 (t ++ s))).
    change (match PyStr.chars (t ++ s) with
            | String c' ch :: l =>
                if PyStr.is_continuation c' then String c1 (String c' ch) :: l
                else String c1 EmptyString :: String c' ch :: l
            | l => String c1 EmptyString :: l
            end) with (PyStr.chars (String c1 (t ++ s))).
    rewrite (IH c1 Ht Hs). now rewrite Hc.
Qed.

Lemma chars_cat (l : list string) :
  PyStr.shaped l = true -> PyStr.chars (PyStr.cat l) = l.
Proof.
  assert (forall l, forallb PyStr.headed l = true ->
                    PyStr.chars (PyStr.cat l) = l) as Hh.
  { induction l0 as [| ch r IH]; [reflexivity |].
    cbn [forallb]. intros H. apply Bool.andb_true_iff in H.
    destruct H as [Hch Hr]. specialize (IH Hr).
    destruct ch as [| c t]; [discriminate |]. cbn in Hch.
    apply Bool.andb_true_iff in Hch. destruct Hch as [_ Ht].
    cbn [PyStr.cat fold_right]. fold (PyStr.cat r).
    change (String c t ++ PyStr.cat r)%string with (String c (t ++ PyStr.cat r)).
    rewrite chars_cons, IH; [reflexivity | exact Ht |].
    rewrite IH. destruct r as [| [| c' ch'] r']; [exact I | exact I |].
    cbn in Hr. apply Bool.andb_true_iff in Hr. destruct Hr as [Hr _].
    apply Bool.andb_true_iff in Hr. destruct Hr as [Hr _].
    now apply Bool.negb_true_iff in Hr. }
  destruct l as [| ch r]; [reflexivity |].
  cbn [PyStr.shaped]. intros H. apply Bool.andb_true_iff in H.
  destruct H as [Hch Hr]. destruct ch as [| c t]; [discriminate |].
  cbn in Hch. cbn [PyStr.cat fold_right]. fold (PyStr.cat r).
  change (String c t ++ PyStr.cat r)%string with (String c (t ++ PyStr.cat r)).
  rewrite chars_cons, (Hh r Hr); [reflexivity | exact Hch |].
  rewrite (Hh r Hr). destruct r as [| [| c' ch'] r']; [exact I | exact I |].
  cbn in Hr. apply Bool.andb_true_iff in Hr. destruct Hr as [Hr _].
  apply Bool.andb_true_iff in Hr. destruct Hr as [Hr _].
  now apply Bool.negb_true_iff in Hr.
Qed.

Lemma shaped_chars (s : string) : PyStr.shaped (PyStr.chars s) = true.
Proof.
  induction s as [| c r IH]; [reflexivity |].
  cbn [PyStr.chars]. destruct (PyStr.chars r) as [| [| c' ch] l] eqn:E.
  - reflexivity.
  - cbn in IH. discriminate.
  - cbn [PyStr.shaped PyStr.tailed] in IH. apply Bool.andb_true_iff in IH.
    destruct IH as [Ht Hl].
    destruct (PyStr.is_continuation c') eqn:Ec.
    + cbn. now rewrite Ec, Ht, Hl.
    + cbn. now rewrite Ec, Ht, Hl.
Qed.
(** ** Stripping, on lists of characters *)

Lemma forallb_lstrip (P : string -> bool) (l : list string) :
  forallb P l = true -> forallb P (PyStr.lstrip_chars l) = true.
Proof.
  induction l as [| ch r IH]; [trivial |].
  cbn [PyStr.lstrip_chars]. intros H.
  destruct (PyStr.isspace ch); [| exact H].
  apply IH. cbn in H. apply Bool.andb_true_iff in H. tauto.
Qed.

Lemma forallb_rstrip (P : string -> bool) (l : list string) :
  forallb P l = true -> forallb P (PyStr.rstrip_chars l) = true.
Proof.
  induction l as [| ch r IH]; [trivial |].
  cbn [PyStr.rstrip_chars forallb]. intros H. apply Bool.andb_true_iff in H.
  destruct H as [Hc Hr]. specialize (IH Hr).
  destruct (PyStr.rstrip_chars r) as [| ch' r'].
  - destruct (PyStr.isspace ch); cbn; [reflexivity | now rewrite Hc].
  - cbn [forallb] in *. now rewrite Hc, IH.
Qed.

Lemma shaped_tail (ch : string) (r : list string) :
  PyStr.shaped (ch :: r) = true -> PyStr.shaped r = true.
Proof.
  cbn [PyStr.shaped]. intros H. apply Bool.andb_true_iff in H.
  destruct H as [_ H]. destruct r as [| ch' r']; [reflexivity |].
  cbn [forallb] in H. apply Bool.andb_true_iff in H. destruct H as [H1 H2].
  cbn [PyStr.shaped]. now rewrite (headed_tailed _ H1), H2.
Qed.

Lemma shaped_lstrip (l : list string) :
  PyStr.shaped l = true -> PyStr.shaped (PyStr.lstrip_chars l) = true.
Proof.
  induction l as [| ch r IH]; [trivial |].
  cbn [PyStr.lstrip_chars]. intros H.
  destruct (PyStr.isspace ch); [| exact H]. apply IH. now apply shaped_tail in H.
Qed.

Lemma shaped_rstrip (l : list string) :
  PyStr.shaped l = true -> PyStr.shaped (PyStr.rstrip_chars l) = true.
Proof.
  destruct l as [| ch r]; [trivial |].
  cbn [PyStr.shaped PyStr.rstrip_chars]. intros H.
  apply Bool.andb_true_iff in H. destruct H as [Hc Hr].
  pose proof (forallb_rstrip _ _ Hr) as H.
  destruct (PyStr.rstrip_chars r) as [| ch' r'].
  - destruct (PyStr.isspace ch); cbn; [reflexivity | now rewrite Hc].
  - cbn [PyStr.shaped]. now rewrite Hc, H.
Qed.

Lemma chars_lstrip (s : string) :
  PyStr.chars (PyStr.lstrip s) = PyStr.lstrip_chars (PyStr.chars s).
Proof. apply chars_cat, shaped_lstrip, shaped_chars. Qed.

Lemma chars_rstrip (s : string) :
  PyStr.chars (PyStr.rstrip s) = PyStr.rstrip_chars (PyStr.chars s).
Proof. apply chars_cat, shaped_rstrip, shaped_chars. Qed.

Lemma chars_strip (s : string) :
  PyStr.chars (PyStr.strip s)
  = PyStr.rstrip_chars (PyStr.lstrip_chars (PyStr.chars s)).
Proof. unfold PyStr.strip. now rewrite chars_rstrip, chars_lstrip. Qed.

Lemma strip_cat (s : string) :
  PyStr.strip s
  = PyStr.cat (PyStr.rstrip_chars (PyStr.lstrip_chars (PyStr.chars s))).
Proof. rewrite <- chars_strip. symmetry. apply cat_chars. Qed.

Lemma lstrip_split (l : list string) :
  exists la, l = la ++ PyStr.lstrip_chars l /\ forallb PyStr.isspace la = true.
Proof.
  induction l as [| ch r (la & E & Hla)]; [now exists [] |].
  cbn [PyStr.lstrip_chars]. destruct (PyStr.isspace ch) eqn:Ec.
  - exists (ch :: la). cbn [app forallb]. rewrite Ec, Hla.
    split; [now f_equal | reflexivity].
  - now exists [].
Qed.

Lemma rstrip_split (l : list string) :
  exists lb, l = PyStr.rstrip_chars l ++ lb /\ forallb PyStr.isspace lb = true.
Proof.
  induction l as [| ch r (lb & E & Hlb)]; [now exists [] |].
  cbn [PyStr.rstrip_chars]. destruct (PyStr.rstrip_chars r) as [| ch' r'].
  - destruct (PyStr.isspace ch) eqn:Ec.
    + exists (ch :: lb). cbn [app forallb] in *. subst r.
      now rewrite Ec, Hlb.
    + exists lb. cbn [app] in *. subst r. now split.
  - exists lb. subst r. now split.
Qed.

Lemma lstrip_head (l : list string) :
  match PyStr.lstrip_chars l with
  | [] => forallb PyStr.isspace l = true
  | ch :: _ => PyStr.isspace ch = false /\ forallb PyStr.isspace l = false
  end.
Proof.
  induction l as [| ch r IH]; [reflexivity |].
  cbn [PyStr.lstrip_chars forallb]. destruct (PyStr.isspace ch) eqn:E.
  - exact IH.
  - now split.
Qed.

Lemma rstrip_nil_iff (l : list string) :
  PyStr.rstrip_chars l = [] <-> forallb PyStr.isspace l = true.
Proof.
  induction l as [| ch r IH]; [tauto |].
  cbn [PyStr.rstrip_chars forallb].
  destruct (PyStr.rstrip_chars r) as [| ch' r'].
  - destruct (PyStr.isspace ch); cbn.
    + rewrite <- IH. tauto.
    + split; discriminate.
  - split; [discriminate |]. intros H. apply Bool.andb_true_iff in H.
    destruct H as [_ H]. apply IH in H. discriminate.
Qed.

Lemma rstrip_hd (l : list string) (ch : string) :
  hd_error (PyStr.rstrip_chars l) = Some ch -> hd_error l = Some ch.
Proof.
  destruct l as [| c r]; [trivial |]. cbn [PyStr.rstrip_chars].
  destruct (PyStr.rstrip_chars r); [destruct (PyStr.isspace c) |];
    cbn; trivial; discriminate.
Qed.

Lemma rstrip_last (l : list string) (ch : string) :
  hd_error (rev (PyStr.rstrip_chars l)) = Some ch -> PyStr.isspace ch = false.
Proof.
  induction l as [| c r IH]; [discriminate |]. cbn [PyStr.rstrip_chars].
  destruct (PyStr.rstrip_chars r) as [| c' r'] eqn:E.
  - destruct (PyStr.isspace c) eqn:Ec; cbn; [discriminate |].
    now intros [= <-].
  - intros H. apply IH. cbn [rev] in *.
    destruct (rev r' ++ [c']) as [| x y] eqn:Er.
    + destruct (rev r'); discriminate.
    + cbn in *. exact H.
Qed.

Lemma lstrip_fixed (l : list string) :
  (forall ch, hd_error l = Some ch -> PyStr.isspace ch = false) ->
  PyStr.lstrip_chars l = l.
Proof.
  destruct l as [| ch r]; [trivial |]. cbn [PyStr.lstrip_chars]. intros H.
  now rewrite (H ch eq_refl).
Qed.

Lemma rstrip_fixed (l : list string) :
  (forall ch, hd_error (rev l) = Some ch -> PyStr.isspace ch = false) ->
  PyStr.rstrip_chars l = l.
Proof.
  induction l as [| c r IH]; [trivial |]. intros H.
  cbn [PyStr.rstrip_chars]. destruct r as [| c' r'].
  - cbn [PyStr.rstrip_chars]. now rewrite (H c eq_refl).
  - rewrite IH; [reflexivity |]. intros ch Hch. apply H.
    cbn [rev] in *. destruct (rev r' ++ [c']) as [| x y] eqn:Er.
    + destruct (rev r'); discriminate.
    + cbn in *. exact Hch.
Qed.
(** ** Upper case *)

Lemma table_ok : forallb entry_ok PyStr.uppercase_table = true.
Proof. vm_compute. reflexivity. Qed.

Lemma whitespace_ok :
  forallb (fun w => single w (PyStr.upper_char w)) PyStr.whitespace = true.
Proof. vm_compute. reflexivity. Qed.

Lemma single_eq (v : string) (l : list string) : single v l = true -> l = [v].
Proof.
  destruct l as [| v' [| x y]]; cbn; try discriminate.
  intros H. apply String.eqb_eq in H. now subst.
Qed.

(** The three cases of [upper_char]. *)
Lemma upper_char_cases (c : ascii) (t : string) :
  (N.ltb (N_of_ascii c) 128 = true /\
   PyStr.upper_char (String c t) = [String (PyStr.upper_ascii c) t]) \/
  (N.ltb (N_of_ascii c) 128 = false /\
   ((exists e, In e PyStr.uppercase_table /\ fst e = String c t /\
               PyStr.upper_char (String c t) = snd e) \/
    PyStr.upper_char (String c t) = [String c t])).
Proof.
  unfold PyStr.upper_char. destruct (N.ltb (N_of_ascii c) 128); [now left |].
  right. split; [reflexivity |].
  destruct (find _ PyStr.uppercase_table) as [e |] eqn:E; [| now right].
  left. apply find_some in E. destruct E as [Hin He].
  apply String.eqb_eq in He. now exists e.
Qed.

Lemma entry_facts (e : string * list string) :
  In e PyStr.uppercase_table ->
  PyStr.isspace (fst e) = false /\ snd e <> [] /\
  forall v, In v (snd e) ->
    PyStr.headed v = true /\ PyStr.isspace v = false /\ no_small v = true /\
    PyStr.upper_char v = [v].
Proof.
  intros Hin. pose proof table_ok as H. rewrite forallb_forall in H.
  specialize (H e Hin). unfold entry_ok in H.
  repeat (apply Bool.andb_true_iff in H; destruct H as [H ?]).
  split; [now apply Bool.negb_true_iff |].
  split; [destruct (snd e); [discriminate | discriminate] |].
  intros v Hv.
  match goal with F : forallb _ (snd e) = true |- _ =>
    rewrite forallb_forall in F; specialize (F v Hv);
    repeat (apply Bool.andb_true_iff in F; destruct F as [F ?]) end.
  repeat split; try assumption.
  - now apply Bool.negb_true_iff.
  - now apply single_eq.
Qed.

Lemma ascii_upper_facts (c : ascii) :
  N.ltb (N_of_ascii c) 128 = true ->
  N.ltb (N_of_ascii (PyStr.upper_ascii c)) 128 = true /\
  PyStr.upper_ascii (PyStr.upper_ascii c) = PyStr.upper_ascii c /\
  is_small (PyStr.upper_ascii c) = false /\
  PyStr.is_continuation (PyStr.upper_ascii c) = false.
Proof.
  destruct c as [[] [] [] [] [] [] [] []]; cbn; intros H;
    try discriminate H; repeat split.
Qed.

Lemma high_byte_facts (c : ascii) :
  N.ltb (N_of_ascii c) 128 = false -> is_small c = false.
Proof.
  destruct c as [[] [] [] [] [] [] [] []]; cbn; intros H;
    try discriminate H; reflexivity.
Qed.

Lemma continuation_not_small (t : string) :
  PyStr.all_continuation t = true -> no_small t = true.
Proof.
  induction t as [| c t IH]; [trivial |]. cbn [PyStr.all_continuation no_small].
  intros H. apply Bool.andb_true_iff in H. destruct H as [Hc Ht].
  rewrite (IH Ht), Bool.andb_true_r.
  destruct c as [[] [] [] [] [] [] [] []]; cbn in *; congruence.
Qed.
Lemma upper_char_headed (ch : string) :
  PyStr.headed ch = true -> forallb PyStr.headed (PyStr.upper_char ch) = true.
Proof.
  destruct ch as [| c t]; [discriminate |]. intros H.
  destruct (upper_char_cases c t) as [[Hc E] | [Hc [(e & Hin & He & E) | E]]];
    rewrite E.
  - cbn [forallb PyStr.headed] in *. apply Bool.andb_true_iff in H.
    destruct H as [_ Ht]. rewrite Ht.
    destruct (ascii_upper_facts c Hc) as (_ & _ & _ & Hk). now rewrite Hk.
  - apply forallb_forall. intros v Hv.
    now destruct (entry_facts e Hin) as (_ & _ & F); destruct (F v Hv).
  - cbn [forallb]. now rewrite H.
Qed.

Lemma upper_char_shaped (ch : string) :
  PyStr.tailed ch = true -> PyStr.shaped (PyStr.upper_char ch) = true.
Proof.
  destruct ch as [| c t]; [discriminate |]. intros H.
  destruct (upper_char_cases c t) as [[Hc E] | [Hc [(e & Hin & He & E) | E]]];
    rewrite E.
  - cbn [PyStr.shaped PyStr.tailed forallb] in *. now rewrite H.
  - destruct (entry_facts e Hin) as (_ & _ & F).
    destruct (snd e) as [| v r]; [reflexivity |]. cbn [PyStr.shaped].
    rewrite (headed_tailed v); [| now destruct (F v (or_introl eq_refl))].
    apply forallb_forall. intros w Hw.
    now destruct (F w (or_intror Hw)).
  - cbn [PyStr.shaped forallb]. now rewrite H.
Qed.

Lemma upper_char_fix (ch v : string) :
  In v (PyStr.upper_char ch) -> PyStr.upper_char v = [v].
Proof.
  destruct ch as [| c t]; [intros [] |].
  destruct (upper_char_cases c t) as [[Hc E] | [Hc [(e & Hin & He & E) | E]]];
    rewrite E.
  - intros [<- | []]. destruct (ascii_upper_facts c Hc) as (Hk & Hi & _).
    unfold PyStr.upper_char. now rewrite Hk, Hi.
  - intros Hv. now destruct (entry_facts e Hin) as (_ & _ & F); destruct (F v Hv).
  - now intros [<- | []].
Qed.

Lemma isspace_upper_ascii (c : ascii) (t : string) :
  PyStr.isspace (String (PyStr.upper_ascii c) t) = PyStr.isspace (String c t).
Proof. destruct c as [[] [] [] [] [] [] [] []]; reflexivity. Qed.

Lemma upper_char_space (ch : string) :
  PyStr.tailed ch = true ->
  forallb PyStr.isspace (PyStr.upper_char ch) = PyStr.isspace ch.
Proof.
  destruct ch as [| c t]; [discriminate |]. intros _.
  destruct (upper_char_cases c t) as [[Hc E] | [Hc [(e & Hin & He & E) | E]]];
    rewrite E.
  - cbn [forallb]. now rewrite Bool.andb_true_r, isspace_upper_ascii.
  - destruct (entry_facts e Hin) as (Hs & Hn & F). rewrite <- He, Hs.
    destruct (snd e) as [| v r]; [now contradiction Hn |]. cbn [forallb].
    now destruct (F v (or_introl eq_refl)) as (_ & -> & _).
  - cbn [forallb]. apply Bool.andb_true_r.
Qed.

Lemma upper_char_no_small (ch : string) :
  PyStr.tailed ch = true -> forallb no_small (PyStr.upper_char ch) = true.
Proof.
  destruct ch as [| c t]; [discriminate |]. cbn [PyStr.tailed]. intros H.
  pose proof (continuation_not_small t H) as Ht.
  destruct (upper_char_cases c t) as [[Hc E] | [Hc [(e & Hin & He & E) | E]]];
    rewrite E.
  - cbn [forallb no_small]. rewrite Ht.
    destruct (ascii_upper_facts c Hc) as (_ & _ & Hk & _). now rewrite Hk.
  - apply forallb_forall. intros v Hv.
    now destruct (entry_facts e Hin) as (_ & _ & F); destruct (F v Hv) as (_ & _ & ? & _).
  - cbn [forallb no_small]. now rewrite Ht, (high_byte_facts c Hc).
Qed.
(** ** Upper case, on lists of characters *)

Lemma shaped_tailed (l : list string) :
  PyStr.shaped l = true -> forallb PyStr.tailed l = true.
Proof.
  destruct l as [| ch r]; [trivial |]. cbn [PyStr.shaped forallb]. intros H.
  apply Bool.andb_true_iff in H. destruct H as [-> H]. cbn.
  apply forallb_forall. intros v Hv. apply headed_tailed.
  rewrite forallb_forall in H. now apply H.
Qed.

Lemma headed_shaped (l : list string) :
  forallb PyStr.headed l = true -> PyStr.shaped l = true.
Proof.
  destruct l as [| ch r]; [trivial |]. cbn [PyStr.shaped forallb]. intros H.
  apply Bool.andb_true_iff in H. destruct H as [Hc ->].
  now rewrite (headed_tailed _ Hc).
Qed.

Lemma shaped_app (a b : list string) :
  PyStr.shaped a = true -> forallb PyStr.headed b = true ->
  PyStr.shaped (a ++ b) = true.
Proof.
  destruct a as [| ch r]; [intros _; apply headed_shaped |].
  cbn [app PyStr.shaped]. intros H Hb. apply Bool.andb_true_iff in H.
  destruct H as [-> H]. rewrite forallb_app, H, Hb. reflexivity.
Qed.

Lemma shaped_app_l (a b : list string) :
  PyStr.shaped (a ++ b) = true -> PyStr.shaped a = true.
Proof.
  destruct a as [| ch r]; [trivial |]. cbn [app PyStr.shaped]. intros H.
  apply Bool.andb_true_iff in H. destruct H as [-> H].
  rewrite forallb_app in H. apply Bool.andb_true_iff in H. now destruct H as [-> _].
Qed.

Lemma shaped_app_r (a b : list string) :
  PyStr.shaped (a ++ b) = true -> PyStr.shaped b = true.
Proof.
  induction a as [| ch r IH]; [trivial |]. cbn [app]. intros H.
  apply IH. now apply shaped_tail in H.
Qed.

Lemma headed_upper (l : list string) :
  forallb PyStr.headed l = true ->
  forallb PyStr.headed (flat_map PyStr.upper_char l) = true.
Proof.
  induction l as [| ch r IH]; [trivial |]. cbn [flat_map forallb]. intros H.
  apply Bool.andb_true_iff in H. destruct H as [Hc Hr].
  now rewrite forallb_app, (upper_char_headed _ Hc), (IH Hr).
Qed.

Lemma shaped_upper (l : list string) :
  PyStr.shaped l = true -> PyStr.shaped (flat_map PyStr.upper_char l) = true.
Proof.
  destruct l as [| ch r]; [trivial |]. cbn [flat_map PyStr.shaped]. intros H.
  apply Bool.andb_true_iff in H. destruct H as [Hc Hr].
  apply shaped_app; [now apply upper_char_shaped | now apply headed_upper].
Qed.

Lemma chars_upper (s : string) :
  PyStr.chars (PyStr.upper s) = flat_map PyStr.upper_char (PyStr.chars s).
Proof. apply chars_cat, shaped_upper, shaped_chars. Qed.

Lemma space_upper (l : list string) :
  forallb PyStr.tailed l = true ->
  forallb PyStr.isspace (flat_map PyStr.upper_char l) = forallb PyStr.isspace l.
Proof.
  induction l as [| ch r IH]; [trivial |]. cbn [flat_map forallb]. intros H.
  apply Bool.andb_true_iff in H. destruct H as [Hc Hr].
  now rewrite forallb_app, (upper_char_space _ Hc), (IH Hr).
Qed.

Lemma no_small_upper_chars (l : list string) :
  forallb PyStr.tailed l = true ->
  forallb no_small (flat_map PyStr.upper_char l) = true.
Proof.
  induction l as [| ch r IH]; [trivial |]. cbn [flat_map forallb]. intros H.
  apply Bool.andb_true_iff in H. destruct H as [Hc Hr].
  now rewrite forallb_app, (upper_char_no_small _ Hc), (IH Hr).
Qed.

Lemma no_small_app (a b : string) :
  no_small (a ++ b) = no_small a && no_small b.
Proof.
  induction a as [| c a IH]; [reflexivity |]. cbn [append no_small].
  now rewrite IH, Bool.andb_assoc.
Qed.

Lemma no_small_cat (l : list string) :
  no_small (PyStr.cat l) = forallb no_small l.
Proof.
  induction l as [| ch r IH]; [reflexivity |].
  change (PyStr.cat (ch :: r)) with (ch ++ PyStr.cat r)%string.
  cbn [forallb]. now rewrite no_small_app, IH.
Qed.

Lemma upper_fixed (l : list string) :
  (forall v, In v l -> PyStr.upper_char v = [v]) ->
  flat_map PyStr.upper_char l = l.
Proof.
  induction l as [| ch r IH]; [trivial |]. intros H. cbn [flat_map].
  rewrite (H ch (or_introl eq_refl)), IH; [reflexivity |].
  intros v Hv. apply H. now right.
Qed.

Lemma upper_chars_fix (l : list string) (v : string) :
  In v (flat_map PyStr.upper_char l) -> PyStr.upper_char v = [v].
Proof.
  intros H. apply in_flat_map in H. destruct H as (ch & _ & H).
  exact (upper_char_fix ch v H).
Qed.

Lemma In_lstrip (l : list string) (v : string) :
  In v (PyStr.lstrip_chars l) -> In v l.
Proof.
  destruct (lstrip_split l) as (la & E & _). intros H. rewrite E.
  apply in_or_app. now right.
Qed.

Lemma In_rstrip (l : list string) (v : string) :
  In v (PyStr.rstrip_chars l) -> In v l.
Proof.
  destruct (rstrip_split l) as (lb & E & _). intros H. rewrite E.
  apply in_or_app. now left.
Qed.
(** ** [s.upper().strip()] *)

Lemma chars_strip_upper (s : string) :
  PyStr.chars (PyStr.strip (PyStr.upper s))
  = PyStr.rstrip_chars
      (PyStr.lstrip_chars (flat_map PyStr.upper_char (PyStr.chars s))).
Proof. now rewrite chars_strip, chars_upper. Qed.

Lemma chars_nil (s : string) : PyStr.chars s = [] -> s = EmptyString.
Proof. intros H. rewrite <- (cat_chars s), H. reflexivity. Qed.

Lemma strip_upper_empty_iff (s : string) :
  PyStr.strip (PyStr.upper s) = EmptyString <-> PyStr.all_space s = true.
Proof.
  unfold PyStr.all_space.
  rewrite <- (space_upper _ (shaped_tailed _ (shaped_chars s))).
  pose proof (chars_strip_upper s) as E.
  pose proof (lstrip_head (flat_map PyStr.upper_char (PyStr.chars s))) as Hl.
  split.
  - intros H. rewrite H in E. cbn [PyStr.chars] in E. symmetry in E.
    apply rstrip_nil_iff in E.
    destruct (PyStr.lstrip_chars _) as [| ch r]; [exact Hl |].
    cbn [forallb] in E. destruct Hl as [Hc _]. now rewrite Hc in E.
  - intros H. apply chars_nil. rewrite E. apply rstrip_nil_iff.
    now apply forallb_lstrip.
Qed.

Lemma strip_upper_split (s : string) :
  exists a b,
    PyStr.upper s = (a ++ PyStr.strip (PyStr.upper s) ++ b)%string /\
    PyStr.all_space a = true /\ PyStr.all_space b = true.
Proof.
  pose proof (shaped_upper _ (shaped_chars s)) as Hs.
  destruct (lstrip_split (flat_map PyStr.upper_char (PyStr.chars s)))
    as (la & El & Hla).
  destruct (rstrip_split
              (PyStr.lstrip_chars (flat_map PyStr.upper_char (PyStr.chars s))))
    as (lb & Er & Hlb).
  exists (PyStr.cat la), (PyStr.cat lb).
  rewrite El in Hs. pose proof (shaped_app_l _ _ Hs) as Sa.
  apply shaped_app_r in Hs. rewrite Er in Hs. apply shaped_app_r in Hs.
  unfold PyStr.all_space. rewrite (chars_cat _ Sa), (chars_cat _ Hs).
  split; [| now split].
  rewrite <- (cat_chars (PyStr.strip (PyStr.upper s))), chars_strip_upper.
  rewrite <- !cat_app, <- Er, <- El. reflexivity.
Qed.

Lemma strip_trimmed (s : string) : trimmed (PyStr.strip s).
Proof.
  unfold trimmed, first_char, last_char. rewrite chars_strip. split.
  - intros c H. apply rstrip_hd in H.
    pose proof (lstrip_head (PyStr.chars s)) as Hl.
    destruct (PyStr.lstrip_chars (PyStr.chars s)) as [| ch r]; [discriminate |].
    injection H as <-. tauto.
  - intros c H. exact (rstrip_last _ _ H).
Qed.

Lemma strip_fixed (s : string) : trimmed s -> PyStr.strip s = s.
Proof.
  unfold trimmed, first_char, last_char. intros [Hf Hl].
  rewrite strip_cat, (lstrip_fixed _ Hf), (rstrip_fixed _ Hl).
  apply cat_chars.
Qed.

Lemma no_small_strip_upper (s : string) :
  no_small (PyStr.strip (PyStr.upper s)) = true.
Proof.
  rewrite <- (cat_chars (PyStr.strip (PyStr.upper s))), chars_strip_upper.
  rewrite no_small_cat. apply forallb_rstrip, forallb_lstrip.
  apply no_small_upper_chars, shaped_tailed, shaped_chars.
Qed.

Lemma upper_strip_upper (s : string) :
  PyStr.upper (PyStr.strip (PyStr.upper s)) = PyStr.strip (PyStr.upper s).
Proof.
  unfold PyStr.upper at 1. rewrite chars_strip_upper, upper_fixed.
  - rewrite <- chars_strip_upper. apply cat_chars.
  - intros v Hv. apply In_rstrip, In_lstrip in Hv.
    exact (upper_chars_fix _ _ Hv).
Qed.
(** ** Upper case and stripping commute *)

(** White space is its own upper case, and what is not white space has
    none in its upper case. *)
Lemma upper_char_kind (ch : string) :
  PyStr.tailed ch = true ->
  (PyStr.isspace ch = true /\ PyStr.upper_char ch = [ch]) \/
  (PyStr.isspace ch = false /\
   exists v r, PyStr.upper_char ch = v :: r /\
               forallb (fun w => negb (PyStr.isspace w)) (v :: r) = true).
Proof.
  intros Ht. destruct (PyStr.isspace ch) eqn:Es.
  - left. split; [reflexivity |]. unfold PyStr.isspace in Es.
    apply existsb_exists in Es. destruct Es as (w & Hw & E).
    apply String.eqb_eq in E. subst w.
    pose proof whitespace_ok as H. rewrite forallb_forall in H.
    exact (single_eq _ _ (H ch Hw)).
  - right. split; [reflexivity |].
    pose proof (upper_char_space ch Ht) as Hs. rewrite Es in Hs.
    destruct ch as [| c t]; [discriminate |].
    destruct (upper_char_cases c t) as [[Hc E] | [Hc [(e & Hin & He & E) | E]]];
      rewrite E in *.
    + eexists _, []. split; [reflexivity |]. cbn [forallb] in *.
      rewrite Bool.andb_true_r in *. now rewrite Hs.
    + destruct (entry_facts e Hin) as (_ & Hn & F).
      destruct (snd e) as [| v r]; [now contradiction Hn |].
      exists v, r. split; [reflexivity |]. apply forallb_forall.
      intros w Hw. now destruct (F w Hw) as (_ & -> & _).
    + eexists _, []. split; [reflexivity |]. cbn [forallb]. now rewrite Es.
Qed.

Lemma lstrip_upper_chars (l : list string) :
  forallb PyStr.tailed l = true ->
  PyStr.lstrip_chars (flat_map PyStr.upper_char l)
  = flat_map PyStr.upper_char (PyStr.lstrip_chars l).
Proof.
  induction l as [| ch r IH]; [trivial |]. cbn [forallb]. intros H.
  apply Bool.andb_true_iff in H. destruct H as [Hc Hr].
  cbn [flat_map PyStr.lstrip_chars].
  destruct (upper_char_kind ch Hc) as [[Es E] | [Es (v & vs & E & Hv)]];
    rewrite Es, E.
  - cbn [app PyStr.lstrip_chars]. rewrite Es. exact (IH Hr).
  - cbn [flat_map app PyStr.lstrip_chars]. rewrite E.
    cbn [forallb] in Hv. apply Bool.andb_true_iff in Hv.
    destruct Hv as [Hv _]. apply Bool.negb_true_iff in Hv. now rewrite Hv.
Qed.

Lemma rstrip_app (a b : list string) :
  PyStr.rstrip_chars (a ++ b)
  = match PyStr.rstrip_chars b with
    | [] => PyStr.rstrip_chars a
    | b' => a ++ b'
    end.
Proof.
  induction a as [| ch r IH].
  - cbn [app PyStr.rstrip_chars]. now destruct (PyStr.rstrip_chars b).
  - cbn [app PyStr.rstrip_chars]. rewrite IH.
    destruct (PyStr.rstrip_chars b) as [| x y]; [reflexivity |].
    now destruct r.
Qed.

Lemma rstrip_no_space (l : list string) :
  forallb (fun w => negb (PyStr.isspace w)) l = true ->
  PyStr.rstrip_chars l = l.
Proof.
  intros H. apply rstrip_fixed. intros ch Hch.
  rewrite forallb_forall in H. apply Bool.negb_true_iff, H, in_rev.
  destruct (rev l) as [| x y]; [discriminate |]. injection Hch as ->. now left.
Qed.

Lemma rstrip_upper_chars (l : list string) :
  forallb PyStr.tailed l = true ->
  PyStr.rstrip_chars (flat_map PyStr.upper_char l)
  = flat_map PyStr.upper_char (PyStr.rstrip_chars l).
Proof.
  induction l as [| ch r IH]; [trivial |]. cbn [forallb]. intros H.
  apply Bool.andb_true_iff in H. destruct H as [Hc Hr]. specialize (IH Hr).
  pose proof (forallb_rstrip _ _ Hr) as Ht.
  cbn [flat_map PyStr.rstrip_chars]. rewrite rstrip_app, IH.
  destruct (PyStr.rstrip_chars r) as [| c' r'].
  - cbn [flat_map].
    destruct (upper_char_kind ch Hc) as [[Es E] | [Es (v & vs & E & Hv)]];
      rewrite Es, E.
    + cbn [PyStr.rstrip_chars]. now rewrite Es.
    + cbn [flat_map]. rewrite E, app_nil_r. now apply rstrip_no_space.
  - cbn [forallb] in Ht. apply Bool.andb_true_iff in Ht. destruct Ht as [Ht _].
    cbn [flat_map].
    destruct (upper_char_kind c' Ht) as [[_ E] | [_ (v & vs & E & _)]];
      rewrite E; reflexivity.
Qed.

Lemma strip_upper (s : string) :
  PyStr.strip (PyStr.upper s) = PyStr.upper (PyStr.strip s).
Proof.
  pose proof (shaped_tailed _ (shaped_chars s)) as Ht.
  rewrite <- (cat_chars (PyStr.strip (PyStr.upper s))), chars_strip_upper.
  unfold PyStr.upper. rewrite chars_strip.
  rewrite (lstrip_upper_chars _ Ht).
  now rewrite (rstrip_upper_chars _ (forallb_lstrip _ _ Ht)).
Qed.

Section Handlers.

Variable ny : Z -> Z.
Variable history : Query -> result DataFrame.
Variable info : string -> result (option Z).
Variable quote : string -> Row -> option Z -> result json.

Lemma trace_is_graph_data (now : datetime) (args : Args) :
  ticker_of args <> EmptyString ->
  fst (get_stock_graph ny history now args)
  = fst (graph_data ny history (ticker_of args) (get (arg_period args) "1d")
           now []).
Proof.
  intros Ht. rewrite (get_stock_graph_cases ny history now args Ht). cbv zeta.
  destruct (graph_data ny history _ _ now []) as [tr [[| p l] | e]];
    reflexivity.
Qed.

Lemma one_day_trace (ticker : string) (now : datetime) :
  fst (one_day ny history ticker now []) = [primary ticker now] \/
  fst (one_day ny history ticker now [])
    = [primary ticker now; fallback ticker now].
Proof.
  rewrite one_day_cases.
  destruct (history (primary ticker now)) as [data | e]; [| now left].
  destruct (empty data); [now left |].
  destruct (len (bars ny data) <? 2); [| now left].
  destruct (history (fallback ticker now)); now right.
Qed.

Lemma other_period_trace (ticker period : string) :
  fst (other_period history ticker period [])
  = [period_query ticker period].
Proof.
  rewrite other_period_cases. destruct (history _); reflexivity.
Qed.

Lemma period_query_ticker (ticker period : string) :
  query_ticker (period_query ticker period) = ticker.
Proof.
  unfold period_query.
  repeat match goal with
         | |- context [if ?b then _ else _] => destruct b
         end; reflexivity.
Qed.

Lemma trace_get_stock_graph (now : datetime) (args : Args) (q : Query) :
  In q (fst (get_stock_graph ny history now args)) ->
  query_ticker q = ticker_of args.
Proof.
  destruct (string_dec (ticker_of args) EmptyString) as [He | Hne].
  - unfold get_stock_graph. rewrite He. intros [].
  - rewrite (trace_is_graph_data now args Hne). unfold graph_data.
    destruct (String.eqb (get (arg_period args) "1d") "1d").
    + destruct (one_day_trace (ticker_of args) now) as [-> | ->].
      * intros [<- | []]. reflexivity.
      * intros [<- | [<- | []]]; reflexivity.
    + rewrite other_period_trace. intros [<- | []].
      apply period_query_ticker.
Qed.

Lemma trace_get_stock (args : Args) (q : Query) :
  In q (fst (get_stock history info quote args)) ->
  query_ticker q = ticker_of args.
Proof.
  unfold get_stock, stock_body, bind, fetch, fetch_info, lift, ret.
  destruct (PyStr.is_empty (ticker_of args)); [intros [] |].
  cbn [app].
  destruct (history _) as [hist | e].
  - destruct (rev (rows hist)) as [| current l].
    + intros [<- | []]. reflexivity.
    + cbn [app]. destruct (info _) as [pc | e].
      * destruct (quote _ _ _); intros [<- | [<- | []]]; reflexivity.
      * intros [<- | [<- | []]]; reflexivity.
  - intros [<- | []]. reflexivity.
Qed.

End Handlers.

(** ** Order of the bars *)

Lemma bins_increase (e : Z) (g : Z -> Row) (start n : nat) :
  StronglySorted before
    (map (fun k => (e + five_minutes * Z.of_nat k, g (e + five_minutes * Z.of_nat k)))
         (seq start n)).
Proof.
  revert start. induction n as [| n IH]; intros start; cbn [seq map].
  - constructor.
  - constructor; [apply IH |].
    apply Forall_forall. intros s Hs. apply in_map_iff in Hs.
    destruct Hs as (k & <- & Hk). apply in_seq in Hk.
    unfold before, five_minutes. cbn [fst]. lia.
Qed.

Lemma resample_increases (ny : Z -> Z) (df : DataFrame) :
  StronglySorted before (rows (resample_5T_agg ny df)).
Proof.
  unfold resample_5T_agg. destruct (sort_index (rows df)) as [| first l] eqn:E.
  - constructor.
  - cbn [rows]. cbv zeta.
    apply (bins_increase _
             (fun lo => agg (map snd (filter (in_bin lo) (first :: l))))).
Qed.

Lemma StronglySorted_filter {A} (R : A -> A -> Prop) (f : A -> bool) (l : list A) :
  StronglySorted R l -> StronglySorted R (filter f l).
Proof.
  induction 1 as [| a l Hl IH Ha]; cbn [filter]; [constructor |].
  destruct (f a); [| exact IH].
  constructor; [exact IH |].
  apply Forall_forall. intros x Hx. apply filter_In in Hx.
  rewrite Forall_forall in Ha. now apply Ha.
Qed.

Lemma StronglySorted_map_fst (l : list (Z * Row)) :
  StronglySorted before l -> StronglySorted Z.lt (map fst l).
Proof.
  induction 1 as [| a l Hl IH Ha]; cbn [map]; constructor; [exact IH |].
  apply Forall_forall. intros t Ht. apply in_map_iff in Ht.
  destruct Ht as (s & <- & Hs). rewrite Forall_forall in Ha. now apply Ha.
Qed.

Lemma times_points (l : list (Z * Row)) : times (map point l) = map fst l.
Proof.
  induction l as [| s l IH]; [reflexivity |].
  cbn [map]. unfold times in *. cbn [flat_map]. rewrite IH. reflexivity.
Qed.

Lemma times_session_points (ny : Z -> Z) (data : DataFrame) :
  strictly_increasing (times (session_points ny data)).
Proof.
  unfold session_points, strictly_increasing. rewrite times_points.
  apply StronglySorted_map_fst, StronglySorted_filter, resample_increases.
Qed.

Lemma times_to_point (tz : option zone) (l0 : list (Z * Row)) (l : list json) :
  mapR (to_point tz) l0 = Ok l -> times l = map fst l0.
Proof.
  revert l. induction l0 as [| s l0 IH]; intros l; cbn [mapR].
  - intros [= <-]. reflexivity.
  - unfold to_point at 1. destruct tz as [z |]; cbn [bindR]; [| discriminate].
    destruct (Volume (snd s)) as [v |]; cbn [bindR]; [| discriminate].
    destruct (mapR (to_point (Some z)) l0) as [ys | e] eqn:E; cbn [bindR];
      [| discriminate].
    intros [= <-]. unfold times in *. cbn [flat_map map].
    rewrite (IH ys eq_refl). reflexivity.
Qed.

(** ** The sorted index *)

Lemma insert_row_In (x y : Z * Row) (l : list (Z * Row)) :
  In y (insert_row x l) <-> y = x \/ In y l.
Proof.
  induction l as [| z l IH]; cbn [insert_row].
  - cbn. intuition congruence.
  - destruct (fst x <=? fst z); cbn [In].
    + intuition congruence.
    + rewrite IH. intuition congruence.
Qed.

Lemma sort_index_In (y : Z * Row) (l : list (Z * Row)) :
  In y (sort_index l) <-> In y l.
Proof.
  induction l as [| x l IH]; [reflexivity |].
  cbn [sort_index fold_right]. fold (sort_index l).
  rewrite insert_row_In, IH. cbn [In]. intuition congruence.
Qed.

Lemma insert_row_sorted (x : Z * Row) (l : list (Z * Row)) :
  StronglySorted le_time l -> StronglySorted le_time (insert_row x l).
Proof.
  induction 1 as [| z l Hl IH Hz]; cbn [insert_row].
  - repeat constructor.
  - destruct (fst x <=? fst z) eqn:E.
    + apply Z.leb_le in E. constructor; [now constructor |].
      constructor; [exact E |].
      rewrite Forall_forall in *. intros y Hy. specialize (Hz y Hy).
      unfold le_time in *. lia.
    + apply Z.leb_gt in E. constructor; [exact IH |].
      rewrite Forall_forall in *. intros y Hy. apply insert_row_In in Hy.
      destruct Hy as [-> | Hy]; [unfold le_time; lia | now apply Hz].
Qed.

Lemma sort_index_sorted (l : list (Z * Row)) :
  StronglySorted le_time (sort_index l).
Proof.
  induction l as [| x l IH]; [constructor |].
  cbn [sort_index fold_right]. now apply insert_row_sorted.
Qed.

(** In front of later timestamps, a row is inserted at the head. *)
Lemma insert_row_first (x : Z * Row) (l : list (Z * Row)) :
  Forall (le_time x) l -> insert_row x l = x :: l.
Proof.
  destruct l as [| z l]; [reflexivity |].
  intros H. inversion H as [| ? ? Hz _]. cbn [insert_row].
  apply Z.leb_le in Hz. now rewrite Hz.
Qed.

Lemma filter_insert_row (p : Z * Row -> bool) (x : Z * Row) (l : list (Z * Row)) :
  StronglySorted le_time l ->
  filter p (insert_row x l)
  = if p x then insert_row x (filter p l) else filter p l.
Proof.
  induction 1 as [| z l Hl IH Hz]; cbn [insert_row filter].
  - destruct (p x); reflexivity.
  - destruct (fst x <=? fst z) eqn:E.
    + apply Z.leb_le in E. cbn [filter]. destruct (p x); [| reflexivity].
      symmetry. apply insert_row_first.
      apply Forall_forall. intros y Hy.
      assert (In y (z :: l)) as Hin.
      { destruct (p z); [| right; now apply filter_In in Hy].
        destruct Hy as [<- | Hy]; [now left | right; now apply filter_In in Hy]. }
      destruct Hin as [<- | Hin]; [exact E |].
      rewrite Forall_forall in Hz. specialize (Hz y Hin).
      unfold le_time in *. lia.
    + cbn [filter]. rewrite IH.
      destruct (p z), (p x); cbn [insert_row]; rewrite ?E; reflexivity.
Qed.

(** Filtering commutes with sorting, because the sort is stable. *)
Lemma filter_sort_index (p : Z * Row -> bool) (l : list (Z * Row)) :
  filter p (sort_index l) = sort_index (filter p l).
Proof.
  induction l as [| x l IH]; [reflexivity |].
  cbn [sort_index fold_right filter]. fold (sort_index l).
  rewrite filter_insert_row by apply sort_index_sorted.
  rewrite IH. destruct (p x); reflexivity.
Qed.

Lemma sort_index_same_time (t : Z) (l : list (Z * Row)) :
  Forall (fun s => fst s = t) l -> sort_index l = l.
Proof.
  induction 1 as [| x l Hx Hl IH]; [reflexivity |].
  cbn [sort_index fold_right]. fold (sort_index l). rewrite IH.
  apply insert_row_first. apply Forall_forall. intros y Hy.
  rewrite Forall_forall in Hl. specialize (Hl y Hy). unfold le_time. lia.
Qed.

(** Stability: the rows of one timestamp keep the order of the input. *)
Lemma sort_index_stable (t : Z) (l : list (Z * Row)) :
  filter (at_time_t t) (sort_index l) = filter (at_time_t t) l.
Proof.
  rewrite filter_sort_index. apply (sort_index_same_time t).
  apply Forall_forall. intros y Hy. apply filter_In in Hy.
  destruct Hy as [_ Hy]. now apply Z.eqb_eq in Hy.
Qed.

(** *** Reductions that do not depend on the order *)

Section Merge.

Variable op : Z -> Z -> Z.
Hypothesis op_comm : forall a b, op a b = op b a.
Hypothesis op_assoc : forall a b c, op a (op b c) = op (op a b) c.

Lemma opt_merge_swap (a b c : option Z) :
  opt_merge op a (opt_merge op b c) = opt_merge op b (opt_merge op a c).
Proof.
  destruct a as [a |], b as [b |], c as [c |]; cbn; try reflexivity.
  - f_equal. rewrite !op_assoc. f_equal. apply op_comm.
  - f_equal. apply op_comm.
Qed.

Lemma merge_insert_row (f : Row -> option Z) (x : Z * Row) (l : list (Z * Row)) :
  fold_right (opt_merge op) None (map f (map snd (insert_row x l)))
  = opt_merge op (f (snd x))
      (fold_right (opt_merge op) None (map f (map snd l))).
Proof.
  induction l as [| z l IH]; [reflexivity |].
  cbn [insert_row]. destruct (fst x <=? fst z); [reflexivity |].
  cbn [map fold_right]. rewrite IH. apply opt_merge_swap.
Qed.

Lemma merge_sort_index (f : Row -> option Z) (l : list (Z * Row)) :
  fold_right (opt_merge op) None (map f (map snd (sort_index l)))
  = fold_right (opt_merge op) None (map f (map snd l)).
Proof.
  induction l as [| x l IH]; [reflexivity |].
  cbn [sort_index fold_right]. fold (sort_index l).
  rewrite merge_insert_row, IH. reflexivity.
Qed.

End Merge.

Lemma max_valid_sort_index (f : Row -> option Z) (l : list (Z * Row)) :
  max_valid (map f (map snd (sort_index l))) = max_valid (map f (map snd l)).
Proof.
  apply merge_sort_index; intros; lia.
Qed.

Lemma min_valid_sort_index (f : Row -> option Z) (l : list (Z * Row)) :
  min_valid (map f (map snd (sort_index l))) = min_valid (map f (map snd l)).
Proof.
  apply merge_sort_index; intros; lia.
Qed.

Lemma sum_valid_insert_row (f : Row -> option Z) (x : Z * Row) (l : list (Z * Row)) :
  sum_valid (map f (map snd (insert_row x l)))
  = sum_valid (map f (map snd (x :: l))).
Proof.
  induction l as [| z l IH]; [reflexivity |].
  cbn [insert_row]. destruct (fst x <=? fst z); [reflexivity |].
  cbn [map sum_valid fold_right] in *. unfold sum_valid in *. rewrite IH.
  destruct (f (snd z)), (f (snd x)); lia.
Qed.

Lemma sum_valid_sort_index (f : Row -> option Z) (l : list (Z * Row)) :
  sum_valid (map f (map snd (sort_index l))) = sum_valid (map f (map snd l)).
Proof.
  induction l as [| x l IH]; [reflexivity |].
  cbn [sort_index fold_right]. fold (sort_index l).
  rewrite sum_valid_insert_row. cbn [map]. unfold sum_valid in *.
  cbn [fold_right]. rewrite IH. reflexivity.
Qed.

(** ** Buckets and bars *)

Lemma window_rows (ny : Z -> Z) (data : DataFrame) :
  rows (between_time ny t0930 t1600 (in_new_york data))
  = filter (in_window ny) (rows data).
Proof. reflexivity. Qed.

(** Every resampled row is the reduction of its bucket. *)
Lemma bars_row (ny : Z -> Z) (data : DataFrame) (lo : Z) (r : Row) :
  In (lo, r) (rows (bars ny data)) -> r = agg (map snd (bucket ny data lo)).
Proof.
  unfold bars, resample_5T_agg, bucket, contributing.
  rewrite window_rows.
  destruct (sort_index (filter (in_window ny) (rows data))) as [| first l] eqn:E;
    cbn [rows]; [intros [] |].
  cbv zeta. intros H. apply in_map_iff in H. destruct H as (k & Hk & _).
  pose proof (f_equal fst Hk) as H1. pose proof (f_equal snd Hk) as H2.
  cbn [fst snd] in H1, H2. rewrite <- H2, H1, <- E.
  now rewrite filter_sort_index.
Qed.

Lemma first_valid_head (x : option Z) (l : list (option Z)) :
  x <> None -> first_valid (x :: l) = x.
Proof. destruct x; [reflexivity | congruence]. Qed.

Lemma last_valid_last (x : option Z) (l : list (option Z)) :
  x <> None -> hd_error (rev l) = Some x -> last_valid l = x.
Proof.
  unfold last_valid. destruct (rev l) as [| y l']; [discriminate |].
  intros Hx [= ->]. now apply first_valid_head.
Qed.

(** ** Market hours *)

Lemma bars_depend_on_window (ny : Z -> Z) (d1 d2 : DataFrame) :
  filter (in_window ny) (rows d1) = filter (in_window ny) (rows d2) ->
  bars ny d1 = bars ny d2.
Proof.
  intros H. unfold bars, between_time, in_new_york. cbn [rows index_tz].
  change (in_time ny (Some America_New_York) t0930 t1600) with (in_window ny).
  now rewrite H.
Qed.

(** ** How many rows a session resamples to *)

Lemma last_In (l : list (Z * Row)) (d : Z * Row) :
  l <> [] -> In (last l d) l.
Proof.
  intros Hl. destruct (@exists_last _ l Hl) as (l' & a & ->).
  rewrite last_last. apply in_or_app. right. now left.
Qed.

Lemma sorted_le_last (l : list (Z * Row)) (d s : Z * Row) :
  StronglySorted le_time l -> In s l -> fst s <= fst (last l d).
Proof.
  induction 1 as [| z l Hl IH Hz]; [intros [] |].
  destruct l as [| y l]; [intros [-> | []]; cbn; lia |].
  change (last (z :: y :: l) d) with (last (y :: l) d).
  intros [-> | Hs]; [| now apply IH].
  rewrite Forall_forall in Hz. apply Hz, last_In. discriminate.
Qed.

(** The threshold of line 274: a session with data resamples to fewer than
    two rows exactly when every sample within market hours is before the
    end of the five-minute bin of the earliest one. *)
Lemma fewer_than_two_rows_iff (ny : Z -> Z) (data : DataFrame) :
  len (bars ny data) < 2 <->
  forall s s',
    In s (filter (in_window ny) (rows data)) ->
    In s' (filter (in_window ny) (rows data)) ->
    (forall u, In u (filter (in_window ny) (rows data)) -> fst s <= fst u) ->
    fst s' < fst s - (fst s + ny (fst s)) mod five_minutes + five_minutes.
Proof.
  unfold len, bars, resample_5T_agg. rewrite window_rows.
  set (W := filter (in_window ny) (rows data)).
  cbn [index_tz between_time in_new_york local_seconds utcoffset].
  pose proof (sort_index_sorted W) as Hsorted.
  pose proof (fun y => sort_index_In y W) as Hin.
  destruct (sort_index W) as [| first l] eqn:E; cbn [rows].
  - split; [| cbn; lia].
    intros _ s s' Hs. apply Hin in Hs. destruct Hs.
  - cbv zeta. rewrite length_map, length_seq.
    set (e := fst first - (fst first + ny (fst first)) mod five_minutes).
    set (tl := fst (last (first :: l) first)).
    assert (In first W) as Hf by (apply Hin; now left).
    assert (forall u, In u W -> fst first <= fst u) as Hmin.
    { intros u Hu. apply Hin in Hu. inversion Hsorted as [| ? ? _ Hall].
      destruct Hu as [<- | Hu]; [lia |].
      rewrite Forall_forall in Hall. apply (Hall u Hu). }
    assert (forall u, In u W -> fst u <= tl) as Hmax.
    { intros u Hu. apply Hin in Hu. now apply sorted_le_last. }
    assert (In (last (first :: l) first) W) as Hl
      by (apply Hin, last_In; discriminate).
    assert (0 <= (fst first + ny (fst first)) mod five_minutes < five_minutes)
      as Hm by (apply Z.mod_pos_bound; reflexivity).
    assert (e <= fst first <= tl) as He by (specialize (Hmax first Hf); lia).
    assert (0 <= (tl - e) / five_minutes) as Hq
      by (apply Z.div_pos; [lia | reflexivity]).
    rewrite Z2Nat.id by lia.
    split.
    + intros Hlt s s' Hs Hs' Hsmin.
      assert (fst s = fst first) as ->
        by (specialize (Hmin s Hs); specialize (Hsmin first Hf); lia).
      fold e. specialize (Hmax s' Hs').
      assert ((tl - e) / five_minutes = 0) as Hz by lia.
      apply Z.div_small_iff in Hz; [| discriminate]. unfold five_minutes in *. lia.
    + intros H. specialize (H first _ Hf Hl Hmin). fold e tl in H.
      rewrite Z.div_small by (unfold five_minutes in *; lia). lia.
Qed.


(** * The claims of the specification *)

(** ** Claim 1: the date of the fallback session *)

(** C1, amended: when the primary session of a "1d" request has data but
    fewer than two resampled rows, the second query is for the previous
    business day, [target - BDay(1)]: a Monday to Friday strictly before the
    primary date with only week-end days in between; it is the day before
    for a primary date from Tuesday to Saturday, and the Friday before for a
    Monday (three days back) or a Sunday (two days back). *)
Theorem C1_fallback_is_previous_business_day
  (ny : Z -> Z) (history : Query -> result DataFrame) (ticker : string)
  (now : datetime) (data : DataFrame) :
  history (primary ticker now) = Ok data ->
  empty data = false ->
  len (bars ny data) < 2 ->
  let target := target_date now in
  let p := prev_trading_day target in
  fst (one_day ny history ticker now [])
    = [primary ticker now; HistoryRange ticker p (p + 1) "1m" true] /\
  weekday p <= 4 /\ p < target /\
  (forall d, p < d < target -> 5 <= weekday d) /\
  (weekday target = 0 -> p = target - 3) /\
  (1 <= weekday target <= 5 -> p = target - 1) /\
  (weekday target = 6 -> p = target - 2).
Proof.
  intros Hh He Hl target p.
  destruct (prev_trading_day_cases target) as (H0 & H15 & H6). fold p in H0, H15, H6.
  split.
  - rewrite one_day_cases, Hh, He.
    apply Z.ltb_lt in Hl. rewrite Hl.
    destruct (history (fallback ticker now)); reflexivity.
  - pose proof (weekday_range target) as Hr.
    assert (forall k, weekday (target - k) = (weekday target - k) mod 7) as Hs
      by (intros; apply weekday_shift).
    assert (weekday target = 0 \/ 1 <= weekday target <= 5 \/ weekday target = 6)
      as [Hw | [Hw | Hw]] by lia.
    + specialize (H0 Hw). rewrite H0.
      repeat split; try lia.
      * rewrite Hs, Hw. cbn. lia.
      * intros d Hd. replace d with (target - (target - d)) by lia.
        rewrite Hs, Hw.
        assert (target - d = 1 \/ target - d = 2) as [-> | ->] by lia; cbn; lia.
    + specialize (H15 Hw). rewrite H15.
      repeat split; try lia.
      rewrite Hs.
      assert (weekday target = 1 \/ weekday target = 2 \/ weekday target = 3 \/
              weekday target = 4 \/ weekday target = 5) as Hc by lia.
      decompose [or] Hc; clear Hc;
        match goal with E : weekday target = _ |- _ => rewrite E end; cbn; lia.
    + specialize (H6 Hw). rewrite H6.
      repeat split; try lia.
      * rewrite Hs, Hw. cbn. lia.
      * intros d Hd. replace d with (target - (target - d)) by lia.
        rewrite Hs, Hw.
        assert (target - d = 1) as -> by lia. cbn. lia.
Qed.

(** On Monday 2024-01-08 at 10:00, with one minute of data so far, the
    fallback query is for Friday 2024-01-05. *)
Lemma C1_witness :
  let now := at_time monday 10 0 in
  let history := provider monday monday_one_minute friday_three_bars in
  fst (one_day ny_utcoffset_us history "AAPL" now [])
    = [primary "AAPL" now; HistoryRange "AAPL" friday (friday + 1) "1m" true] /\
  weekday (target_date now) = 0.
Proof.
  intros now history.
  destruct (C1_fallback_is_previous_business_day ny_utcoffset_us history "AAPL"
              now monday_one_minute) as (Ht & _).
  - reflexivity.
  - reflexivity.
  - vm_compute. reflexivity.
  - split; [exact Ht | reflexivity].
Defined.

(** C1 as worded fails: on that Monday the code asks for Friday, three days
    back, and not for Sunday. *)
Lemma C1_counterexample : ~ fallback_is_calendar_yesterday.
Proof.
  intros H.
  specialize (H ny_utcoffset_us
                (provider monday monday_one_minute friday_three_bars)
                "AAPL"%string (at_time monday 10 0)
                (HistoryRange "AAPL" friday (friday + 1) "1m" true)
                (Ok (session_points ny_utcoffset_us friday_three_bars))).
  assert (HistoryRange "AAPL" friday (friday + 1) "1m" true
          = HistoryRange "AAPL" (target_date (at_time monday 10 0) - 1)
              (target_date (at_time monday 10 0)) "1m" true) as E.
  { apply H. rewrite one_day_cases. vm_compute. reflexivity. }
  vm_compute in E. discriminate E.
Qed.

(** ** Claim 2: when the fallback session is used *)

(** C2, amended: in a "1d" request, an empty primary fetch ends the request
    with an empty sequence and no second query; a primary fetch with data
    whose resampled frame (the rows of lines 266-272, counted before the
    rows without a close are dropped) has fewer than two rows is replaced by
    the fallback session: the result is the fallback's bars alone, and it is
    empty when the fallback fetch is empty; with two rows or more the result
    is the primary's bars alone and no second query is made.  There are
    fewer than two rows exactly when all the samples within market hours
    are before the end of the five-minute bin of the earliest one. *)
Theorem C2_fallback_policy
  (ny : Z -> Z) (history : Query -> result DataFrame) (ticker : string)
  (now : datetime) (data : DataFrame) :
  history (primary ticker now) = Ok data ->
  (empty data = true ->
     one_day ny history ticker now [] = ([primary ticker now], Ok [])) /\
  (empty data = false -> len (bars ny data) < 2 ->
     forall data', history (fallback ticker now) = Ok data' ->
       one_day ny history ticker now []
         = ([primary ticker now; fallback ticker now],
            Ok (session_points ny data')) /\
       (empty data' = true -> session_points ny data' = [])) /\
  (empty data = false -> 2 <= len (bars ny data) ->
     one_day ny history ticker now []
       = ([primary ticker now], Ok (session_points ny data))) /\
  (len (bars ny data) < 2 <->
   forall s s',
     In s (filter (in_window ny) (rows data)) ->
     In s' (filter (in_window ny) (rows data)) ->
     (forall u, In u (filter (in_window ny) (rows data)) -> fst s <= fst u) ->
     fst s' < fst s - (fst s + ny (fst s)) mod five_minutes + five_minutes).
Proof.
  intros Hh. rewrite one_day_cases, Hh.
  split; [| split; [| split]].
  - intros ->. reflexivity.
  - intros -> Hl data' Hd'. apply Z.ltb_lt in Hl. rewrite Hl, Hd'.
    split; [| now apply session_points_empty].
    destruct (empty data') eqn:E; [| reflexivity].
    now rewrite session_points_empty.
  - intros -> Hl. apply Z.ltb_ge in Hl. now rewrite Hl.
  - apply fewer_than_two_rows_iff.
Qed.

(** Monday 10:00 with one minute of data: the three bars of Friday. *)
Lemma C2_witness :
  let now := at_time monday 10 0 in
  let history := provider monday monday_one_minute friday_three_bars in
  one_day ny_utcoffset_us history "AAPL" now []
  = ([primary "AAPL" now; fallback "AAPL" now],
     Ok (session_points ny_utcoffset_us friday_three_bars)) /\
  List.length (session_points ny_utcoffset_us friday_three_bars) = 3%nat.
Proof.
  intros now history.
  destruct (C2_fallback_policy ny_utcoffset_us history "AAPL" now
              monday_one_minute eq_refl) as (_ & H & _).
  destruct (H eq_refl eq_refl friday_three_bars eq_refl) as (H' & _).
  split; [exact H' | reflexivity].
Defined.

(** C2 as worded fails: on Tuesday 2024-01-09 at 10:00 the primary fetch is
    empty and Monday has three bars; the code returns no bar and never asks
    for Monday. *)
Lemma C2_counterexample : ~ fallback_on_fewer_than_two_bars.
Proof.
  intros H.
  specialize (H ny_utcoffset_us
                (provider tuesday (frame []) monday_three_bars)
                "AAPL"%string (at_time tuesday 10 0)
                (frame []) monday_three_bars eq_refl eq_refl).
  assert (List.length (session_points ny_utcoffset_us (frame [])) < 2)%nat as Hl
    by (cbn; lia).
  specialize (H Hl). vm_compute in H. discriminate H.
Qed.

(** The threshold counts resampled rows, not bars: a price at 09:31 and a
    blank row at 09:41 make three rows and one bar, and the primary session
    is kept although Monday has three bars. *)
Lemma threshold_counts_rows_before_dropping :
  let now := at_time tuesday 10 0 in
  let history := provider tuesday tuesday_sparse monday_three_bars in
  len (bars ny_utcoffset_us tuesday_sparse) = 3 /\
  List.length (session_points ny_utcoffset_us tuesday_sparse) = 1%nat /\
  one_day ny_utcoffset_us history "AAPL" now []
  = ([primary "AAPL" now], Ok (session_points ny_utcoffset_us tuesday_sparse)).
Proof. vm_compute. repeat split. Qed.

(** ** Claim 3: the session of a 1d request *)

(** C3: the session of a "1d" request depends on [now] alone: on a Saturday
    or a Sunday it is the most recent Friday, [(weekday - 4) mod 7] days
    back, whatever the time; on a week day it is today from 09:30 to 16:00
    (both included) and yesterday before and after. *)
Theorem C3_session_selection (now : datetime) :
  valid_time now ->
  (5 <= weekday (dt_date now) ->
     target_date now = dt_date now - (weekday (dt_date now) - 4) mod 7 /\
     weekday (target_date now) = 4 /\
     dt_date now - 7 < target_date now < dt_date now) /\
  (weekday (dt_date now) < 5 ->
     open_us <= time_of_day_us now <= close_us ->
     target_date now = dt_date now) /\
  (weekday (dt_date now) < 5 ->
     time_of_day_us now < open_us \/ close_us < time_of_day_us now ->
     target_date now = dt_date now - 1).
Proof.
  intros Hv. pose proof (weekday_range (dt_date now)) as Hr.
  unfold target_date. repeat split.
  - destruct (weekday (dt_date now) >=? 5) eqn:E; [reflexivity | bool_to_prop; lia].
  - destruct (weekday (dt_date now) >=? 5) eqn:E; [| bool_to_prop; lia].
    rewrite weekday_shift.
    assert (weekday (dt_date now) = 5 \/ weekday (dt_date now) = 6) as [->| ->]
      by lia; reflexivity.
  - destruct (weekday (dt_date now) >=? 5) eqn:E; [| bool_to_prop; lia].
    assert (weekday (dt_date now) = 5 \/ weekday (dt_date now) = 6) as [->| ->]
      by lia; cbn; lia.
  - destruct (weekday (dt_date now) >=? 5) eqn:E; [| bool_to_prop; lia].
    assert (weekday (dt_date now) = 5 \/ weekday (dt_date now) = 6) as [->| ->]
      by lia; cbn; lia.
  - intros Hw Ht. destruct (weekday (dt_date now) >=? 5) eqn:E;
      [bool_to_prop; lia |].
    apply (market_open_iff now Hv) in Ht. now rewrite Ht.
  - intros Hw Ht. destruct (weekday (dt_date now) >=? 5) eqn:E;
      [bool_to_prop; lia |].
    destruct (datetime_leb _ _ && datetime_leb _ _) eqn:Eo; [| reflexivity].
    apply (market_open_iff now Hv) in Eo. lia.
Qed.

(** Saturday 23:00 selects Friday; Tuesday 10:00 selects Tuesday; Tuesday
    20:00 selects Monday. *)
Lemma C3_witness :
  target_date (at_time saturday 23 0) = friday /\
  target_date (at_time tuesday 10 0) = tuesday /\
  target_date (at_time tuesday 20 0) = monday.
Proof.
  assert (forall d h m, 0 <= h < 24 -> 0 <= m < 60 -> valid_time (at_time d h m))
    as Hv by (intros; unfold valid_time; cbn; lia).
  split; [| split].
  - destruct (C3_session_selection (at_time saturday 23 0)) as ((H & _) & _).
    + apply Hv; lia.
    + vm_compute. discriminate.
    + rewrite H. reflexivity.
  - destruct (C3_session_selection (at_time tuesday 10 0)) as (_ & H & _).
    + apply Hv; lia.
    + apply H; vm_compute; [reflexivity | split; discriminate].
  - destruct (C3_session_selection (at_time tuesday 20 0)) as (_ & _ & H).
    + apply Hv; lia.
    + rewrite H; [reflexivity | vm_compute; reflexivity |].
      right. vm_compute. reflexivity.
Defined.

(** ** Claim 4: market hours in New York time *)

(** C4: in the "1d" path the index values of a naive frame are read as UTC
    instants, every frame ends in the New York zone, and exactly the samples
    whose New York time of day is between 09:30:00 and 16:00:00, both
    included, are kept; the step never raises.  A sample outside these hours
    takes part in no bar: the bars are the same without it, and every
    sample of every bucket is within the hours. *)
Theorem C4_market_hours (ny : Z -> Z) (data : DataFrame) :
  market_hours ny data
    = Ok {| index_tz := Some America_New_York;
            rows := filter (in_window ny) (rows data) |} /\
  (forall s, in_window ny s = true <->
             t0930 <= (fst s + ny (fst s)) mod 86400 <= t1600) /\
  aggregate ny {| index_tz := None; rows := rows data |}
    = aggregate ny {| index_tz := Some UTC; rows := rows data |} /\
  aggregate ny data = Ok (bars ny data) /\
  index_tz (bars ny data) = Some America_New_York /\
  (forall l1 s l2,
     rows data = l1 ++ s :: l2 -> in_window ny s = false ->
     aggregate ny data
       = aggregate ny {| index_tz := index_tz data; rows := l1 ++ l2 |}) /\
  (forall lo r s,
     In (lo, r) (rows (bars ny data)) -> In s (bucket ny data lo) ->
     t0930 <= (fst s + ny (fst s)) mod 86400 <= t1600).
Proof.
  assert (forall s, in_window ny s = true <->
                    t0930 <= (fst s + ny (fst s)) mod 86400 <= t1600) as Hw.
  { intros s. unfold in_window. bool_to_prop. tauto. }
  split; [apply market_hours_ok |].
  split; [exact Hw |].
  split; [rewrite !aggregate_ok; f_equal; now apply bars_depend_on_window |].
  split; [apply aggregate_ok |].
  split; [unfold bars; now rewrite resample_tz |].
  split.
  - intros l1 s l2 Hr Hs. rewrite !aggregate_ok. f_equal.
    apply bars_depend_on_window. cbn [rows]. rewrite Hr, !filter_app.
    cbn [filter]. now rewrite Hs.
  - intros lo r s _ Hs. apply Hw.
    unfold bucket, contributing in Hs.
    apply (proj1 (sort_index_In _ _)) in Hs.
    apply filter_In in Hs. destruct Hs as [Hs _].
    apply filter_In in Hs. tauto.
Qed.

(** The scenario without its 09:29 sample has the same bars. *)
Lemma C4_witness :
  in_window ny_utcoffset_us (tick (est 2024 1 10 9 29) 100 0) = false /\
  aggregate ny_utcoffset_us scenario
  = aggregate ny_utcoffset_us
      {| index_tz := Some UTC;
         rows := [tick (est 2024 1 10 9 31) 101 10;
                  tick (est 2024 1 10 9 33) 102 5;
                  tick (est 2024 1 10 16 5) 103 0] |}.
Proof.
  split; [reflexivity |].
  exact (proj1 (proj2 (proj2 (proj2 (proj2 (proj2
           (C4_market_hours ny_utcoffset_us scenario))))))
           [] (tick (est 2024 1 10 9 29) 100 0)
           [tick (est 2024 1 10 9 31) 101 10; tick (est 2024 1 10 9 33) 102 5;
            tick (est 2024 1 10 16 5) 103 0]
           eq_refl eq_refl).
Defined.

(** ** Claim 5: the reduction of a bucket *)

(** C5, amended: the scenario of the specification gives exactly one bar,
    for 09:30 to 09:35, with open 101, high 102, low 101, close 102 and
    volume 15.  In general every resampled row is the reduction of the
    samples of its bucket taken in the order of their timestamps, samples
    with equal timestamps in the order of the input: its open is the first
    open that is not missing and its close the last close that is not
    missing (so the open of the first sample and the close of the last one
    whenever these are present), its high and low are the maximum and the
    minimum of the highs and lows that are not missing, and its volume is
    the sum of the volumes that are not missing. *)
Theorem C5_bucket_reduction :
  aggregate ny_utcoffset_us scenario
  = Ok {| index_tz := Some America_New_York;
          rows := [(est 2024 1 10 9 30,
                    {| Open := Some 101; High := Some 102; Low := Some 101;
                       Close := Some 102; Volume := Some 15 |})] |} /\
  forall (ny : Z -> Z) (data : DataFrame) (lo : Z) (r : Row),
    In (lo, r) (rows (bars ny data)) ->
    let g := bucket ny data lo in
    let c := contributing ny data lo in
    (forall s, In s g <->
               In s (rows data) /\ in_window ny s = true /\
               lo <= fst s < lo + five_minutes) /\
    StronglySorted le_time g /\
    (forall t, filter (at_time_t t) g = filter (at_time_t t) c) /\
    Open r = first_valid (map Open (map snd g)) /\
    Close r = last_valid (map Close (map snd g)) /\
    High r = max_valid (map High (map snd c)) /\
    Low r = min_valid (map Low (map snd c)) /\
    Volume r = Some (sum_valid (map Volume (map snd c))) /\
    (forall first, hd_error g = Some first -> Open (snd first) <> None ->
                   Open r = Open (snd first)) /\
    (forall last, hd_error (rev g) = Some last -> Close (snd last) <> None ->
                  Close r = Close (snd last)).
Proof.
  split; [vm_compute; reflexivity |].
  intros ny data lo r Hin g c. apply bars_row in Hin. fold g in Hin.
  assert (g = sort_index c) as Hg by reflexivity.
  split.
  { intros s. rewrite Hg, sort_index_In. unfold c, contributing.
    rewrite !filter_In. unfold in_bin. bool_to_prop. tauto. }
  split; [rewrite Hg; apply sort_index_sorted |].
  split; [intros t; rewrite Hg; apply sort_index_stable |].
  subst r. cbn [Open Close High Low Volume].
  split; [reflexivity |]. split; [reflexivity |].
  split; [rewrite Hg; apply max_valid_sort_index |].
  split; [rewrite Hg; apply min_valid_sort_index |].
  split; [rewrite Hg; unfold agg; cbn [Volume]; f_equal;
          apply sum_valid_sort_index |].
  split.
  - intros first Hf Hv. destruct g as [| s g']; [discriminate |].
    injection Hf as ->. cbn [map]. now apply first_valid_head.
  - intros last Hl Hv. apply last_valid_last; [exact Hv |].
    rewrite <- !map_rev. destruct (rev g) as [| s g']; [discriminate |].
    injection Hl as ->. reflexivity.
Qed.

(** A blank row at 09:31 and a price at 09:33: the bar opens at that price. *)
Lemma C5_witness :
  let lo := est 2024 1 10 9 30 in
  let r := {| Open := Some 102; High := Some 102; Low := Some 102;
              Close := Some 102; Volume := Some 5 |} in
  In (lo, r) (rows (bars ny_utcoffset_us blank_then_price)) /\
  hd_error (bucket ny_utcoffset_us blank_then_price lo)
    = Some (blank (est 2024 1 10 9 31)) /\
  Open r = first_valid (map Open (map snd (bucket ny_utcoffset_us blank_then_price lo))).
Proof.
  intros lo r.
  assert (In (lo, r) (rows (bars ny_utcoffset_us blank_then_price))) as Hin
    by (vm_compute; left; reflexivity).
  split; [exact Hin |]. split; [reflexivity |].
  exact (proj1 (proj2 (proj2 (proj2
           (proj2 C5_bucket_reduction ny_utcoffset_us blank_then_price lo r Hin))))).
Defined.

(** C5 as worded fails when the first sample of a bucket has no open: the
    bar takes the open of the next sample that has one. *)
Lemma C5_counterexample : ~ open_and_close_of_first_and_last.
Proof.
  intros H.
  destruct (H ny_utcoffset_us blank_then_price (est 2024 1 10 9 30)
              {| Open := Some 102; High := Some 102; Low := Some 102;
                 Close := Some 102; Volume := Some 5 |}
              (blank (est 2024 1 10 9 31)) (tick (est 2024 1 10 9 33) 102 5))
    as (Ho & _).
  - vm_compute. left. reflexivity.
  - reflexivity.
  - reflexivity.
  - discriminate Ho.
Qed.

(** ** Claim 6: exceptions raised by the provider *)

(** C6, amended: an exception raised by the provider is never propagated,
    but it is not taken for an empty result either: the single [except]
    clause of the handler answers it at once with status 500 and the body
    [{status: "error", error, message}], and no further query is made.  So a
    primary fetch that raises is not followed by the fallback fetch, and a
    fallback fetch that raises discards the primary data.  Data that is
    merely empty or sparse never raises in the "1d" branch: the answer is
    then 200 or 404. *)
Theorem C6_transport_failure
  (ny : Z -> Z) (history : Query -> result DataFrame) (now : datetime)
  (args : Args) :
  ticker_of args <> EmptyString ->
  let ticker := ticker_of args in
  let period := get (arg_period args) "1d" in
  (period = "1d"%string -> forall e,
     history (primary ticker now) = Raise e ->
     get_stock_graph ny history now args
       = ([primary ticker now], fetch_failed period ticker e)) /\
  (period = "1d"%string -> forall data e,
     history (primary ticker now) = Ok data -> empty data = false ->
     len (bars ny data) < 2 ->
     history (fallback ticker now) = Raise e ->
     get_stock_graph ny history now args
       = ([primary ticker now; fallback ticker now],
          fetch_failed period ticker e)) /\
  (period <> "1d"%string -> forall e,
     history (period_query ticker period) = Raise e ->
     get_stock_graph ny history now args
       = ([period_query ticker period], fetch_failed period ticker e)) /\
  (period = "1d"%string ->
     (forall q, exists data, history q = Ok data) ->
     fst (snd (get_stock_graph ny history now args)) = 200 \/
     fst (snd (get_stock_graph ny history now args)) = 404).
Proof.
  intros Ht ticker period.
  rewrite (get_stock_graph_cases ny history now args Ht).
  cbv zeta. fold ticker period. repeat split.
  - intros Hp e He. rewrite Hp, graph_data_1d, one_day_cases, He. reflexivity.
  - intros Hp data e Hd Hne Hl He.
    rewrite Hp, graph_data_1d, one_day_cases, Hd, Hne.
    apply Z.ltb_lt in Hl. rewrite Hl, He. reflexivity.
  - intros Hp e He.
    rewrite (graph_data_other ny history ticker period now Hp),
      other_period_cases, He. reflexivity.
  - intros Hp Hok. rewrite Hp, graph_data_1d, one_day_cases.
    destruct (Hok (primary ticker now)) as [data ->].
    destruct (empty data); [right; reflexivity |].
    destruct (len (bars ny data) <? 2).
    + destruct (Hok (fallback ticker now)) as [data' ->].
      destruct (if empty data' then [] else session_points ny data');
        [right | left]; reflexivity.
    + destruct (session_points ny data); [right | left]; reflexivity.
Qed.

(** A provider out of reach on Tuesday 2024-01-09 at 10:00. *)
Lemma C6_witness :
  get_stock_graph ny_utcoffset_us unreachable (at_time tuesday 10 0) aapl
  = ([primary "AAPL" (at_time tuesday 10 0)],
     fetch_failed "1d" "AAPL" "connection reset"%string).
Proof.
  assert (ticker_of aapl <> EmptyString) as Ht by (vm_compute; discriminate).
  exact (proj1 (C6_transport_failure ny_utcoffset_us unreachable
                  (at_time tuesday 10 0) aapl Ht)
           eq_refl "connection reset"%string eq_refl).
Defined.

(** C6 as worded fails: after the primary fetch has raised, the fallback
    session is not asked for. *)
Lemma C6_counterexample : ~ failed_primary_still_falls_back.
Proof.
  intros H.
  specialize (H ny_utcoffset_us unreachable (at_time tuesday 10 0) aapl
                "connection reset"%string).
  assert (ticker_of aapl <> EmptyString) as Ht by (vm_compute; discriminate).
  specialize (H Ht eq_refl eq_refl).
  vm_compute in H. destruct H as [H | []]. discriminate H.
Qed.

(** ** Claim 7: the answer to an empty sequence *)

(** C7, amended: for every request with a ticker, of any period, an empty
    [graph_data] is answered with status 404 and the body
    [{"error": "No valid data points after processing"}], which has neither
    a "status" nor a "message" field. *)
Theorem C7_empty_data_response
  (ny : Z -> Z) (history : Query -> result DataFrame) (now : datetime)
  (args : Args) (tr : list Query) :
  ticker_of args <> EmptyString ->
  graph_data ny history (ticker_of args) (get (arg_period args) "1d") now []
    = (tr, Ok []) ->
  get_stock_graph ny history now args
    = (tr, (404, JDict [("error", JStr "No valid data points after processing")]%string))
  /\ field "status" (snd (snd (get_stock_graph ny history now args))) = None
  /\ field "message" (snd (snd (get_stock_graph ny history now args))) = None.
Proof.
  intros Ht Hg. rewrite (get_stock_graph_cases ny history now args Ht).
  cbv zeta. rewrite Hg. repeat split.
Qed.

(** A provider without data on Tuesday 2024-01-09 at 10:00. *)
Lemma C7_witness :
  get_stock_graph ny_utcoffset_us no_data (at_time tuesday 10 0) aapl
  = ([primary "AAPL" (at_time tuesday 10 0)],
     (404, JDict [("error", JStr "No valid data points after processing")]%string)).
Proof.
  refine (proj1 (C7_empty_data_response ny_utcoffset_us no_data
                   (at_time tuesday 10 0) aapl
                   [primary "AAPL" (at_time tuesday 10 0)] _ _)).
  - vm_compute. discriminate.
  - vm_compute. reflexivity.
Defined.

(** C7 as worded fails: that response has no "status" field. *)
Lemma C7_counterexample : ~ empty_data_has_error_shape.
Proof.
  intros H.
  destruct (H ny_utcoffset_us no_data (at_time tuesday 10 0) aapl
              [primary "AAPL" (at_time tuesday 10 0)]) as (Hs & _).
  - vm_compute. discriminate.
  - vm_compute. reflexivity.
  - vm_compute in Hs. discriminate Hs.
Qed.

(** ** Claim 8: the other periods *)

(** C8: for a request with a ticker whose period is not "1d", exactly one
    query is made, whatever the current time: a 7-day range of hourly
    samples for "7d", a 1-month range of daily samples for "30d", a 3-month
    range of daily samples for "3mo", a 1-year range of weekly samples for
    "1y", and a 1-month range of daily samples for any other period. *)
Theorem C8_period_table
  (ny : Z -> Z) (history : Query -> result DataFrame) (now : datetime)
  (args : Args) :
  ticker_of args <> EmptyString ->
  get (arg_period args) "1d" <> "1d"%string ->
  let ticker := ticker_of args in
  let period := get (arg_period args) "1d" in
  let queries := fst (get_stock_graph ny history now args) in
  (period = "7d"%string -> queries = [HistoryPeriod ticker "7d" "1h" false]) /\
  (period = "30d"%string -> queries = [HistoryPeriod ticker "1mo" "1d" false]) /\
  (period = "3mo"%string -> queries = [HistoryPeriod ticker "3mo" "1d" false]) /\
  (period = "1y"%string -> queries = [HistoryPeriod ticker "1y" "1wk" false]) /\
  (period <> "7d"%string -> period <> "30d"%string -> period <> "3mo"%string ->
   period <> "1y"%string -> queries = [HistoryPeriod ticker "1mo" "1d" false]) /\
  (forall now', fst (get_stock_graph ny history now' args) = queries).
Proof.
  intros Ht Hp ticker period queries. subst queries.
  rewrite (trace_other_period ny history now args Ht Hp). fold ticker period.
  repeat split.
  - intros ->. reflexivity.
  - intros ->. reflexivity.
  - intros ->. reflexivity.
  - intros ->. reflexivity.
  - intros H7 H30 H3 H1. unfold period_query.
    destruct (String.eqb_spec period "7d"); [contradiction |].
    destruct (String.eqb_spec period "30d"); [contradiction |].
    destruct (String.eqb_spec period "3mo"); [contradiction |].
    destruct (String.eqb_spec period "1y"); [contradiction |].
    reflexivity.
  - intros now'. apply (trace_other_period ny history now' args Ht Hp).
Qed.

(** The periods "1y" and "max" on Tuesday 2024-01-09 at 10:00. *)
Lemma C8_witness :
  fst (get_stock_graph ny_utcoffset_us no_data (at_time tuesday 10 0)
         {| arg_ticker := Some " msft "%string; arg_period := Some "1y"%string |})
  = [HistoryPeriod "MSFT" "1y" "1wk" false] /\
  fst (get_stock_graph ny_utcoffset_us no_data (at_time tuesday 10 0)
         {| arg_ticker := Some " msft "%string; arg_period := Some "max"%string |})
  = [HistoryPeriod "MSFT" "1mo" "1d" false].
Proof.
  split.
  - refine (proj1 (proj2 (proj2 (proj2
             (C8_period_table ny_utcoffset_us no_data (at_time tuesday 10 0)
                {| arg_ticker := Some " msft "%string;
                   arg_period := Some "1y"%string |} _ _)))) eq_refl);
      vm_compute; discriminate.
  - refine (proj1 (proj2 (proj2 (proj2 (proj2
             (C8_period_table ny_utcoffset_us no_data (at_time tuesday 10 0)
                {| arg_ticker := Some " msft "%string;
                   arg_period := Some "max"%string |} _ _))))) _ _ _ _);
      vm_compute; discriminate.
Defined.

(** ** Claim 9: the order of the bars *)

(** C9, amended: the bars of a "1d" request are in strictly increasing order
    of bucket start, without duplicates, whatever the provider returns; the
    rows of any other period are passed on in the provider's own order, so
    that their timestamps are those of the provider's rows that have a
    close, in that order. *)
Theorem C9_ordering
  (ny : Z -> Z) (history : Query -> result DataFrame) (now : datetime)
  (args : Args) (tr : list Query) (l : list json) :
  ticker_of args <> EmptyString ->
  graph_data ny history (ticker_of args) (get (arg_period args) "1d") now []
    = (tr, Ok l) ->
  (get (arg_period args) "1d" = "1d"%string ->
     strictly_increasing (times l) /\ NoDup (times l)) /\
  (get (arg_period args) "1d" <> "1d"%string ->
     forall data,
       history (period_query (ticker_of args) (get (arg_period args) "1d"))
         = Ok data ->
       times l = map fst (filter has_close (rows data))).
Proof.
  intros Ht Hg. split.
  - intros Hp. rewrite Hp, graph_data_1d, one_day_cases in Hg.
    assert (strictly_increasing (times l)) as Hs.
    { destruct (history (primary _ now)) as [data | e]; [| discriminate].
      destruct (empty data).
      - injection Hg as _ <-. constructor.
      - destruct (len (bars ny data) <? 2).
        + destruct (history (fallback _ now)) as [data' | e]; [| discriminate].
          injection Hg as _ <-.
          destruct (empty data'); [constructor | apply times_session_points].
        + injection Hg as _ <-. apply times_session_points. }
    split; [exact Hs |].
    clear - Hs. induction Hs as [| t l0 Hl IH Hf]; constructor; [| exact IH].
    intros Hin. rewrite Forall_forall in Hf. specialize (Hf t Hin). lia.
  - intros Hp data Hd.
    rewrite (graph_data_other ny history _ _ now Hp), other_period_cases, Hd in Hg.
    injection Hg as _ Hg. unfold graph_points in Hg.
    now apply times_to_point in Hg.
Qed.

(** Tuesday 10:00 with Monday's three bars as the fallback: 09:30, 09:35
    and 09:40, in this order. *)
Lemma C9_witness :
  strictly_increasing
    (times (session_points ny_utcoffset_us (three_bars 2024 1 9))) /\
  times (session_points ny_utcoffset_us (three_bars 2024 1 9))
  = [est 2024 1 9 9 30; est 2024 1 9 9 35; est 2024 1 9 9 40].
Proof.
  pose (now := at_time tuesday 10 0).
  pose (history := provider tuesday (three_bars 2024 1 9) monday_three_bars).
  split; [| reflexivity].
  assert (ticker_of aapl <> EmptyString) as Ht by (vm_compute; discriminate).
  refine (proj1 (proj1 (C9_ordering ny_utcoffset_us history now aapl
                   [primary "AAPL" now]
                   (session_points ny_utcoffset_us (three_bars 2024 1 9))
                   Ht _) eq_refl)).
  vm_compute. reflexivity.
Defined.

(** C9 as worded fails: for the period "7d" the provider's rows are passed
    on as they come, here latest first. *)
Lemma C9_counterexample : ~ bars_always_increase.
Proof.
  intros H.
  assert (ticker_of aapl <> EmptyString) as Ht by (vm_compute; discriminate).
  specialize (H ny_utcoffset_us (fun _ => Ok latest_first) (at_time tuesday 10 0)
                {| arg_ticker := Some "aapl"%string;
                   arg_period := Some "7d"%string |}
                [HistoryPeriod "AAPL" "7d" "1h" false]
                (map point (rows latest_first)) Ht eq_refl).
  vm_compute in H. inversion H as [| ? ? _ Hf]. inversion Hf as [| ? ? Hlt _].
  discriminate Hlt.
Qed.
(** ** Claim 10: a request without a ticker *)

(** What [upper] and [strip] do on texts outside ASCII: a no-break space
    (U+00A0) is white space, and the sharp s becomes two letters. *)
Example ticker_of_examples :
  ticker_of {| arg_ticker := Some (PyStr.utf8 [32; 97; 97; 112; 108; 9]%N);
               arg_period := None |} = "AAPL"%string /\
  ticker_of {| arg_ticker := Some (PyStr.utf8 [194; 160]%N); arg_period := None |}
    = EmptyString /\
  ticker_of {| arg_ticker := Some (PyStr.utf8 [194; 160; 97; 195; 159; 32; 195; 169; 226; 128; 131]%N);
               arg_period := None |}
    = PyStr.utf8 [65; 83; 83; 32; 195; 137]%N /\
  ticker_of {| arg_ticker := None; arg_period := None |} = EmptyString.
Proof. vm_compute. repeat split. Qed.

(** C10: the ticker is the query parameter in upper case and without its
    leading and trailing white space, in either order of the two
    operations: it is what is left of the upper-cased parameter between a
    prefix and a suffix of white space, it neither begins nor ends with
    white space and has no small ASCII letter.  It is empty exactly when the
    parameter is missing, empty or made of white space only, and then
    [/stock_graph] and [/stock] both answer 400 with the body
    [{"error": "No ticker provided"}] without calling the provider; every
    call they make otherwise is about the normalised ticker. *)
Theorem C10_no_ticker
  (ny : Z -> Z) (history : Query -> result DataFrame)
  (info : string -> result (option Z))
  (quote : string -> Row -> option Z -> result json)
  (now : datetime) (args : Args) :
  ticker_of args = PyStr.upper (PyStr.strip (get (arg_ticker args) EmptyString)) /\
  (exists a b,
     PyStr.upper (get (arg_ticker args) EmptyString)
       = (a ++ ticker_of args ++ b)%string /\
     PyStr.all_space a = true /\ PyStr.all_space b = true) /\
  trimmed (ticker_of args) /\
  no_small (ticker_of args) = true /\
  (ticker_of args = EmptyString <->
     arg_ticker args = None \/
     exists s, arg_ticker args = Some s /\ PyStr.all_space s = true) /\
  (ticker_of args = EmptyString ->
     get_stock_graph ny history now args
       = ([], (400, JDict [("error", JStr "No ticker provided")]%string)) /\
     get_stock history info quote args
       = ([], (400, JDict [("error", JStr "No ticker provided")]%string))) /\
  (forall q, In q (fst (get_stock_graph ny history now args)) ->
             query_ticker q = ticker_of args) /\
  (forall q, In q (fst (get_stock history info quote args)) ->
             query_ticker q = ticker_of args).
Proof.
  split; [apply strip_upper |].
  split; [apply strip_upper_split |].
  split; [apply strip_trimmed |].
  split; [apply no_small_strip_upper |].
  split.
  - unfold ticker_of. rewrite strip_upper_empty_iff.
    destruct (arg_ticker args) as [s |]; cbn [get].
    + split.
      * intros H. right. now exists s.
      * intros [H | (s' & [= <-] & H)]; [discriminate | exact H].
    + split; [now left | reflexivity].
  - split.
    + intros He. unfold get_stock_graph, get_stock. rewrite He. split; reflexivity.
    + split.
      * intros q. apply trace_get_stock_graph.
      * intros q. apply trace_get_stock.
Qed.

(** A ticker that is one no-break space (U+00A0). *)
Lemma C10_witness :
  let args := {| arg_ticker := Some (PyStr.utf8 [194; 160]%N);
                 arg_period := None |} in
  ticker_of args = EmptyString /\
  get_stock_graph ny_utcoffset_us unreachable (at_time tuesday 10 0) args
    = ([], (400, JDict [("error", JStr "No ticker provided")]%string)) /\
  get_stock unreachable (fun _ => Ok None) (fun _ _ _ => Ok (JDict [])) args
    = ([], (400, JDict [("error", JStr "No ticker provided")]%string)).
Proof.
  intros args. split; [vm_compute; reflexivity |].
  refine (proj1 (proj2 (proj2 (proj2 (proj2 (proj2
           (C10_no_ticker ny_utcoffset_us unreachable (fun _ => Ok None)
              (fun _ _ _ => Ok (JDict [])) (at_time tuesday 10 0) args))))))
           _).
  vm_compute. reflexivity.
Defined.

(** * Further properties of the handlers *)

(** ** The session and the queries of a "1d" request *)


(** X1: the session selected is never in the future, never more than two
    days back and never a Saturday; it is a Sunday exactly when the request
    comes on a Monday outside market hours. *)
Theorem X1_target_date_range (now : datetime) :
  valid_time now ->
  dt_date now - 2 <= target_date now <= dt_date now /\
  weekday (target_date now) <> 5 /\
  (weekday (target_date now) = 6 <->
   weekday (dt_date now) = 0 /\
   (time_of_day_us now < open_us \/ close_us < time_of_day_us now)).
Proof.
  intros Hv. pose proof (weekday_range (dt_date now)) as Hr.
  unfold target_date.
  destruct (weekday (dt_date now) >=? 5) eqn:E; rewrite Z.geb_leb in E;
    [apply Z.leb_le in E | apply Z.leb_gt in E].
  - assert (weekday (dt_date now) = 5 \/ weekday (dt_date now) = 6) as Hw by lia.
    rewrite weekday_shift.
    destruct Hw as [Hw | Hw]; rewrite Hw; cbn; repeat split; lia.
  - destruct (datetime_leb _ _ && datetime_leb _ _) eqn:Em.
    + apply (market_open_iff now Hv) in Em. repeat split; lia.
    + assert (~ open_us <= time_of_day_us now <= close_us) as Hn
        by (intros H; apply (market_open_iff now Hv) in H; congruence).
      rewrite weekday_shift.
      assert (weekday (dt_date now) = 0 \/ weekday (dt_date now) = 1 \/
              weekday (dt_date now) = 2 \/ weekday (dt_date now) = 3 \/
              weekday (dt_date now) = 4) as Hw by lia.
      decompose [or] Hw; clear Hw;
        match goal with E' : weekday (dt_date now) = _ |- _ => rewrite E' end;
        match goal with
        | |- context [(?a - 1) mod 7] =>
            let v := eval vm_compute in ((a - 1) mod 7) in
            change ((a - 1) mod 7) with v
        end;
        repeat split; lia.
Qed.

(** Monday 2024-01-08 at 08:00 selects Sunday 2024-01-07. *)
Lemma X1_witness :
  target_date (at_time monday 8 0) = monday - 1 /\
  weekday (target_date (at_time monday 8 0)) = 6.
Proof.
  assert (valid_time (at_time monday 8 0)) as Hv
    by (unfold valid_time; cbn; lia).
  split; [reflexivity |].
  apply (proj2 (proj2 (X1_target_date_range (at_time monday 8 0) Hv))).
  split; [reflexivity | left; reflexivity].
Defined.




(** ** The answers of [get_stock_graph] *)

(** X3: the status of [/stock_graph] is 200, 400, 404 or 500, and it is 400
    exactly for a blank ticker.  A 200 answer carries the status "success",
    the normalised ticker, the period exactly as it was requested (also one
    that the table of periods does not know), a data list that is not empty
    and [now] as its time stamp. *)
Theorem X3_response_shape
  (ny : Z -> Z) (history : Query -> result DataFrame) (now : datetime)
  (args : Args) :
  let code := fst (snd (get_stock_graph ny history now args)) in
  let body := snd (snd (get_stock_graph ny history now args)) in
  (code = 200 \/ code = 400 \/ code = 404 \/ code = 500) /\
  (code = 400 <-> ticker_of args = EmptyString) /\
  (code = 200 ->
   field "status" body = Some (JStr "success") /\
   field "ticker" body = Some (JStr (ticker_of args)) /\
   field "period" body = Some (JStr (get (arg_period args) "1d")) /\
   field "last_updated" body = Some (JStamp now) /\
   exists p l, field "data" body = Some (JList (p :: l))).
Proof.
  cbv zeta.
  destruct (string_dec (ticker_of args) EmptyString) as [He | Hne].
  - unfold get_stock_graph. rewrite He. cbn.
    repeat split; try tauto; try discriminate.
  - rewrite (get_stock_graph_cases ny history now args Hne). cbv zeta.
    destruct (graph_data ny history _ _ now []) as [tr [[| p l] | e]];
      cbn [fst snd].
    + repeat split; try tauto; try discriminate.
    + split; [tauto |]. split; [split; [discriminate | contradiction] |].
      intros _. repeat split. now exists p, l.
    + repeat split; try tauto; try discriminate.
Qed.

(** The period "max" is served from the default range and echoed as "max". *)
Lemma X3_witness :
  let args := {| arg_ticker := Some "msft"%string;
                 arg_period := Some "max"%string |} in
  let answer := get_stock_graph ny_utcoffset_us
                  (fun _ => Ok (three_bars 2024 1 9)) (at_time tuesday 10 0)
                  args in
  fst answer = [HistoryPeriod "MSFT" "1mo" "1d" false] /\
  field "period" (snd (snd answer)) = Some (JStr "max").
Proof.
  intros args answer. split; [reflexivity |].
  exact (proj1 (proj2 (proj2 (proj2 (proj2
           (X3_response_shape ny_utcoffset_us
              (fun _ => Ok (three_bars 2024 1 9)) (at_time tuesday 10 0) args))
           eq_refl)))).
Defined.

Lemma mapR_In {A B} (f : A -> result B) (l0 : list A) (l : list B) (y : B) :
  mapR f l0 = Ok l -> In y l -> exists x, In x l0 /\ f x = Ok y.
Proof.
  revert l. induction l0 as [| x l0 IH]; intros l; cbn [mapR].
  - intros [= <-] [].
  - destruct (f x) as [y' | e] eqn:E; cbn [bindR]; [| discriminate].
    destruct (mapR f l0) as [ys | e]; cbn [bindR]; [| discriminate].
    intros [= <-] [<- | Hy].
    + exists x. split; [now left | exact E].
    + destruct (IH ys eq_refl Hy) as (x' & Hx' & Hf).
      exists x'. split; [now right | exact Hf].
Qed.

Lemma to_point_fields (tz : option zone) (s : Z * Row) (j : json) :
  to_point tz s = Ok j -> has_close s = true ->
  exists c v,
    field "time" j = Some (JTime (fst s)) /\
    field "price" j = Some (JFloat (Some c)) /\
    field "volume" j = Some (JInt v).
Proof.
  unfold to_point, has_close. destruct tz; cbn [bindR]; [| discriminate].
  destruct (Volume (snd s)) as [v |]; cbn [bindR]; [| discriminate].
  destruct (Close (snd s)) as [c |] eqn:E; [| discriminate].
  intros [= <-] _. exists c, v. cbn. repeat split.
Qed.

Lemma point_fields (s : Z * Row) :
  has_close s = true -> Volume (snd s) <> None ->
  exists c v,
    field "time" (point s) = Some (JTime (fst s)) /\
    field "price" (point s) = Some (JFloat (Some c)) /\
    field "volume" (point s) = Some (JInt v).
Proof.
  unfold has_close. intros Hc Hv.
  destruct (Close (snd s)) as [c |] eqn:E; [| discriminate].
  destruct (Volume (snd s)) as [v |] eqn:E'; [| congruence].
  exists c, v. cbn. rewrite E, E'. repeat split.
Qed.

(** X4: whatever the period, every element of the data list has a time, a
    price that is not NaN and an integer volume: a row without a close never
    reaches the answer. *)
Theorem X4_points_have_a_price
  (ny : Z -> Z) (history : Query -> result DataFrame) (now : datetime)
  (ticker period : string) (tr : list Query) (l : list json) (j : json) :
  graph_data ny history ticker period now [] = (tr, Ok l) ->
  In j l ->
  exists t c v,
    field "time" j = Some (JTime t) /\
    field "price" j = Some (JFloat (Some c)) /\
    field "volume" j = Some (JInt v).
Proof.
  unfold graph_data. destruct (String.eqb period "1d").
  - rewrite one_day_cases.
    assert (forall data, In j (session_points ny data) ->
              exists t c v,
                field "time" j = Some (JTime t) /\
                field "price" j = Some (JFloat (Some c)) /\
                field "volume" j = Some (JInt v)) as Hs.
    { intros data Hj. unfold session_points in Hj. apply in_map_iff in Hj.
      destruct Hj as (s & <- & Hs). apply filter_In in Hs.
      destruct Hs as [Hin Hc].
      destruct (point_fields s Hc (resample_volume ny _ s Hin)) as (c & v & H).
      now exists (fst s), c, v. }
    destruct (history (primary ticker now)) as [data | e]; [| discriminate].
    destruct (empty data).
    + intros [= _ <-] [].
    + destruct (len (bars ny data) <? 2).
      * destruct (history (fallback ticker now)) as [data' | e]; [| discriminate].
        intros [= _ <-]. destruct (empty data'); [intros [] | apply Hs].
      * intros [= _ <-]. apply Hs.
  - rewrite other_period_cases.
    destruct (history (period_query ticker period)) as [data | e];
      [| discriminate].
    intros [= _ Hg] Hj. unfold graph_points in Hg.
    destruct (mapR_In _ _ _ _ Hg Hj) as (s & Hs & Hf).
    apply filter_In in Hs. destruct Hs as [_ Hc].
    destruct (to_point_fields _ _ _ Hf Hc) as (c & v & H).
    now exists (fst s), c, v.
Qed.

(** Tuesday's sparse session: the only element is the bar of 09:30. *)
Lemma X4_witness :
  exists t c v,
    field "time" (point (tick (est 2024 1 9 9 30) 101 10)) = Some (JTime t) /\
    field "price" (point (tick (est 2024 1 9 9 30) 101 10))
      = Some (JFloat (Some c)) /\
    field "volume" (point (tick (est 2024 1 9 9 30) 101 10)) = Some (JInt v).
Proof.
  refine (X4_points_have_a_price ny_utcoffset_us
            (provider tuesday tuesday_sparse monday_three_bars)
            (at_time tuesday 10 0) "AAPL" "1d"
            [primary "AAPL" (at_time tuesday 10 0)]
            (session_points ny_utcoffset_us tuesday_sparse) _ _ _).
  - vm_compute. reflexivity.
  - vm_compute. left. reflexivity.
Defined.

(** ** The resampled rows and their buckets *)

(** The resampled frame is a run of consecutive five-minute bins that
    covers every sample within market hours. *)
Lemma bars_rows_form (ny : Z -> Z) (data : DataFrame) :
  exists (e : Z) (n : nat),
    rows (bars ny data)
    = map (fun k => (e + five_minutes * Z.of_nat k,
                     agg (map snd (bucket ny data (e + five_minutes * Z.of_nat k)))))
          (seq 0 n) /\
    (forall s, In s (filter (in_window ny) (rows data)) ->
               e <= fst s < e + five_minutes * Z.of_nat n) /\
    (forall first l,
       sort_index (filter (in_window ny) (rows data)) = first :: l ->
       e = fst first - (fst first + ny (fst first)) mod five_minutes).
Proof.
  unfold bars, resample_5T_agg, bucket, contributing. rewrite window_rows.
  set (W := filter (in_window ny) (rows data)).
  cbn [index_tz between_time in_new_york local_seconds utcoffset].
  pose proof (sort_index_sorted W) as Hsorted.
  pose proof (fun y => sort_index_In y W) as Hin.
  destruct (sort_index W) as [| first l] eqn:E; cbn [rows].
  - exists 0, 0%nat. split; [reflexivity |]. split; [| discriminate].
    intros s Hs. apply Hin in Hs. destruct Hs.
  - cbv zeta.
    set (e := fst first - (fst first + ny (fst first)) mod five_minutes).
    set (tl := fst (last (first :: l) first)).
    exists e, (Z.to_nat ((tl - e) / five_minutes + 1)).
    assert (In first W) as Hf by (apply Hin; now left).
    assert (forall u, In u W -> fst first <= fst u) as Hmin.
    { intros u Hu. apply Hin in Hu. inversion Hsorted as [| ? ? _ Hall].
      destruct Hu as [<- | Hu]; [lia |].
      rewrite Forall_forall in Hall. apply (Hall u Hu). }
    assert (forall u, In u W -> fst u <= tl) as Hmax.
    { intros u Hu. apply Hin in Hu. now apply sorted_le_last. }
    assert (0 <= (fst first + ny (fst first)) mod five_minutes < five_minutes)
      as Hm by (apply Z.mod_pos_bound; reflexivity).
    assert (e <= fst first <= tl) as He by (specialize (Hmax first Hf); lia).
    assert (0 <= (tl - e) / five_minutes) as Hq
      by (apply Z.div_pos; [lia | reflexivity]).
    split; [| split].
    + apply map_ext. intros k. f_equal. f_equal. f_equal.
      rewrite <- E. apply filter_sort_index.
    + intros s Hs. rewrite Z2Nat.id by lia.
      specialize (Hmin s Hs). specialize (Hmax s Hs).
      assert (tl - e < five_minutes * Z.succ ((tl - e) / five_minutes))
        by (apply Z.mul_succ_div_gt; reflexivity).
      lia.
    + intros first' l' [= <- <-]. reflexivity.
Qed.

Lemma last_valid_some_iff (l : list (option Z)) :
  last_valid l <> None <-> exists x, In (Some x) l.
Proof.
  unfold last_valid.
  assert (forall l', first_valid l' <> None <-> exists x, In (Some x) l') as H.
  { induction l' as [| [y |] l' IH]; cbn [first_valid].
    - split; [congruence | intros (x & [])].
    - split; [intros _; exists y; now left | discriminate].
    - rewrite IH. split; intros (x & Hx); exists x.
      + now right.
      + destruct Hx as [Hx | Hx]; [discriminate | exact Hx]. }
  rewrite H. split; intros (x & Hx); exists x.
  - now apply in_rev.
  - now apply in_rev in Hx.
Qed.

(** A resampled row has a close exactly when a sample of its bucket has. *)
Lemma row_has_close_iff (ny : Z -> Z) (data : DataFrame) (lo : Z) (r : Row) :
  In (lo, r) (rows (bars ny data)) ->
  (has_close (lo, r) = true <->
   exists s, In s (bucket ny data lo) /\ has_close s = true).
Proof.
  intros Hin. apply bars_row in Hin. subst r.
  unfold has_close. cbn [snd]. unfold agg. cbn [Close].
  assert (forall x, negb (isna x) = true <-> x <> None) as Hn
    by (intros [x |]; cbn; split; congruence).
  rewrite Hn, last_valid_some_iff. split.
  - intros (x & Hx). apply in_map_iff in Hx. destruct Hx as (row & Hr & Hx).
    apply in_map_iff in Hx. destruct Hx as (s & <- & Hs).
    exists s. split; [exact Hs |]. apply Hn. congruence.
  - intros (s & Hs & Hc). apply Hn in Hc.
    destruct (Close (snd s)) as [x |] eqn:E; [| congruence].
    exists x. rewrite <- E. apply in_map, in_map, Hs.
Qed.

Lemma bucket_In (ny : Z -> Z) (data : DataFrame) (lo : Z) (s : Z * Row) :
  In s (bucket ny data lo) <->
  In s (rows data) /\ in_window ny s = true /\ lo <= fst s < lo + five_minutes.
Proof.
  unfold bucket, contributing. rewrite sort_index_In, !filter_In.
  unfold in_bin. bool_to_prop. tauto.
Qed.

(** X5: in a session, every sample within market hours that has a close
    falls in exactly one of the bars, and every bar contains at least one
    such sample: no bar is made of nothing, and no priced sample is lost. *)
Theorem X5_bars_cover_the_priced_samples (ny : Z -> Z) (data : DataFrame) :
  (forall s, In s (rows data) -> in_window ny s = true -> has_close s = true ->
     exists t, In t (times (session_points ny data)) /\
               t <= fst s < t + five_minutes /\
               forall t', In t' (times (session_points ny data)) ->
                          t' <= fst s < t' + five_minutes -> t' = t) /\
  (forall t, In t (times (session_points ny data)) ->
     exists s, In s (rows data) /\ in_window ny s = true /\
               has_close s = true /\ t <= fst s < t + five_minutes).
Proof.
  destruct (bars_rows_form ny data) as (e & n & Hrows & Hcover & _).
  assert (forall t, In t (times (session_points ny data)) <->
                    exists r, In (t, r) (rows (bars ny data)) /\
                              has_close (t, r) = true) as Htimes.
  { intros t. unfold session_points. rewrite times_points, in_map_iff.
    split.
    - intros ([t' r] & <- & H). apply filter_In in H. now exists r.
    - intros (r & H1 & H2). exists (t, r). split; [reflexivity |].
      now apply filter_In. }
  assert (forall t, In t (times (session_points ny data)) ->
                    exists k, t = e + five_minutes * Z.of_nat k) as Hlabel.
  { intros t Ht. apply Htimes in Ht. destruct Ht as (r & Hin & _).
    rewrite Hrows in Hin. apply in_map_iff in Hin.
    destruct Hin as (k & [= <- _] & _). now exists k. }
  split.
  - intros s Hs Hw Hc.
    assert (In s (filter (in_window ny) (rows data))) as HsW
      by (now apply filter_In).
    specialize (Hcover s HsW).
    set (k := Z.to_nat ((fst s - e) / five_minutes)).
    assert (0 <= (fst s - e) / five_minutes) as Hq
      by (apply Z.div_pos; [lia | reflexivity]).
    assert (five_minutes * ((fst s - e) / five_minutes) <= fst s - e)
      as Hlo by (apply Z.mul_div_le; reflexivity).
    assert (fst s - e < five_minutes * Z.succ ((fst s - e) / five_minutes))
      as Hhi by (apply Z.mul_succ_div_gt; reflexivity).
    assert (Z.of_nat k = (fst s - e) / five_minutes) as Hk
      by (unfold k; now rewrite Z2Nat.id).
    assert ((k < n)%nat) as Hkn.
    { apply Nat2Z.inj_lt. rewrite Hk. unfold five_minutes in *. nia. }
    set (t := e + five_minutes * Z.of_nat k).
    assert (t <= fst s < t + five_minutes) as Hrange
      by (unfold t; rewrite Hk; unfold five_minutes in *; lia).
    exists t. split; [| split; [exact Hrange |]].
    + apply Htimes. exists (agg (map snd (bucket ny data t))).
      assert (In (t, agg (map snd (bucket ny data t))) (rows (bars ny data)))
        as Hin.
      { rewrite Hrows. apply in_map_iff. exists k. split; [reflexivity |].
        apply in_seq. lia. }
      split; [exact Hin |].
      apply (row_has_close_iff ny data t _ Hin). exists s.
      split; [| exact Hc]. apply bucket_In. tauto.
    + intros t' Ht' Hr'. destruct (Hlabel t' Ht') as (k' & ->).
      unfold t in *. unfold five_minutes in *.
      assert (Z.of_nat k' = Z.of_nat k) by lia. congruence.
  - intros t Ht. apply Htimes in Ht. destruct Ht as (r & Hin & Hc).
    apply (row_has_close_iff ny data t r Hin) in Hc.
    destruct Hc as (s & Hs & Hc). apply bucket_In in Hs.
    exists s. tauto.
Qed.

(** In Tuesday's sparse session the price of 09:31 is in the bar of 09:30. *)
Lemma X5_witness :
  exists t, In t (times (session_points ny_utcoffset_us tuesday_sparse)) /\
            t <= est 2024 1 9 9 31 < t + five_minutes.
Proof.
  destruct (proj1 (X5_bars_cover_the_priced_samples ny_utcoffset_us
                     tuesday_sparse)
              (tick (est 2024 1 9 9 31) 101 10))
    as (t & Ht & Hr & _).
  - left. reflexivity.
  - reflexivity.
  - reflexivity.
  - exists t. split; [exact Ht | exact Hr].
Defined.

(** ** Volume *)

Lemma total_app (l1 l2 : list Z) : total (l1 ++ l2) = total l1 + total l2.
Proof.
  unfold total. induction l1 as [| x l1 IH]; cbn [app fold_right]; lia.
Qed.

Lemma total_map_add {A} (f g : A -> Z) (l : list A) :
  total (map (fun x => f x + g x) l) = total (map f l) + total (map g l).
Proof.
  unfold total. induction l as [| x l IH]; cbn [map fold_right]; lia.
Qed.

Lemma total_map_zero {A} (f : A -> Z) (l : list A) :
  (forall x, In x l -> f x = 0) -> total (map f l) = 0.
Proof.
  unfold total. induction l as [| x l IH]; intros H; cbn [map fold_right];
    [reflexivity |].
  rewrite (H x) by now left. rewrite IH; [reflexivity |].
  intros y Hy. apply H. now right.
Qed.

Lemma total_map_filter {A} (f : A -> Z) (p : A -> bool) (l : list A) :
  (forall x, In x l -> p x = false -> f x = 0) ->
  total (map f (filter p l)) = total (map f l).
Proof.
  unfold total. induction l as [| x l IH]; intros H; cbn [filter map fold_right];
    [reflexivity |].
  assert (fold_right Z.add 0 (map f (filter p l))
          = fold_right Z.add 0 (map f l)) as IH'
    by (apply IH; intros y Hy; apply H; now right).
  destruct (p x) eqn:E; cbn [map fold_right]; rewrite IH'; [reflexivity |].
  rewrite (H x); [reflexivity | now left | exact E].
Qed.

(** A timestamp within the run of bins is in exactly one of them. *)
Lemma one_bin (e v : Z) (s : Z * Row) (n : nat) :
  e <= fst s < e + five_minutes * Z.of_nat n ->
  total (map (fun k => if in_bin (e + five_minutes * Z.of_nat k) s then v else 0)
             (seq 0 n)) = v.
Proof.
  induction n as [| n IH]; [cbn; lia |].
  intros Hr. rewrite seq_S, map_app, total_app. cbn [map Nat.add].
  unfold total at 2. cbn [fold_right].
  destruct (Z_lt_dec (fst s) (e + five_minutes * Z.of_nat n)) as [Hlt | Hge].
  - rewrite IH by lia.
    assert (in_bin (e + five_minutes * Z.of_nat n) s = false) as ->
      by (unfold in_bin; bool_to_prop; lia).
    lia.
  - rewrite total_map_zero.
    + assert (in_bin (e + five_minutes * Z.of_nat n) s = true) as ->
        by (unfold in_bin, five_minutes in *; bool_to_prop; lia).
      lia.
    + intros k Hk. apply in_seq in Hk.
      assert (in_bin (e + five_minutes * Z.of_nat k) s = false) as ->
        by (unfold in_bin, five_minutes in *; bool_to_prop; nia).
      reflexivity.
Qed.

Lemma volume_of_cons (s : Z * Row) (l : list (Z * Row)) :
  volume_of (s :: l)
  = match Volume (snd s) with Some v => v | None => 0 end + volume_of l.
Proof.
  unfold volume_of, sum_valid. cbn [map fold_right].
  destruct (Volume (snd s)); lia.
Qed.

(** The bins share out the volume of the samples. *)
Lemma bins_share_volume (e : Z) (n : nat) (W : list (Z * Row)) :
  (forall s, In s W -> e <= fst s < e + five_minutes * Z.of_nat n) ->
  total (map (fun k => volume_of (filter (in_bin (e + five_minutes * Z.of_nat k)) W))
             (seq 0 n))
  = volume_of W.
Proof.
  induction W as [| s W IH]; intros Hr.
  - cbn [filter]. apply total_map_zero. reflexivity.
  - rewrite volume_of_cons, <- IH by (intros; apply Hr; now right).
    rewrite <- (one_bin e (match Volume (snd s) with Some v => v | None => 0 end)
                  s n) at 1 by (apply Hr; now left).
    rewrite <- total_map_add. f_equal. apply map_ext. intros k.
    cbn [filter]. destruct (in_bin _ s); [apply volume_of_cons | lia].
Qed.

Lemma point_volume_point (s : Z * Row) :
  point_volume (point s)
  = match Volume (snd s) with Some v => v | None => 0 end.
Proof. reflexivity. Qed.

Lemma sum_valid_nonneg (l : list (option Z)) :
  (forall v, In (Some v) l -> 0 <= v) -> 0 <= sum_valid l.
Proof.
  induction l as [| a l IH]; intros H; [cbn; lia |].
  assert (0 <= sum_valid l) as Hl by (apply IH; intros v Hv; apply H; now right).
  change (sum_valid (a :: l))
    with (match a with Some x => x + sum_valid l | None => sum_valid l end).
  destruct a as [x |]; [| exact Hl].
  assert (0 <= x) by (apply H; now left). lia.
Qed.

Lemma total_nonneg (l : list Z) :
  (forall y, In y l -> 0 <= y) -> 0 <= total l.
Proof.
  induction l as [| a l IH]; intros H; [cbn; lia |].
  assert (0 <= a) by (apply H; now left).
  assert (0 <= total l) by (apply IH; intros y Hy; apply H; now right).
  change (total (a :: l)) with (a + total l). lia.
Qed.

Lemma total_bounds (l : list Z) (x : Z) :
  (forall y, In y l -> 0 <= y) -> In x l -> x <= total l.
Proof.
  induction l as [| a l IH]; intros H; [intros [] |].
  assert (0 <= total l) as Hl
    by (apply total_nonneg; intros y Hy; apply H; now right).
  assert (0 <= a) by (apply H; now left).
  change (total (a :: l)) with (a + total l).
  intros [<- | Hx]; [lia |].
  assert (x <= total l)
    by (apply IH; [intros y Hy; apply H; now right | exact Hx]).
  lia.
Qed.

(** X6: take a session in which every sample within market hours has a
    close, no sample within market hours has a negative volume, and the
    volumes of those samples add up to less than 2^53.  Then the volumes of
    the bars add up to the volume of those samples: no volume is lost or
    counted twice (a missing volume counts for nothing).  The volume of
    every bar lies between 0 and 2^53, the range in which neither the sums
    of 64-bit integers nor the passage of the volume through a
    floating-point number changes a value. *)
Theorem X6_volume_is_conserved (ny : Z -> Z) (data : DataFrame) :
  (forall s, In s (rows data) -> in_window ny s = true -> has_close s = true) ->
  (forall s v, In s (rows data) -> in_window ny s = true ->
               Volume (snd s) = Some v -> 0 <= v) ->
  volume_of (filter (in_window ny) (rows data)) < 2 ^ 53 ->
  total (map point_volume (session_points ny data))
  = volume_of (filter (in_window ny) (rows data)) /\
  forall j, In j (session_points ny data) -> 0 <= point_volume j < 2 ^ 53.
Proof.
  intros Hall Hpos Hsmall.
  assert (total (map point_volume (session_points ny data))
          = volume_of (filter (in_window ny) (rows data))) as Htotal.
  { destruct (bars_rows_form ny data) as (e & n & Hrows & Hcover & _).
    unfold session_points. rewrite map_map.
    rewrite (map_ext _ (fun s => match Volume (snd s) with
                                 | Some v => v
                                 | None => 0
                                 end) point_volume_point).
    rewrite total_map_filter.
    - rewrite Hrows, map_map. cbn [snd agg Volume].
      rewrite <- (bins_share_volume e n _ Hcover). f_equal. apply map_ext.
      intros k. unfold bucket, volume_of. apply sum_valid_sort_index.
    - intros [lo r] Hin Hc. cbn [snd].
      assert (bucket ny data lo = []) as Hb.
      { destruct (bucket ny data lo) as [| s b] eqn:E; [reflexivity |].
        exfalso.
        assert (has_close (lo, r) = true) as Hc'.
        { apply (row_has_close_iff ny data lo r Hin). exists s.
          assert (In s (bucket ny data lo)) as Hs by (rewrite E; now left).
          split; [exact Hs |]. apply bucket_In in Hs. apply Hall; tauto. }
        congruence. }
      apply bars_row in Hin. rewrite Hin, Hb. reflexivity. }
  split; [exact Htotal |].
  assert (forall j, In j (session_points ny data) -> 0 <= point_volume j) as H0.
  { intros j Hj. unfold session_points in Hj. apply in_map_iff in Hj.
    destruct Hj as ([lo r] & <- & Hin). apply filter_In in Hin.
    destruct Hin as [Hin _]. rewrite point_volume_point. cbn [snd].
    apply bars_row in Hin. rewrite Hin. cbn [agg Volume].
    apply sum_valid_nonneg. intros v Hv. apply in_map_iff in Hv.
    destruct Hv as (r' & Hr' & Hv). apply in_map_iff in Hv.
    destruct Hv as (s & <- & Hs). apply bucket_In in Hs.
    destruct Hs as (Hs1 & Hs2 & _). exact (Hpos s v Hs1 Hs2 Hr'). }
  intros j Hj. split; [now apply H0 |].
  assert (point_volume j <= total (map point_volume (session_points ny data))).
  { apply total_bounds; [| now apply in_map].
    intros y Hy. apply in_map_iff in Hy. destruct Hy as (j' & <- & Hj').
    now apply H0. }
  lia.
Qed.

(** The three bars of a session carry the volumes 1, 2 and 3. *)
Lemma X6_witness :
  total (map point_volume (session_points ny_utcoffset_us (three_bars 2024 1 9)))
  = 6.
Proof.
  rewrite (proj1 (X6_volume_is_conserved ny_utcoffset_us (three_bars 2024 1 9)
                    ltac:(intros s [<- | [<- | [<- | []]]] _; reflexivity)
                    ltac:(intros s v [<- | [<- | [<- | []]]] _ [= <-]; lia)
                    ltac:(vm_compute; reflexivity))).
  reflexivity.
Defined.

(** ** Prices *)

Lemma max_valid_ge (l : list (option Z)) (x : Z) :
  In (Some x) l -> exists m, max_valid l = Some m /\ x <= m.
Proof.
  unfold max_valid. induction l as [| y l IH]; [intros [] |].
  intros [-> | Hx]; cbn [fold_right].
  - destruct (fold_right (opt_merge Z.max) None l) as [m |]; cbn.
    + exists (Z.max x m). split; [reflexivity | lia].
    + exists x. split; [reflexivity | lia].
  - destruct (IH Hx) as (m & -> & Hm). destruct y as [y |]; cbn.
    + exists (Z.max y m). split; [reflexivity | lia].
    + exists m. split; [reflexivity | lia].
Qed.

Lemma min_valid_le (l : list (option Z)) (x : Z) :
  In (Some x) l -> exists m, min_valid l = Some m /\ m <= x.
Proof.
  unfold min_valid. induction l as [| y l IH]; [intros [] |].
  intros [-> | Hx]; cbn [fold_right].
  - destruct (fold_right (opt_merge Z.min) None l) as [m |]; cbn.
    + exists (Z.min x m). split; [reflexivity | lia].
    + exists x. split; [reflexivity | lia].
  - destruct (IH Hx) as (m & -> & Hm). destruct y as [y |]; cbn.
    + exists (Z.min y m). split; [reflexivity | lia].
    + exists m. split; [reflexivity | lia].
Qed.

(** The reduction of a group of rows with ordered prices has ordered
    prices. *)
Lemma agg_ordered (g : list Row) :
  g <> [] -> (forall r, In r g -> ordered_prices r) -> ordered_prices (agg g).
Proof.
  intros Hne Hall.
  destruct g as [| first g']; [congruence |].
  destruct (@exists_last _ (first :: g')) as (g'' & last & Eg); [discriminate |].
  destruct (Hall first (or_introl eq_refl))
    as (o & h & l & c & Ho & Hh & Hl & Hc & Hoh & Hch).
  assert (In last (first :: g')) as Hlast
    by (rewrite Eg; apply in_or_app; right; now left).
  destruct (Hall last Hlast)
    as (o' & h' & l' & c' & Ho' & Hh' & Hl' & Hc' & Hoh' & Hch').
  destruct (max_valid_ge (map High (first :: g')) h) as (H1 & EH1 & HH1);
    [rewrite <- Hh; apply in_map; now left |].
  destruct (max_valid_ge (map High (first :: g')) h') as (H2 & EH2 & HH2);
    [rewrite <- Hh'; now apply in_map |].
  destruct (min_valid_le (map Low (first :: g')) l) as (L1 & EL1 & HL1);
    [rewrite <- Hl; apply in_map; now left |].
  destruct (min_valid_le (map Low (first :: g')) l') as (L2 & EL2 & HL2);
    [rewrite <- Hl'; now apply in_map |].
  assert (H2 = H1) as -> by congruence. assert (L2 = L1) as -> by congruence.
  exists o, H1, L1, c'. unfold agg. cbn [Open High Low Close].
  split; [cbn [map first_valid]; now rewrite Ho |].
  split; [exact EH1 |]. split; [exact EL1 |].
  split; [| lia].
  unfold last_valid. rewrite Eg, map_app, rev_app_distr. cbn [map rev app].
  now rewrite Hc'.
Qed.

(** X7: when the samples within market hours have their four prices, with
    the low at most the open and the close and these at most the high, so
    has every bar of the session. *)
Theorem X7_bars_keep_prices_ordered (ny : Z -> Z) (data : DataFrame) :
  (forall s, In s (rows data) -> in_window ny s = true ->
             ordered_prices (snd s)) ->
  forall j, In j (session_points ny data) -> ordered_point j.
Proof.
  intros Hall j Hj. unfold session_points in Hj. apply in_map_iff in Hj.
  destruct Hj as ([lo r] & <- & Hin). apply filter_In in Hin.
  destruct Hin as [Hin Hc].
  apply (row_has_close_iff ny data lo r Hin) in Hc.
  destruct Hc as (s & Hs & _).
  apply bars_row in Hin. subst r.
  assert (ordered_prices (agg (map snd (bucket ny data lo)))) as Hord.
  { apply agg_ordered.
    - intros E. apply (in_map snd) in Hs. rewrite E in Hs. destruct Hs.
    - intros r Hr. apply in_map_iff in Hr. destruct Hr as (s' & <- & Hs').
      apply bucket_In in Hs'. apply Hall; tauto. }
  destruct Hord as (o & h & l & c & Ho & Hh & Hl & Hc & Hoh & Hch).
  exists o, h, l, c. unfold point. cbn [field assoc String.eqb Ascii.eqb Bool.eqb snd fst].
  rewrite Ho, Hh, Hl, Hc. repeat split; lia.
Qed.

(** The bar of the scenario: 101, 102, 101, 102. *)
Lemma X7_witness :
  ordered_point
    (point (est 2024 1 10 9 30,
            {| Open := Some 101; High := Some 102; Low := Some 101;
               Close := Some 102; Volume := Some 15 |})).
Proof.
  apply (X7_bars_keep_prices_ordered ny_utcoffset_us scenario).
  - intros s [<- | [<- | [<- | [<- | []]]]] _; cbn [snd tick];
      eexists _, _, _, _; cbn; repeat split; lia.
  - vm_compute. left. reflexivity.
Defined.

(** ** Where the bars start *)

Lemma times_session_points_iff (ny : Z -> Z) (data : DataFrame) (t : Z) :
  In t (times (session_points ny data)) <->
  exists r, In (t, r) (rows (bars ny data)) /\ has_close (t, r) = true.
Proof.
  unfold session_points. rewrite times_points, in_map_iff. split.
  - intros ([t' r] & <- & H). apply filter_In in H. now exists r.
  - intros (r & H1 & H2). exists (t, r). split; [reflexivity |].
    now apply filter_In.
Qed.

Lemma bar_has_sample (ny : Z -> Z) (data : DataFrame) (t : Z) :
  In t (times (session_points ny data)) ->
  exists s, In s (rows data) /\ in_window ny s = true /\
            has_close s = true /\ t <= fst s < t + five_minutes.
Proof.
  intros Ht. apply times_session_points_iff in Ht.
  destruct Ht as (r & Hin & Hc).
  apply (row_has_close_iff ny data t r Hin) in Hc.
  destruct Hc as (s & Hs & Hc). apply bucket_In in Hs. exists s. tauto.
Qed.

Lemma bar_label (ny : Z -> Z) (data : DataFrame) (t : Z) :
  In t (times (session_points ny data)) ->
  exists first k,
    In first (rows data) /\ in_window ny first = true /\
    t = fst first - (fst first + ny (fst first)) mod five_minutes
        + five_minutes * Z.of_nat k.
Proof.
  intros Ht. destruct (bar_has_sample ny data t Ht) as (s & Hs & Hw & _).
  assert (In s (sort_index (filter (in_window ny) (rows data)))) as HsW
    by (apply sort_index_In, filter_In; tauto).
  destruct (bars_rows_form ny data) as (e & n & Hrows & _ & He).
  destruct (sort_index (filter (in_window ny) (rows data))) as [| first l] eqn:E;
    [destruct HsW |].
  apply times_session_points_iff in Ht. destruct Ht as (r & Hin & _).
  rewrite Hrows in Hin. apply in_map_iff in Hin.
  destruct Hin as (k & Hk & _). apply (f_equal fst) in Hk. cbn [fst] in Hk.
  exists first, k.
  assert (In first (filter (in_window ny) (rows data))) as Hf
    by (apply sort_index_In; rewrite E; now left).
  apply filter_In in Hf. destruct Hf as [Hf1 Hf2].
  rewrite <- (He first l eq_refl). repeat split; try assumption. now symmetry.
Qed.

(** X8: when the offsets of the zone are multiples of five minutes and do
    not change within the five minutes before a sample, every bar of a
    session starts on a five-minute mark of the New York clock, between
    09:30 and 16:00. *)
Theorem X8_bars_start_on_the_grid (ny : Z -> Z) (data : DataFrame) :
  (forall t, ny t mod five_minutes = 0) ->
  (forall s t, In s (rows data) -> in_window ny s = true ->
               t <= fst s < t + five_minutes -> ny t = ny (fst s)) ->
  forall t, In t (times (session_points ny data)) ->
    (t + ny t) mod five_minutes = 0 /\
    t0930 <= (t + ny t) mod 86400 <= t1600.
Proof.
  intros Hgrid Hstable t Ht.
  destruct (bar_label ny data t Ht) as (first & k & _ & _ & Hk).
  destruct (bar_has_sample ny data t Ht) as (s & Hs & Hw & _ & Hr).
  assert ((t + ny t) mod five_minutes = 0) as Hmark.
  { pose proof (Hgrid t) as H1. pose proof (Hgrid (fst first)) as H2.
    rewrite Hk in *. unfold five_minutes in *.
    set (a := fst first) in *. set (b := ny a) in *.
    set (c := ny (a - (a + b) mod 300 + 300 * Z.of_nat k)) in *.
    clearbody a b c. clear - H1 H2.
    Z.div_mod_to_equations. lia. }
  split; [exact Hmark |].
  specialize (Hstable s t Hs Hw Hr).
  unfold in_window in Hw. bool_to_prop. rewrite <- Hstable in Hw.
  unfold five_minutes, t0930, t1600 in *.
  set (L := t + ny t) in *. set (S := fst s + ny t) in *.
  assert (0 <= S - L < 300) as Hd by (unfold S, L; lia).
  clearbody L S. clear - Hmark Hw Hd.
  Z.div_mod_to_equations. lia.
Qed.

(** With New York five hours behind UTC, the bar of 09:35. *)
Lemma X8_witness :
  (est 2024 1 9 9 35 + -18000) mod five_minutes = 0 /\
  t0930 <= (est 2024 1 9 9 35 + -18000) mod 86400 <= t1600.
Proof.
  apply (X8_bars_start_on_the_grid (fun _ => -18000) (three_bars 2024 1 9)).
  - intros t. reflexivity.
  - intros s t _ _ _. reflexivity.
  - vm_compute. right. left. reflexivity.
Defined.

(** ** The other periods *)

Lemma mapR_raises {A B} (f : A -> result B) (l : list A) :
  (exists x e, In x l /\ f x = Raise e) -> exists e, mapR f l = Raise e.
Proof.
  induction l as [| y l IH]; intros (x & e & Hx & Hf); [destruct Hx |].
  cbn [mapR]. destruct (f y) as [b | e'] eqn:E; cbn [bindR]; [| now exists e'].
  destruct Hx as [-> | Hx]; [congruence |].
  destruct IH as (e'' & ->); [now exists x, e |]. now exists e''.
Qed.

(** X9: for a period other than "1d" the provider's rows are passed on
    without resampling and without the market-hours filter: when the index
    has a zone and the rows that have a close have a volume, the data list
    is made of exactly those rows, in the provider's order.  When the index
    has no zone, a row with a close makes the request fail with status 500
    (the naive index is localised in the "1d" branch only), and so does, with
    any index, a row that has a close and no volume; without any row that
    has a close the answer is 404. *)
Theorem X9_other_periods_pass_through
  (ny : Z -> Z) (history : Query -> result DataFrame) (now : datetime)
  (args : Args) (data : DataFrame) :
  ticker_of args <> EmptyString ->
  get (arg_period args) "1d" <> "1d"%string ->
  history (period_query (ticker_of args) (get (arg_period args) "1d")) = Ok data ->
  let priced := filter has_close (rows data) in
  let code := fst (snd (get_stock_graph ny history now args)) in
  (index_tz data <> None ->
   (forall s, In s priced -> Volume (snd s) <> None) ->
   graph_data ny history (ticker_of args) (get (arg_period args) "1d") now []
   = ([period_query (ticker_of args) (get (arg_period args) "1d")],
      Ok (map point priced))) /\
  (index_tz data = None -> priced <> [] -> code = 500) /\
  ((exists s, In s priced /\ Volume (snd s) = None) -> code = 500) /\
  (priced = [] -> code = 404).
Proof.
  intros Ht Hp Hd priced code. subst code.
  rewrite (get_stock_graph_cases ny history now args Ht). cbv zeta.
  rewrite (graph_data_other ny history _ _ now Hp), other_period_cases, Hd.
  unfold graph_points. fold priced.
  split; [| split; [| split]].
  - intros Hz Hv. destruct (index_tz data) as [z |]; [| congruence].
    now rewrite mapR_to_point.
  - intros Hz Hne. rewrite Hz.
    destruct (mapR_raises (to_point None) priced) as (e & ->); [| reflexivity].
    destruct priced as [| s l]; [congruence |].
    exists s. eexists. split; [now left | reflexivity].
  - intros (s & Hs & Hv).
    destruct (mapR_raises (to_point (index_tz data)) priced) as (e & ->);
      [| reflexivity].
    exists s. unfold to_point. rewrite Hv.
    destruct (index_tz data); eexists; (split; [exact Hs | reflexivity]).
  - intros ->. reflexivity.
Qed.

(** Two hourly rows returned latest first come out latest first, and the
    same rows on a naive index give a 500. *)
Lemma X9_witness :
  let args := {| arg_ticker := Some "aapl"%string;
                 arg_period := Some "7d"%string |} in
  graph_data ny_utcoffset_us (fun _ => Ok latest_first) "AAPL" "7d"
    (at_time tuesday 10 0) []
  = ([HistoryPeriod "AAPL" "7d" "1h" false], Ok (map point (rows latest_first)))
  /\
  fst (snd (get_stock_graph ny_utcoffset_us
              (fun _ => Ok {| index_tz := None; rows := rows latest_first |})
              (at_time tuesday 10 0) args)) = 500.
Proof.
  intros args.
  assert (ticker_of args <> EmptyString) as Ht by (vm_compute; discriminate).
  assert (get (arg_period args) "1d" <> "1d"%string) as Hp
    by (vm_compute; discriminate).
  split.
  - refine (proj1 (X9_other_periods_pass_through ny_utcoffset_us
                     (fun _ => Ok latest_first) (at_time tuesday 10 0) args
                     latest_first Ht Hp eq_refl) _ _).
    + discriminate.
    + intros s [<- | [<- | []]]; discriminate.
  - refine (proj1 (proj2 (X9_other_periods_pass_through ny_utcoffset_us
                     (fun _ => Ok {| index_tz := None; rows := rows latest_first |})
                     (at_time tuesday 10 0) args
                     {| index_tz := None; rows := rows latest_first |}
                     Ht Hp eq_refl)) eq_refl _).
    discriminate.
Defined.

(** ** The handler [get_stock] *)

(** X10: [/stock] with a ticker first asks for one day of one-minute
    samples, pre- and post-market included, and looks up the company
    information exactly when that history has rows.  The status is 404
    exactly when the history is empty, every exception (of the provider or
    of the formatting) is answered with status 500 and one fixed body that
    does not show the exception, and a 200 answer is the quote of the last
    row. *)
Theorem X10_get_stock
  (history : Query -> result DataFrame) (info : string -> result (option Z))
  (quote : string -> Row -> option Z -> result json) (args : Args) :
  ticker_of args <> EmptyString ->
  let ticker := ticker_of args in
  let q := HistoryPeriod ticker "1d" "1m" true in
  let calls := fst (get_stock history info quote args) in
  let code := fst (snd (get_stock history info quote args)) in
  let body := snd (snd (get_stock history info quote args)) in
  (calls = [q] \/ calls = [q; Info ticker]) /\
  (In (Info ticker) calls <-> exists hist, history q = Ok hist /\ rows hist <> []) /\
  (code = 200 \/ code = 404 \/ code = 500) /\
  (code = 404 <-> exists hist, history q = Ok hist /\ rows hist = []) /\
  (code = 500 -> body = JDict [("error", JStr "Failed to process stock data")]%string) /\
  (code = 200 ->
   exists hist l current prev_close,
     history q = Ok hist /\ rows hist = l ++ [current] /\
     info ticker = Ok prev_close /\
     quote ticker (snd current) prev_close = Ok body).
Proof.
  intros Ht ticker q. cbv zeta.
  unfold get_stock, stock_body, bind, fetch, fetch_info, lift, ret.
  rewrite (is_empty_false _ Ht). fold ticker. cbn [app]. fold q.
  assert (Info ticker <> q) as Hq by discriminate.
  destruct (history q) as [hist | e].
  - destruct (rows hist) as [| s0 l0] eqn:Er.
    + cbn [rev fst snd]. repeat split; try tauto; try discriminate.
      * intros [H | []]. congruence.
      * intros (hist' & [= <-] & H). congruence.
      * intros _. now exists hist.
    + destruct (@exists_last _ (s0 :: l0)) as (l & current & El); [discriminate |].
      rewrite El, rev_app_distr. cbn [rev app].
      assert (exists hist', Ok hist = Ok hist' /\ rows hist' <> []) as Hex
        by (exists hist; split; [reflexivity | rewrite Er; discriminate]).
      assert (~ exists hist', Ok hist = Ok hist' /\ rows hist' = []) as Hnex
        by (intros (hist' & [= <-] & H); congruence).
      destruct (info ticker) as [pc | e]; cbn [fst snd].
      * destruct (quote ticker (snd current) pc) as [body | e] eqn:Eq;
          cbn [fst snd]; repeat split; try tauto; try discriminate;
          try (intros _; exact Hex); try (intros _; right; now left);
          try (intros H; exfalso; now apply Hnex).
        intros _. exists hist, l, current, pc. rewrite Er. tauto.
      * repeat split; try tauto; try discriminate;
          try (intros _; exact Hex); try (intros _; right; now left);
          try (intros H; exfalso; now apply Hnex).
  - cbn [fst snd]. repeat split; try tauto; try discriminate.
    + intros [H | []]. congruence.
    + intros (hist & H & _). discriminate.
    + intros (hist & H & _). discriminate.
Qed.

(** A provider out of reach: one query and the fixed 500 body. *)
Lemma X10_witness :
  snd (snd (get_stock unreachable (fun _ => Ok None) (fun _ _ _ => Ok (JDict []))
              aapl))
  = JDict [("error", JStr "Failed to process stock data")]%string.
Proof.
  assert (ticker_of aapl <> EmptyString) as Ht by (vm_compute; discriminate).
  exact (proj1 (proj2 (proj2 (proj2 (proj2
           (X10_get_stock unreachable (fun _ => Ok None)
              (fun _ _ _ => Ok (JDict [])) aapl Ht))))) eq_refl).
Defined.

(** ** Risk *)

Lemma prefix_app (a b : string) : String.prefix a (a ++ b) = true.
Proof.
  induction a as [| c a IH]; cbn.
  - destruct b; reflexivity.
  - destruct (ascii_dec c c) as [_ | H]; [exact IH | congruence].
Qed.

Lemma length_app (a b : string) :
  String.length (a ++ b) = (String.length a + String.length b)%nat.
Proof. induction a as [| c a IH]; cbn; [reflexivity | now rewrite IH]. Qed.

Lemma append_inj (a b c : string) : (a ++ b = a ++ c)%string -> b = c.
Proof. induction a as [| x a IH]; cbn; [trivial | intros [= H]; auto]. Qed.

Lemma description_is_not_the_default (ticker suffix : string) :
  (28 < String.length suffix)%nat ->
  (ticker ++ suffix)%string <> "Risk assessment unavailable."%string.
Proof.
  intros Hs E. apply (f_equal String.length) in E.
  rewrite length_app in E. cbn in E. lia.
Qed.

Lemma known_level_description (level ticker : string) :
  level = "low"%string \/ level = "medium"%string \/ level = "high"%string ->
  String.prefix ticker (get_risk_description level ticker) = true /\
  get_risk_description level ticker <> "Risk assessment unavailable."%string.
Proof.
  intros [-> | [-> | ->]]; (split; [apply prefix_app |]);
    apply description_is_not_the_default; cbn; lia.
Qed.

(** X11: [get_risk_description] gives its default text exactly for a level
    other than "low", "medium" and "high"; the three descriptions begin with
    the ticker and, for one ticker, differ from each other. *)
Theorem X11_risk_descriptions (level ticker : string) :
  (get_risk_description level ticker = "Risk assessment unavailable."%string <->
   level <> "low"%string /\ level <> "medium"%string /\ level <> "high"%string) /\
  (level = "low"%string \/ level = "medium"%string \/ level = "high"%string ->
   String.prefix ticker (get_risk_description level ticker) = true) /\
  get_risk_description "low" ticker <> get_risk_description "medium" ticker /\
  get_risk_description "low" ticker <> get_risk_description "high" ticker /\
  get_risk_description "medium" ticker <> get_risk_description "high" ticker.
Proof.
  pose proof (description_is_not_the_default ticker) as Hlen.
  split; [| split; [| repeat split]].
  - unfold get_risk_description.
    destruct (String.eqb_spec level "low") as [-> | H1].
    { split; [intros E; exfalso; revert E; apply Hlen; cbn; lia | tauto]. }
    destruct (String.eqb_spec level "medium") as [-> | H2].
    { split; [intros E; exfalso; revert E; apply Hlen; cbn; lia | tauto]. }
    destruct (String.eqb_spec level "high") as [-> | H3].
    { split; [intros E; exfalso; revert E; apply Hlen; cbn; lia | tauto]. }
    tauto.
  - intros [-> | [-> | ->]]; apply prefix_app.
  - intros E. apply append_inj in E. discriminate E.
  - intros E. apply append_inj in E. discriminate E.
  - intros E. apply append_inj in E. discriminate E.
Qed.

(** The level "extreme" has no description. *)
Lemma X11_witness :
  get_risk_description "extreme" "AAPL" = "Risk assessment unavailable."%string.
Proof.
  apply (proj1 (X11_risk_descriptions "extreme" "AAPL")).
  repeat split; discriminate.
Defined.

Lemma risk_level_cases
  (float64 : Type) (np_std np_mean : list (option Z) -> float64)
  (mul : float64 -> float64 -> float64) (lt : float64 -> float64 -> bool)
  (c_0_02 c_0_05 : float64) (closing_prices : list (option Z)) :
  let level := risk_level float64 np_std np_mean mul lt c_0_02 c_0_05
                 closing_prices in
  level = "low"%string \/ level = "medium"%string \/ level = "high"%string.
Proof.
  unfold risk_level. cbv zeta.
  destruct (lt (np_std closing_prices) (mul c_0_02 (np_mean closing_prices)));
    [tauto |].
  destruct (lt (np_std closing_prices) (mul c_0_05 (np_mean closing_prices)));
    tauto.
Qed.

(** X12: [/risk] answers a blank ticker like the other routes, without
    calling the provider.  Otherwise it asks once for one month of history;
    the status is 500 exactly when the provider raises (the body then shows
    the exception), 404 exactly for an empty history, 400 exactly for one to
    nine rows, and 200 exactly for ten rows or more, rows without a close
    included.  A 200 answer has a level "low", "medium" or "high" and the
    description of that level, which begins with the ticker and is never
    the default text. *)
Theorem X12_assess_risk
  (float64 : Type) (np_std np_mean : list (option Z) -> float64)
  (mul : float64 -> float64 -> float64) (lt : float64 -> float64 -> bool)
  (c_0_02 c_0_05 : float64) (round2 : float64 -> json)
  (history : Query -> result DataFrame) (args : Args) :
  let answer := assess_risk float64 np_std np_mean mul lt c_0_02 c_0_05 round2
                  history args in
  let ticker := ticker_of args in
  let q := HistoryPeriod ticker "1mo" "1d" false in
  let code := fst (snd answer) in
  let body := snd (snd answer) in
  (ticker = EmptyString -> answer = ([], no_ticker)) /\
  (ticker <> EmptyString ->
   fst answer = [q] /\
   (code = 500 <-> exists e, history q = Raise e) /\
   (forall e, history q = Raise e ->
      body = JDict [("error", JStr ("Failed to assess risk: " ++ e))]%string) /\
   (code = 404 <-> exists hist, history q = Ok hist /\ rows hist = []) /\
   (code = 400 <->
    exists hist, history q = Ok hist /\
                 (0 < List.length (rows hist) < 10)%nat) /\
   (code = 200 <->
    exists hist, history q = Ok hist /\ (10 <= List.length (rows hist))%nat) /\
   (code = 200 ->
    exists level,
      field "risk_level" body = Some (JStr level) /\
      (level = "low"%string \/ level = "medium"%string \/ level = "high"%string) /\
      field "description" body = Some (JStr (get_risk_description level ticker)) /\
      String.prefix ticker (get_risk_description level ticker) = true /\
      get_risk_description level ticker <> "Risk assessment unavailable."%string)).
Proof.
  cbv zeta. split.
  - intros He. unfold assess_risk. now rewrite He.
  - intros Ht. unfold assess_risk, risk_body, bind, fetch, ret.
    rewrite (is_empty_false _ Ht). cbn [app].
    set (q := HistoryPeriod (ticker_of args) "1mo" "1d" false).
    destruct (history q) as [hist | e].
    + unfold empty, len. destruct (rows hist) as [| s l] eqn:Er.
      * cbn [fst snd]. repeat split; try discriminate.
        -- intros (e & H). discriminate.
        -- intros _. now exists hist.
        -- intros (h & [= <-] & H). rewrite Er in H. cbn in H. lia.
        -- intros (h & [= <-] & H). rewrite Er in H. cbn in H. lia.
      * destruct (Z.of_nat (List.length (s :: l)) <? 10) eqn:El;
          [apply Z.ltb_lt in El | apply Z.ltb_ge in El]; cbn [fst snd].
        -- repeat split; try discriminate.
           ++ intros (e & H). discriminate.
           ++ intros (h & [= <-] & H). congruence.
           ++ intros _. exists hist. rewrite Er. split; [reflexivity |].
              cbn [List.length] in *. lia.
           ++ intros (h & [= <-] & H). rewrite Er in H. lia.
        -- repeat split; try discriminate.
           ++ intros (e & H). discriminate.
           ++ intros (h & [= <-] & H). congruence.
           ++ intros (h & [= <-] & H). rewrite Er in H. lia.
           ++ intros _. exists hist. rewrite Er. split; [reflexivity | lia].
           ++ intros _.
              pose proof (risk_level_cases float64 np_std np_mean mul lt
                            c_0_02 c_0_05
                            (map (fun s0 => Close (snd s0)) (s :: l))) as Hl.
              cbv zeta in Hl.
              set (level := risk_level float64 np_std np_mean mul lt c_0_02
                              c_0_05 (map (fun s0 => Close (snd s0)) (s :: l)))
                in *.
              exists level. split; [reflexivity |]. split; [exact Hl |].
              split; [reflexivity |].
              apply known_level_description, Hl.
    + cbn [fst snd]. repeat split; try discriminate.
      * intros _. now exists e.
      * intros e' [= <-]. reflexivity.
      * intros (h & H & _). discriminate.
      * intros (h & H & _). discriminate.
      * intros (h & H & _). discriminate.
Qed.

(** Nine rows are not enough. *)
Lemma X12_witness :
  let nine := frame (map (fun k => tick k 100 1) [1; 2; 3; 4; 5; 6; 7; 8; 9]) in
  fst (snd (assess_risk unit (fun _ => tt) (fun _ => tt) (fun _ _ => tt)
              (fun _ _ => true) tt tt (fun _ => JInt 0)
              (fun _ => Ok nine) aapl)) = 400.
Proof.
  intros nine.
  assert (ticker_of aapl <> EmptyString) as Ht by (vm_compute; discriminate).
  apply (proj1 (proj2 (proj2 (proj2 (proj2
           (proj2 (X12_assess_risk unit (fun _ => tt) (fun _ => tt)
                     (fun _ _ => tt) (fun _ _ => true) tt tt (fun _ => JInt 0)
                     (fun _ => Ok nine) aapl) Ht)))))).
  exists nine. split; [reflexivity | cbn; lia].
Defined.

(** ** The chatbot *)

Lemma starts_with_spec (p s : string) :
  PyText.starts_with p s = true <-> exists b, s = (p ++ b)%string.
Proof.
  revert s. induction p as [| a p IH]; intros s; cbn.
  - split; [intros _; now exists s | reflexivity].
  - destruct s as [| c s]; [split; [discriminate | intros (b & H); discriminate] |].
    rewrite Bool.andb_true_iff, IH. split.
    + intros (Ha & b & ->). apply Ascii.eqb_eq in Ha. subst. now exists b.
    + intros (b & [= -> ->]). split; [apply Ascii.eqb_refl | now exists b].
Qed.

(** [contains] is the test of occurrence. *)
Lemma contains_spec (p s : string) :
  PyText.contains p s = true <-> exists a b, s = (a ++ p ++ b)%string.
Proof.
  induction s as [| c s IH]; cbn [PyText.contains].
  - rewrite Bool.orb_false_r, starts_with_spec. split.
    + intros (b & H). now exists EmptyString, b.
    + intros ([| x a] & b & H); [now exists b | discriminate].
  - rewrite Bool.orb_true_iff, starts_with_spec, IH. split.
    + intros [(b & H) | (a & b & ->)].
      * now exists EmptyString, b.
      * now exists (String c a), b.
    + intros ([| x a] & b & H).
      * left. now exists b.
      * right. injection H as -> ->. now exists a, b.
Qed.

Lemma gemini_reply_spec
  (gemini : string -> result string) (calls : list Call) (user_query : string) :
  fst (gemini_reply gemini calls user_query)
    = calls ++ [AskGemini (gemini_prompt user_query)] /\
  from_gemini gemini user_query (snd (gemini_reply gemini calls user_query)).
Proof.
  unfold gemini_reply, from_gemini. cbn [fst snd]. split; [reflexivity |].
  destruct (gemini (gemini_prompt user_query)) as [text | e].
  - left. now exists text.
  - right. split; [now exists e | reflexivity].
Qed.

(** The answers of the view once the two fields are read. *)
Lemma chatbot_cases
  (InfoDict : Type) (longName : InfoDict -> option string)
  (yf_info : string -> result InfoDict)
  (generate_stock_insights : string -> InfoDict -> result (list string))
  (gemini : string -> result string) (args : ChatArgs) :
  let user_query := PyStr.strip (get (chat_query args) EmptyString) in
  let calls :=
    fst (chatbot InfoDict longName yf_info generate_stock_insights gemini args) in
  let answer :=
    snd (chatbot InfoDict longName yf_info generate_stock_insights gemini args) in
  (user_query = EmptyString -> calls = [] /\ answer = please_enter) /\
  (user_query <> EmptyString ->
   (exists t stock_info insights,
      calls = [AskInfo t] /\ supported t = true /\
      any_phrase insight_phrases (PyText.lower user_query) = true /\
      yf_info t = Ok stock_info /\
      generate_stock_insights t stock_info = Ok insights /\
      vfield "ticker" answer = Some (VStr t) /\
      vfield "insights" answer = Some (VList insights) /\
      vfield "is_stock_response" answer = Some (VBool true)) \/
   (from_gemini gemini user_query answer /\
    (calls = [AskGemini (gemini_prompt user_query)] \/
     exists t, supported t = true /\
               calls = [AskInfo t; AskGemini (gemini_prompt user_query)]))).
Proof.
  cbv zeta. unfold chatbot.
  set (user_query := PyStr.strip (get (chat_query args) EmptyString)).
  set (ticker := chat_ticker_of _ user_query).
  split.
  - intros ->. split; reflexivity.
  - intros Hq. rewrite (is_empty_false _ Hq).
    destruct (gemini_reply_spec gemini [] user_query) as (Hc0 & Ha0).
    destruct (any_phrase insight_phrases (PyText.lower user_query)
              && truthy ticker && supported (get ticker EmptyString)) eqn:E1.
    + apply Bool.andb_true_iff in E1. destruct E1 as (E1 & Hs).
      apply Bool.andb_true_iff in E1. destruct E1 as (Hi & _).
      set (t := get ticker EmptyString) in *.
      unfold or_gemini, insights_reply.
      destruct (yf_info t) as [stock_info | e] eqn:Ey; cbn [bindR].
      * destruct (generate_stock_insights t stock_info) as [insights | e] eqn:Eg;
          cbn [bindR fst snd].
        -- left. exists t, stock_info, insights. repeat split; assumption.
        -- right. destruct (gemini_reply_spec gemini [AskInfo t] user_query)
             as (Hc & Ha).
           split; [exact Ha |]. right. exists t. split; [exact Hs | exact Hc].
      * right. destruct (gemini_reply_spec gemini [AskInfo t] user_query)
          as (Hc & Ha).
        split; [exact Ha |]. right. exists t. split; [exact Hs | exact Hc].
    + right.
      destruct (any_phrase risk_phrases (PyText.lower user_query) && truthy ticker);
        unfold or_gemini, risk_reply; (split; [exact Ha0 | left; exact Hc0]).
Qed.


(** X13: the chatbot answers only a request whose body is a JSON object in
    which "query" and "ticker" are absent or strings; for any other body
    an exception leaves the view before its [try], and the framework
    answers.  A blank query is answered with the invitation to enter a
    question, without any call.  Every other answer is either the insights
    of a supported ticker, after one look-up of its information and only
    for a query with an insight phrase, or the answer of Gemini to the query
    (the apology when Gemini raises), possibly after a look-up that failed.
    No other answer exists: in particular none is a risk assessment. *)
Theorem X13_chatbot_answers
  (InfoDict : Type) (longName : InfoDict -> option string)
  (yf_info : string -> result InfoDict)
  (generate_stock_insights : string -> InfoDict -> result (list string))
  (gemini : string -> result string) (body : ChatBody) :
  match chatbot_view InfoDict longName yf_info generate_stock_insights gemini
          body with
  | Unhandled =>
      body = NoJson \/ body = NotObject \/
      exists query ticker,
        body = Object query ticker /\ (query = Other \/ ticker = Other)
  | Answered calls answer =>
      exists query ticker args,
        body = Object query ticker /\ query <> Other /\ ticker <> Other /\
        text_of query = Some (chat_query args) /\
        text_of ticker = Some (chat_ticker args) /\
        let user_query := PyStr.strip (get (chat_query args) EmptyString) in
        (user_query = EmptyString -> calls = [] /\ answer = please_enter) /\
        (user_query <> EmptyString ->
         (exists t stock_info insights,
            calls = [AskInfo t] /\ supported t = true /\
            any_phrase insight_phrases (PyText.lower user_query) = true /\
            yf_info t = Ok stock_info /\
            generate_stock_insights t stock_info = Ok insights /\
            vfield "ticker" answer = Some (VStr t) /\
            vfield "insights" answer = Some (VList insights) /\
            vfield "is_stock_response" answer = Some (VBool true)) \/
         (from_gemini gemini user_query answer /\
          (calls = [AskGemini (gemini_prompt user_query)] \/
           exists t, supported t = true /\
                     calls = [AskInfo t; AskGemini (gemini_prompt user_query)])))
  end.
Proof.
  unfold chatbot_view, chat_args.
  destruct body as [| | query ticker]; [now left | now right; left |].
  destruct query as [| q |], ticker as [| t |]; cbn [text_of];
    try (right; right; eexists _, _; split; [reflexivity | tauto]).
  all: match goal with
       | |- context [chatbot _ _ _ _ _ ?a] => eexists _, _, a
       end; split; [reflexivity |];
    split; [discriminate |]; split; [discriminate |];
    split; [reflexivity |]; split; [reflexivity |];
    apply (chatbot_cases InfoDict longName yf_info generate_stock_insights gemini).
Qed.

(** "Tell me about nvda" looks up NVDA; a query that is a number is not
    answered by the view. *)
Lemma X13_witness :
  (exists answer,
     chatbot_view unit (fun _ => None) (fun _ => Ok tt) (fun _ _ => Ok []) mute
       (Object (Text "Tell me about nvda") Absent)
     = Answered [AskInfo "NVDA"] answer /\
     vfield "ticker" answer = Some (VStr "NVDA")) /\
  chatbot_view unit (fun _ => None) (fun _ => Ok tt) (fun _ _ => Ok []) mute
    (Object Other (Text "nvda")) = Unhandled.
Proof.
  split; [| reflexivity].
  pose proof (X13_chatbot_answers unit (fun _ => None) (fun _ => Ok tt)
                (fun _ _ => Ok []) mute
                (Object (Text "Tell me about nvda") Absent)) as H.
  destruct (chatbot_view _ _ _ _ _ _) as [| calls answer] eqn:E.
  - vm_compute in E. discriminate E.
  - exists answer. destruct H as (query & ticker & args & Hb & _ & _ & Hq & _ & _ & H).
    injection Hb as <- <-. cbn [text_of] in Hq. injection Hq as Hq.
    rewrite <- Hq in H. vm_compute in E. injection E as <- <-.
    destruct H as [(t & i & l & Hc & _ & _ & _ & _ & Ht & _) | (_ & H)].
    + vm_compute. discriminate.
    + split; [reflexivity |]. injection Hc as Hc. subst t. exact Ht.
    + destruct H as [H | (t & _ & H)]; discriminate H.
Defined.

(** X14: a query without an insight phrase, a request for a risk assessment
    in particular, is answered by Gemini alone, whatever the ticker: the
    call of [assess_risk] fails before it runs, the failure is only logged,
    and no market data is looked up. *)
Theorem X14_risk_requests_go_to_gemini
  (InfoDict : Type) (longName : InfoDict -> option string)
  (yf_info : string -> result InfoDict)
  (generate_stock_insights : string -> InfoDict -> result (list string))
  (gemini : string -> result string) (args : ChatArgs) :
  let user_query := PyStr.strip (get (chat_query args) EmptyString) in
  user_query <> EmptyString ->
  any_phrase insight_phrases (PyText.lower user_query) = false ->
  fst (chatbot InfoDict longName yf_info generate_stock_insights gemini args)
    = [AskGemini (gemini_prompt user_query)] /\
  from_gemini gemini user_query
    (snd (chatbot InfoDict longName yf_info generate_stock_insights gemini args)).
Proof.
  cbv zeta. intros Hq Hi. unfold chatbot.
  rewrite (is_empty_false _ Hq), Hi. cbn [andb].
  destruct (any_phrase risk_phrases _ && truthy _);
    unfold or_gemini, risk_reply; apply gemini_reply_spec.
Qed.

(** "How risky is TSLA?" about TSLA goes to Gemini. *)
Lemma X14_witness :
  fst (chatbot unit (fun _ => None) (fun _ => Ok tt) (fun _ _ => Ok []) mute
         {| chat_query := Some "How risky is TSLA?"%string;
            chat_ticker := Some "tsla"%string |})
  = [AskGemini (gemini_prompt "How risky is TSLA?")].
Proof.
  refine (proj1 (X14_risk_requests_go_to_gemini unit (fun _ => None)
                   (fun _ => Ok tt) (fun _ _ => Ok []) mute
                   {| chat_query := Some "How risky is TSLA?"%string;
                      chat_ticker := Some "tsla"%string |} _ _)).
  - vm_compute. discriminate.
  - vm_compute. reflexivity.
Defined.

(** *** The runs of word characters *)

Lemma words_first (l cur : list string) :
  forallb PyText.is_word cur = true ->
  match PyText.words l cur with
  | [] => cur = [] /\ forallb (fun c => negb (PyText.is_word c)) l = true
  | w :: rest =>
      exists pre post,
        cur ++ l = pre ++ w ++ post /\
        forallb (fun c => negb (PyText.is_word c)) pre = true /\
        w <> [] /\ forallb PyText.is_word w = true /\
        (forall c, hd_error post = Some c -> PyText.is_word c = false) /\
        rest = PyText.words post []
  end.
Proof.
  revert cur. induction l as [| ch r IH]; intros cur Hcur.
  - cbn [PyText.words]. destruct cur as [| c0 cs]; [now split |].
    exists [], []. rewrite app_nil_r. cbn [app].
    repeat split; try assumption; try discriminate.
  - cbn [PyText.words]. destruct (PyText.is_word ch) eqn:Ew.
    + assert (forallb PyText.is_word (cur ++ [ch]) = true) as Hc'.
      { rewrite forallb_app, Hcur. cbn. now rewrite Ew. }
      specialize (IH _ Hc').
      destruct (PyText.words r (cur ++ [ch])) as [| w rest].
      * destruct IH as [IH _]. now destruct cur.
      * destruct IH as (pre & post & E & Hpre & Hw & Hww & Hpost & Hrest).
        exists pre, post. rewrite <- app_assoc in E. now repeat split.
    + destruct cur as [| c0 cs].
      * cbn [app]. specialize (IH [] eq_refl).
        destruct (PyText.words r []) as [| w rest].
        -- split; [reflexivity |]. cbn [forallb]. rewrite Ew. now destruct IH.
        -- destruct IH as (pre & post & E & Hpre & Hw & Hww & Hpost & Hrest).
           exists (ch :: pre), post. cbn [app forallb] in *. rewrite Ew, Hpre, E.
           now repeat split.
      * exists [], (ch :: r). cbn [app].
        repeat split; try assumption; try discriminate.
        -- intros c [= <-]. exact Ew.
        -- cbn [PyText.words]. now rewrite Ew.
Qed.

(** Two runs that begin at the same place are the same. *)
Lemma run_unique (w t post post' : list string) :
  w ++ post = t ++ post' ->
  forallb PyText.is_word w = true -> forallb PyText.is_word t = true ->
  (forall c, hd_error post = Some c -> PyText.is_word c = false) ->
  (forall c, hd_error post' = Some c -> PyText.is_word c = false) ->
  w = t /\ post = post'.
Proof.
  revert t. induction w as [| a w IH]; intros t E Hw Ht Hp Hp'.
  - destruct t as [| b t]; [now split |]. cbn [app] in E. subst post.
    cbn [forallb] in Ht. apply Bool.andb_true_iff in Ht.
    rewrite (Hp b eq_refl) in Ht. now destruct Ht.
  - cbn [forallb] in Hw. apply Bool.andb_true_iff in Hw. destruct Hw as [Ha Hw].
    destruct t as [| b t].
    + cbn [app] in E. subst post'. now rewrite (Hp' a eq_refl) in Ha.
    + cbn [app forallb] in *. apply Bool.andb_true_iff in Ht.
      destruct Ht as [_ Ht]. injection E as <- E.
      destruct (IH t E Hw Ht Hp Hp') as [-> ->]. now split.
Qed.

Lemma last_app (a b : list string) (c : string) :
  b <> [] -> hd_error (rev b) = Some c -> hd_error (rev (a ++ b)) = Some c.
Proof.
  intros Hb. rewrite rev_app_distr.
  destruct (rev b) as [| x y] eqn:E; [discriminate |]. trivial.
Qed.

Lemma last_In_chars (b : list string) (c : string) :
  hd_error (rev b) = Some c -> In c b.
Proof.
  intros H. apply in_rev. destruct (rev b); [discriminate |].
  injection H as ->. now left.
Qed.

Lemma last_exists (b : list string) :
  b <> [] -> exists c, hd_error (rev b) = Some c.
Proof.
  intros Hb. destruct (rev b) as [| x y] eqn:E.
  - apply (f_equal (@rev string)) in E. rewrite rev_involutive in E. now subst.
  - now exists x.
Qed.

(** A run of word characters that stands in a text whose first run is [w]
    is [w] itself or stands in what follows [w]. *)
Lemma run_position (l pre w post pre' t post' : list string) :
  l = pre ++ w ++ post ->
  forallb (fun c => negb (PyText.is_word c)) pre = true ->
  forallb PyText.is_word w = true ->
  (forall c, hd_error post = Some c -> PyText.is_word c = false) ->
  run_at l pre' t post' -> t <> [] -> forallb PyText.is_word t = true ->
  (pre' = pre /\ t = w /\ post' = post) \/
  exists m, pre' = pre ++ w ++ m /\ run_at post m t post'.
Proof.
  intros El Hpre Hw Hpost [Et [Hb Ha]] Hne Ht. rewrite El in Et.
  destruct (app_eq_app _ _ _ _ Et) as (m & [[E1 E2] | [E1 E2]]).
  - (* the other run does not begin after [pre] *)
    destruct m as [| x m].
    + rewrite app_nil_r in E1. cbn [app] in E2. subst pre'.
      destruct (run_unique _ _ _ _ E2 Ht Hw Ha Hpost) as [-> ->]. now left.
    + exfalso. destruct t as [| y t]; [now apply Hne |].
      cbn [app] in E2. injection E2 as -> _.
      cbn [forallb] in Ht. apply Bool.andb_true_iff in Ht. destruct Ht as [Hx _].
      rewrite forallb_forall in Hpre.
      assert (In x pre) as Hin by (rewrite E1; apply in_or_app; right; now left).
      apply Hpre in Hin. now rewrite Hx in Hin.
  - destruct (app_eq_app _ _ _ _ E2) as (k & [[E3 E4] | [E3 E4]]).
    + (* it begins inside [w] *)
      destruct m as [| x m].
      * rewrite app_nil_r in E1. cbn [app] in E2. subst pre'. symmetry in E2.
        destruct (run_unique _ _ _ _ E2 Ht Hw Ha Hpost) as [-> ->]. now left.
      * exfalso. destruct (last_exists (x :: m)) as (c & Hc); [discriminate |].
        assert (PyText.is_word c = false) as Hf.
        { apply Hb. rewrite E1. apply last_app; [discriminate | exact Hc]. }
        apply last_In_chars in Hc. rewrite forallb_forall in Hw.
        rewrite (Hw c) in Hf; [discriminate |].
        rewrite E3. apply in_or_app. now left.
    + (* it begins after [w] *)
      right. exists k. subst m. split; [exact E1 |]. split; [exact E4 |].
      split; [| exact Ha]. intros c Hc. apply Hb. rewrite E1, app_assoc.
      destruct k as [| x k]; [discriminate |].
      apply last_app; [discriminate | exact Hc].
Qed.

(** The first run with a property, among all the runs of the text. *)
Lemma find_run (P : list string -> bool) (n : nat) (l : list string) :
  (List.length l <= n)%nat ->
  match find P (PyText.words l []) with
  | Some w =>
      P w = true /\ w <> [] /\ forallb PyText.is_word w = true /\
      exists pre post,
        run_at l pre w post /\
        forall pre' t post',
          run_at l pre' t post' -> t <> [] ->
          forallb PyText.is_word t = true -> P t = true ->
          (List.length pre <= List.length pre')%nat
  | None =>
      forall pre' t post',
        run_at l pre' t post' -> t <> [] ->
        forallb PyText.is_word t = true -> P t = false
  end.
Proof.
  revert l. induction n as [| n IH]; intros l Hn.
  - destruct l; [| cbn in Hn; lia]. cbn.
    intros pre' t post' [E _] Hne _. exfalso. symmetry in E.
    apply app_eq_nil in E. destruct E as [_ E].
    apply app_eq_nil in E. now destruct E.
  - pose proof (words_first l [] eq_refl) as Hf. cbn [app] in Hf.
    destruct (PyText.words l []) as [| w rest].
    + cbn [find]. destruct Hf as [_ Hf].
      intros pre' t post' [E _] Hne Ht. exfalso.
      destruct t as [| y t]; [now apply Hne |].
      cbn [forallb] in Ht. apply Bool.andb_true_iff in Ht. destruct Ht as [Hy _].
      rewrite forallb_forall in Hf.
      assert (In y l) as Hin.
      { rewrite E. apply in_or_app. right. now left. }
      apply Hf in Hin. now rewrite Hy in Hin.
    + destruct Hf as (pre & post & El & Hpre & Hw & Hww & Hpost & ->).
      assert (run_at l pre w post) as Hrun.
      { split; [exact El |]. split; [| exact Hpost]. intros c Hc.
        apply last_In_chars in Hc. rewrite forallb_forall in Hpre.
        now apply Bool.negb_true_iff, Hpre. }
      cbn [find]. destruct (P w) eqn:EP.
      * split; [exact EP |]. split; [exact Hw |]. split; [exact Hww |].
        exists pre, post. split; [exact Hrun |].
        intros pre' t post' Hr Hne Ht _.
        destruct (run_position _ _ _ _ _ _ _ El Hpre Hww Hpost Hr Hne Ht)
          as [(-> & _) | (m & -> & _)]; [lia |].
        rewrite List.length_app. lia.
      * assert (List.length post <= n)%nat as Hlen.
        { rewrite El, !List.length_app in Hn. destruct w; [now contradiction Hw |].
          cbn in Hn. lia. }
        specialize (IH post Hlen).
        destruct (find P (PyText.words post [])) as [w2 |].
        -- destruct IH as (EP2 & Hw2 & Hww2 & pre2 & post2 & [E2 [Hb2 Ha2]] & Hleft).
           split; [exact EP2 |]. split; [exact Hw2 |]. split; [exact Hww2 |].
           exists (pre ++ w ++ pre2), post2. split.
           ++ split; [rewrite El, E2, <- !app_assoc; reflexivity |].
              split; [| exact Ha2]. intros c Hc.
              destruct pre2 as [| x pre2].
              ** exfalso. cbn [app] in E2. destruct w2 as [| y w2]; [now apply Hw2 |].
                 cbn [forallb] in Hww2. apply Bool.andb_true_iff in Hww2.
                 destruct Hww2 as [Hy _]. subst post.
                 now rewrite (Hpost y eq_refl) in Hy.
              ** apply Hb2.
                 destruct (last_exists (x :: pre2)) as (c' & Hc');
                   [discriminate |].
                 assert (hd_error (rev ((pre ++ w) ++ x :: pre2)) = Some c')
                   as H' by (apply last_app; [discriminate | exact Hc']).
                 rewrite app_assoc in Hc. congruence.
           ++ intros pre' t post' Hr Hne Ht HP.
              destruct (run_position _ _ _ _ _ _ _ El Hpre Hww Hpost Hr Hne Ht)
                as [(_ & -> & _) | (m & -> & Hm)]; [congruence |].
              specialize (Hleft _ _ _ Hm Hne Ht HP). rewrite !List.length_app. lia.
        -- intros pre' t post' Hr Hne Ht.
           destruct (run_position _ _ _ _ _ _ _ El Hpre Hww Hpost Hr Hne Ht)
             as [(_ & -> & _) | (m & -> & Hm)]; [exact EP |].
           exact (IH _ _ _ Hm Hne Ht).
Qed.

Lemma find_map_filter {A B} (P : B -> bool) (f : A -> B) (R : A -> bool)
  (l : list A) :
  find P (map f (filter R l))
  = option_map f (find (fun w => R w && P (f w)) l).
Proof.
  induction l as [| x l IH]; [reflexivity |]. cbn [filter find].
  destruct (R x); cbn [map find andb]; [| exact IH].
  destruct (P (f x)); [reflexivity | exact IH].
Qed.

Lemma capital_is_word (c : string) :
  PyText.is_capital c = true ->
  PyText.is_word c = true /\ PyStr.headed c = true.
Proof.
  intros H. destruct c as [| a [| b r]]; try discriminate H.
  destruct a as [[] [] [] [] [] [] [] []];
    vm_compute in H; try discriminate H; vm_compute; now split.
Qed.

Lemma ticker_run_facts (w : list string) :
  PyText.is_ticker_run w = true ->
  w <> [] /\ forallb PyText.is_word w = true /\ PyStr.chars (PyStr.cat w) = w.
Proof.
  unfold PyText.is_ticker_run. intros H.
  apply Bool.andb_true_iff in H. destruct H as [H _].
  apply Bool.andb_true_iff in H. destruct H as [Hc Hl].
  split; [now destruct w |]. rewrite forallb_forall in Hc. split.
  - apply forallb_forall. intros c Hin. now apply capital_is_word, Hc.
  - apply chars_cat, headed_shaped, forallb_forall.
    intros c Hin. now apply capital_is_word, Hc.
Qed.

Lemma supported_iff (t : string) : supported t = true <-> In t SUPPORTED_TICKERS.
Proof.
  unfold supported. rewrite existsb_exists. split.
  - intros (x & Hx & E). apply String.eqb_eq in E. now subst.
  - intros H. exists t. split; [exact H | apply String.eqb_refl].
Qed.

Lemma supported_is_ticker_run (t : string) :
  supported t = true -> PyText.is_ticker_run (PyStr.chars t) = true.
Proof.
  intros H. apply supported_iff in H. unfold SUPPORTED_TICKERS in H.
  repeat (destruct H as [<- | H]; [vm_compute; reflexivity |]). destruct H.
Qed.

(** The ticker that is looked for in a query. *)
Lemma ticker_in_query (user_query : string) :
  match chat_ticker_of EmptyString user_query with
  | Some t =>
      supported t = true /\
      exists pre post,
        stands_at (PyStr.chars (PyStr.upper user_query)) pre t post /\
        forall pre' t' post',
          supported t' = true ->
          stands_at (PyStr.chars (PyStr.upper user_query)) pre' t' post' ->
          (List.length pre <= List.length pre')%nat
  | None =>
      forall pre t post,
        supported t = true ->
        ~ stands_at (PyStr.chars (PyStr.upper user_query)) pre t post
  end.
Proof.
  unfold chat_ticker_of, stands_at. cbn [PyStr.is_empty].
  unfold PyText.findall_tickers. rewrite find_map_filter.
  set (l := PyStr.chars (PyStr.upper user_query)).
  set (P := fun w => PyText.is_ticker_run w && supported (PyStr.cat w)).
  assert (forall t, supported t = true ->
            PyStr.chars t <> [] /\
            forallb PyText.is_word (PyStr.chars t) = true /\
            P (PyStr.chars t) = true) as Hs.
  { intros t Ht. pose proof (supported_is_ticker_run t Ht) as Hr.
    destruct (ticker_run_facts _ Hr) as (H1 & H2 & _).
    split; [exact H1 |]. split; [exact H2 |].
    unfold P. now rewrite Hr, cat_chars, Ht. }
  pose proof (find_run P (List.length l) l (le_n _)) as H.
  destruct (find P (PyText.words l [])) as [w |]; cbn [option_map].
  - destruct H as (HP & _ & _ & pre & post & Hrun & Hleft).
    unfold P in HP. apply Bool.andb_true_iff in HP. destruct HP as [Hr Hsup].
    destruct (ticker_run_facts _ Hr) as (_ & _ & Hc).
    split; [exact Hsup |]. exists pre, post. rewrite Hc. split; [exact Hrun |].
    intros pre' t' post' Ht' Hrun'. destruct (Hs t' Ht') as (H1 & H2 & H3).
    exact (Hleft _ _ _ Hrun' H1 H2 H3).
  - intros pre t post Ht Hrun. destruct (Hs t Ht) as (H1 & H2 & H3).
    rewrite (H _ _ _ Hrun H1 H2) in H3. discriminate H3.
Qed.

(** X15: a ticker given with the request is used, stripped and in upper
    case, and the query is then not searched: when it is not a supported
    one, the request goes to Gemini even if the query names a supported
    ticker.  Without a ticker, the chatbot takes from the query in upper
    case the leftmost supported ticker that stands between two word
    boundaries, the word characters being those of Unicode; it takes none
    when no supported ticker stands so in the query. *)
Theorem X15_ticker_of_a_chat
  (InfoDict : Type) (longName : InfoDict -> option string)
  (yf_info : string -> result InfoDict)
  (generate_stock_insights : string -> InfoDict -> result (list string))
  (gemini : string -> result string) (args : ChatArgs) :
  let user_query := PyStr.strip (get (chat_query args) EmptyString) in
  let ticker := PyStr.upper (PyStr.strip (get (chat_ticker args) EmptyString)) in
  let text := PyStr.chars (PyStr.upper user_query) in
  (ticker <> EmptyString -> chat_ticker_of ticker user_query = Some ticker) /\
  (ticker <> EmptyString -> supported ticker = false ->
   user_query <> EmptyString ->
   fst (chatbot InfoDict longName yf_info generate_stock_insights gemini args)
   = [AskGemini (gemini_prompt user_query)]) /\
  (forall t, chat_ticker_of EmptyString user_query = Some t ->
     supported t = true /\
     exists pre post,
       stands_at text pre t post /\
       forall pre' t' post',
         supported t' = true -> stands_at text pre' t' post' ->
         (List.length pre <= List.length pre')%nat) /\
  (chat_ticker_of EmptyString user_query = None ->
   forall pre t post, supported t = true -> ~ stands_at text pre t post).
Proof.
  cbv zeta.
  set (user_query := PyStr.strip (get (chat_query args) EmptyString)).
  set (ticker := PyStr.upper (PyStr.strip (get (chat_ticker args) EmptyString))).
  pose proof (ticker_in_query user_query) as Hq.
  split; [| split; [| split]].
  - intros Ht. unfold chat_ticker_of. now rewrite (is_empty_false _ Ht).
  - intros Ht Hs Hne. unfold chatbot. fold user_query ticker.
    rewrite (is_empty_false _ Hne). unfold chat_ticker_of.
    rewrite (is_empty_false _ Ht). cbn [get truthy]. rewrite Hs.
    rewrite !Bool.andb_false_r.
    destruct (any_phrase risk_phrases _ && _); reflexivity.
  - intros t Ht. rewrite Ht in Hq. exact Hq.
  - intros Hn. rewrite Hn in Hq. exact Hq.
Qed.

(** The ticker XYZ with the query "tell me about AAPL" goes to Gemini;
    "is aapl1 or msft better" names MSFT only; and no ticker is found in
    "tell me about" followed by AAPL with an e with an acute accent in
    front of it, a letter and so a word character. *)
Lemma X15_witness :
  fst (chatbot unit (fun _ => None) (fun _ => Ok tt) (fun _ _ => Ok []) mute
         {| chat_query := Some "tell me about AAPL"%string;
            chat_ticker := Some "xyz"%string |})
  = [AskGemini (gemini_prompt "tell me about AAPL")] /\
  chat_ticker_of EmptyString "is aapl1 or msft better" = Some "MSFT"%string /\
  chat_ticker_of EmptyString
    ("tell me about " ++ PyStr.utf8 [195; 169]%N ++ "aapl") = None.
Proof.
  split; [| split; vm_compute; reflexivity].
  refine (proj1 (proj2 (X15_ticker_of_a_chat unit (fun _ => None)
                          (fun _ => Ok tt) (fun _ _ => Ok []) mute
                          {| chat_query := Some "tell me about AAPL"%string;
                             chat_ticker := Some "xyz"%string |})) _ _ _).
  - vm_compute. discriminate.
  - vm_compute. reflexivity.
  - vm_compute. discriminate.
Defined.

(** ** The shape of a normalised ticker *)

(** X16: the ticker that the routes work with is in a normal form: it has
    no small letter, it neither begins nor ends with white space, and
    normalising it again changes nothing. *)
Theorem X16_ticker_normal_form (args : Args) :
  let ticker := ticker_of args in
  no_small ticker = true /\ trimmed ticker /\
  PyStr.strip (PyStr.upper ticker) = ticker.
Proof.
  cbv zeta. unfold ticker_of.
  set (s := get (arg_ticker args) EmptyString).
  split; [apply no_small_strip_upper |].
  split; [apply strip_trimmed |].
  rewrite upper_strip_upper. apply strip_fixed, strip_trimmed.
Qed.

(** ** How many bars, and which days *)

Lemma bars_length (ny : Z -> Z) (data : DataFrame) (first : Z * Row)
  (l : list (Z * Row)) :
  sort_index (filter (in_window ny) (rows data)) = first :: l ->
  List.length (rows (bars ny data))
  = Z.to_nat ((fst (last (first :: l) first)
               - (fst first - (fst first + ny (fst first)) mod five_minutes))
              / five_minutes + 1).
Proof.
  intros E. unfold bars, resample_5T_agg. rewrite window_rows, E.
  cbn [index_tz between_time in_new_york local_seconds utcoffset rows].
  cbv zeta. now rewrite length_map, length_seq.
Qed.

Lemma filter_length {A} (f : A -> bool) (l : list A) :
  (List.length (filter f l) <= List.length l)%nat.
Proof.
  induction l as [| x l IH]; cbn; [lia |]. destruct (f x); cbn; lia.
Qed.

(** X17: a session whose samples within market hours belong to one New York
    day, under one offset, has at most 79 bars: one for each five minutes
    from 09:30 to 16:00, the bar of 16:00 included. *)
Theorem X17_at_most_79_bars (ny : Z -> Z) (data : DataFrame) (off day : Z) :
  (forall s, In s (rows data) -> in_window ny s = true ->
             ny (fst s) = off /\ (fst s + off) / 86400 = day) ->
  (List.length (session_points ny data) <= 79)%nat.
Proof.
  intros Hday. unfold session_points. rewrite length_map.
  eapply Nat.le_trans; [apply filter_length |].
  destruct (sort_index (filter (in_window ny) (rows data))) as [| first l] eqn:E.
  - unfold bars, resample_5T_agg. rewrite window_rows, E. cbn. lia.
  - rewrite (bars_length ny data first l E).
    assert (forall s, In s (first :: l) ->
              exists tod, t0930 <= tod <= t1600 /\ ny (fst s) = off /\
                          fst s + off = 86400 * day + tod) as Hin.
    { intros s Hs. rewrite <- E in Hs. apply (proj1 (sort_index_In _ _)) in Hs.
      apply filter_In in Hs. destruct Hs as [Hs Hw].
      destruct (Hday s Hs Hw) as [Ho Hd].
      unfold in_window in Hw. rewrite Ho in Hw.
      apply Bool.andb_true_iff in Hw. destruct Hw as [H1 H2].
      apply Z.leb_le in H1. apply Z.leb_le in H2.
      exists ((fst s + off) mod 86400). split; [lia |]. split; [exact Ho |].
      rewrite <- Hd. apply Z.div_mod. discriminate. }
    destruct (Hin first (or_introl eq_refl)) as (tf & Htf & Hof & Ef).
    destruct (Hin (last (first :: l) first)) as (tl & Htl & _ & El);
      [apply last_In; discriminate |].
    rewrite Hof.
    assert (0 <= (fst first + off) mod five_minutes < five_minutes) as Hm
      by (apply Z.mod_pos_bound; reflexivity).
    set (r := (fst first + off) mod five_minutes) in *.
    set (tlast := fst (last (first :: l) first)) in *.
    unfold t0930, t1600, five_minutes in *.
    assert (tlast - (fst first - r) <= 23699) as Hle by lia.
    assert ((tlast - (fst first - r)) / 300 < 79) as Hq
      by (apply Z.div_lt_upper_bound; lia).
    lia.
Qed.

(** The three bars of a session, five hours behind UTC. *)
Lemma X17_witness :
  (List.length (session_points (fun _ => (-18000)%Z) (three_bars 2024 1 9))
   <= 79)%nat.
Proof.
  apply (X17_at_most_79_bars (fun _ => -18000) (three_bars 2024 1 9) (-18000)
           ((est 2024 1 9 9 31 - 18000) / 86400)).
  intros s [<- | [<- | [<- | []]]] _; split; reflexivity.
Defined.

(** X18: which days a "1d" request asks for.  On a Saturday or a Sunday it
    asks for the last Friday and, as the fallback, for the Thursday before
    it.  On a Monday outside market hours it asks for Sunday, and for the
    Friday before only as the fallback: when the provider has nothing for
    Sunday the answer is 404 after this one query, and Friday's session is
    not asked for. *)
Theorem X18_days_asked_for
  (ny : Z -> Z) (history : Query -> result DataFrame) (now : datetime)
  (args : Args) :
  valid_time now ->
  ticker_of args <> EmptyString ->
  get (arg_period args) "1d" = "1d"%string ->
  let ticker := ticker_of args in
  let today := dt_date now in
  let session d := HistoryRange ticker d (d + 1) "1m" true in
  let calls := fst (get_stock_graph ny history now args) in
  (5 <= weekday today ->
   let friday := today - (weekday today - 4) in
   weekday friday = 4 /\
   (calls = [session friday] \/ calls = [session friday; session (friday - 1)])) /\
  (weekday today = 0 ->
   time_of_day_us now < open_us \/ close_us < time_of_day_us now ->
   let sunday := today - 1 in
   (calls = [session sunday] \/ calls = [session sunday; session (today - 3)]) /\
   (forall data, history (session sunday) = Ok data -> rows data = [] ->
      get_stock_graph ny history now args
      = ([session sunday],
         (404, JDict [("error", JStr "No valid data points after processing")]%string)))).
Proof.
  intros Hv Ht Hp ticker today session calls.
  pose proof (weekday_range today) as Hr.
  assert (calls = [primary ticker now] \/
          calls = [primary ticker now; fallback ticker now]) as Hcalls.
  { subst calls.
    rewrite (trace_is_graph_data ny history now args Ht), Hp, graph_data_1d.
    apply one_day_trace. }
  unfold primary, fallback in Hcalls. fold session in Hcalls.
  split.
  - intros Hw friday.
    assert (target_date now = friday) as Etarget.
    { unfold target_date. fold today.
      destruct (weekday today >=? 5) eqn:E;
        [| rewrite Z.geb_leb in E; apply Z.leb_gt in E; lia].
      unfold friday. assert (weekday today = 5 \/ weekday today = 6)
        as [-> | ->] by lia; reflexivity. }
    assert (weekday friday = 4) as Hf.
    { unfold friday. rewrite weekday_shift.
      assert (weekday today = 5 \/ weekday today = 6) as [-> | ->] by lia;
        reflexivity. }
    split; [exact Hf |].
    rewrite Etarget in Hcalls.
    destruct (prev_trading_day_cases friday) as (_ & H15 & _).
    rewrite H15 in Hcalls by lia. exact Hcalls.
  - intros Hw Hout sunday.
    assert (target_date now = sunday) as Etarget.
    { unfold target_date. fold today.
      destruct (weekday today >=? 5) eqn:E;
        [rewrite Z.geb_leb in E; apply Z.leb_le in E; lia |].
      destruct (datetime_leb _ _ && datetime_leb _ _) eqn:Em; [| reflexivity].
      apply (market_open_iff now Hv) in Em. lia. }
    assert (weekday sunday = 6) as Hs
      by (unfold sunday; rewrite weekday_shift, Hw; reflexivity).
    rewrite Etarget in Hcalls.
    destruct (prev_trading_day_cases sunday) as (_ & _ & H6).
    rewrite (H6 Hs) in Hcalls.
    replace (sunday - 2) with (today - 3) in Hcalls by (unfold sunday; lia).
    split; [exact Hcalls |].
    intros data Hd He.
    rewrite (get_stock_graph_cases ny history now args Ht). cbv zeta.
    rewrite Hp, graph_data_1d, one_day_cases.
    unfold primary. rewrite Etarget. fold ticker. fold (session sunday).
    rewrite Hd. unfold empty. rewrite He. reflexivity.
Qed.

(** Monday 2024-01-08 at 08:00, with three bars on Friday and nothing on
    Sunday: one query and a 404. *)
Lemma X18_witness :
  get_stock_graph ny_utcoffset_us (provider (monday - 1) (frame []) friday_three_bars)
    (at_time monday 8 0) aapl
  = ([HistoryRange "AAPL" (monday - 1) (monday - 1 + 1) "1m" true],
     (404, JDict [("error", JStr "No valid data points after processing")]%string)).
Proof.
  assert (valid_time (at_time monday 8 0)) as Hv
    by (unfold valid_time; cbn; lia).
  assert (ticker_of aapl <> EmptyString) as Ht by (vm_compute; discriminate).
  refine (proj2 (proj2 (X18_days_asked_for ny_utcoffset_us
                          (provider (monday - 1) (frame []) friday_three_bars)
                          (at_time monday 8 0) aapl Hv Ht eq_refl)
                   eq_refl _) (frame []) eq_refl eq_refl).
  left. reflexivity.
Defined.
